(** * Unit 574 mechanic-invoice scanner: classifier, archiver and scan loop

    A shallow embedding of [config.py] and [scanner.py].

    Modelling conventions.
    - A Python [str] is a [string] of 8-bit characters.  The model is of
      ASCII text: [lower] maps [A-Z] to [a-z] and leaves every other
      character alone, and characters above 127 are neither word
      characters nor white space.
    - A Python [float] is a primitive binary64 [float]; the additions,
      products and comparisons of the confidence score are the IEEE 754
      operations, evaluated by the kernel.
    - A [for] loop that appends the elements passing a test is a
      [List.filter]; a loop left by [return] is a recursive function over
      the remaining elements.
    - The Gmail service, the clock, [hashlib.md5],
      [datetime.strptime], the base64 and UTF-8 decoders and the file
      system ([pathlib]'s join, and whether a folder can be made or a
      file opened for writing) are collaborators of the program: they
      are section variables, and every theorem holds for all of them.
    - An exception is an outcome: a call that the source lets raise has
      a result for it, and the caller that does not catch it ends with
      it too. *)

From Stdlib Require Import String Ascii List Bool Arith ZArith Lia.
From Stdlib Require Import DecimalString.
From Stdlib Require Import Floats.
From stdpp Require Import gmap strings.
Import ListNotations.

Set Warnings "-inexact-float".
Local Open Scope string_scope.
Local Open Scope list_scope.

(** Let [simpl] compute string concatenation on constructors. *)
#[local] Arguments String.append !_ _ : simpl nomatch.

(* ===================================================================== *)
(** ** Python string operations used by the program *)
(* ===================================================================== *)

Module Py.

(** [c.lower()] on one ASCII character. *)
Definition lower_ascii (c : ascii) : ascii :=
  let n := nat_of_ascii c in
  if (65 <=? n)%nat && (n <=? 90)%nat then ascii_of_nat (n + 32) else c.

(** [s.lower()]. *)
Fixpoint lower (s : string) : string :=
  match s with
  | EmptyString => EmptyString
  | String c t => String (lower_ascii c) (lower t)
  end.

(** [sub in s]: substring containment. *)
Fixpoint contains (sub s : string) : bool :=
  String.prefix sub s ||
  match s with
  | EmptyString => false
  | String _ t => contains sub t
  end.

(** [s.endswith(suffix)]. *)
Fixpoint endswith (s suffix : string) : bool :=
  String.eqb s suffix ||
  match s with
  | EmptyString => false
  | String _ t => endswith t suffix
  end.

(** [s.startswith(p)]. *)
Definition startswith (s p : string) : bool := String.prefix p s.

(** [sep.join(l)]. *)
Definition join (sep : string) (l : list string) : string :=
  String.concat sep l.

(** [str(n)] for a non-negative [int]. *)
Definition str_of_nat (n : nat) : string :=
  NilZero.string_of_uint (Nat.to_uint n).

(** [repr(s)] for a string free of quotes, backslashes and control
    characters (every search term is one): the text between single
    quotes. *)
Definition repr_str (s : string) : string := "'" +:+ s +:+ "'".

(** [repr(l)], as an f-string prints a list of such strings. *)
Definition repr_list (l : list string) : string :=
  "[" +:+ join ", " (List.map repr_str l) +:+ "]".

(** [s[-n:]] for [n > 0]: the last [n] characters (all of [s] when it
    is shorter). *)
Definition last_chars (n : nat) (s : string) : string :=
  String.substring (String.length s - n) n s.

(** [s[:n]]. *)
Definition first_chars (n : nat) (s : string) : string :=
  String.substring 0 n s.

(** [min(x, y)] on floats: Python keeps the first argument unless the
    second is strictly smaller. *)
Definition min (x y : float) : float :=
  if PrimFloat.ltb y x then y else x.

(** [float(n)] for the (small) non-negative integers of the program. *)
Definition float_of_nat (n : nat) : float :=
  PrimFloat.of_uint63 (Uint63.of_Z (Z.of_nat n)).

(** Round the non-negative rational [m * 2^e] to the nearest integer,
    ties to even: what the fixed-point formatting with no decimals
    prints. *)
Definition round_half_even (m : positive) (e : Z) : Z :=
  match e with
  | Z0 => Zpos m
  | Zpos p => Zpos m * 2 ^ Zpos p
  | Zneg p =>
      let d := (2 ^ Zpos p)%Z in
      let q := (Zpos m / d)%Z in
      let r := (Zpos m mod d)%Z in
      match (2 * r ?= d)%Z with
      | Lt => q
      | Gt => (q + 1)%Z
      | Eq => if Z.even q then q else (q + 1)%Z
      end
  end.

(** [f"{x:.0%}"]: [x * 100] in fixed point with no decimals, then a
    percent sign. *)
Definition format_percent0 (x : float) : string :=
  match Prim2SF (x * 100)%float with
  | S754_zero s => (if s then "-0" else "0") +:+ "%"
  | S754_infinity s => (if s then "-inf" else "inf") +:+ "%"
  | S754_nan => "nan%"
  | S754_finite s m e =>
      (if s then "-" else EmptyString) +:+
      str_of_nat (Z.to_nat (round_half_even m e)) +:+ "%"
  end.

End Py.

(* ===================================================================== *)
(** ** config.py *)
(* ===================================================================== *)

Definition UNIT_NUMBER : string := "574".
Definition FULL_VIN : string := "3AKJHHDR7KSKE1598".

Definition VIN_LAST_8 : string := Py.last_chars 8 FULL_VIN.
Definition VIN_LAST_6 : string := Py.last_chars 6 FULL_VIN.
Definition VIN_LAST_4 : string := Py.last_chars 4 FULL_VIN.

Definition SEARCH_TERMS : list string :=
  [ FULL_VIN; VIN_LAST_8; VIN_LAST_6; VIN_LAST_4; UNIT_NUMBER;
    "Unit " +:+ UNIT_NUMBER; "Unit#" +:+ UNIT_NUMBER; "Unit-" +:+ UNIT_NUMBER;
    "Truck " +:+ UNIT_NUMBER; "Truck#" +:+ UNIT_NUMBER;
    "Unit: " +:+ UNIT_NUMBER ].

Definition MECHANIC_KEYWORDS : list string :=
  [ "invoice"; "repair"; "mechanic"; "service"; "maintenance";
    "preventive maintenance"; "pm service";
    "tow"; "towing"; "roadside"; "breakdown"; "recovery";
    "oil change"; "lube"; "lubricant"; "fluid"; "coolant"; "antifreeze";
    "def"; "diesel exhaust fluid";
    "parts"; "brake"; "tire"; "battery"; "filter"; "belt"; "hose";
    "alternator"; "starter"; "transmission"; "engine"; "exhaust"; "dpf";
    "egr"; "turbo"; "suspension"; "steering"; "axle"; "wheel"; "bearing";
    "labor"; "labour"; "diagnostic"; "inspection"; "dot inspection";
    "annual inspection";
    "truck shop"; "truck repair"; "diesel repair"; "freightliner";
    "peterbilt"; "kenworth"; "volvo"; "international"; "mack"; "ta petro";
    "loves"; "pilot"; "speedco"; "rush truck" ].

Definition EXCLUDE_KEYWORDS : list string :=
  [ "rate confirmation"; "rate con"; "ratecon"; "rate sheet";
    "load confirmation"; "load tender"; "dispatch"; "broker"; "freight";
    "shipment"; "pickup"; "delivery"; "bol"; "bill of lading"; "pod";
    "proof of delivery"; "lumper"; "detention"; "accessorial";
    "insurance policy"; "certificate of insurance"; "ifta"; "2290";
    "registration renewal";
    "fuel discount report"; "rxo fuel discount"; "fuel receipt"; "comdata";
    "efs"; "tcheck"; "pilot flying j"; "pricing - pilot";
    "settlement"; "pay stub"; "payroll"; "direct deposit"; "1099"; "w2";
    "zelle"; "payment has been sent" ].

Definition EXCLUDE_SENDERS : list string :=
  [ "no-reply@dat.com"; "no-reply@truckstop.com";
    "notifications@keeptruckin.com"; "notifications@motive.com";
    "noreply@uber.com" ].

(* ===================================================================== *)
(** ** scanner.py: class InvoiceClassifier *)
(* ===================================================================== *)

(** The instance attributes set by [__init__]. *)
Record InvoiceClassifier := {
  mechanic_keywords : list string;
  exclude_keywords : list string;
  search_terms : list string;
  exclude_senders : list string
}.

(** [InvoiceClassifier.__init__]: the configured vocabularies, lowered. *)
Definition InvoiceClassifier_init : InvoiceClassifier :=
  {| mechanic_keywords := List.map Py.lower MECHANIC_KEYWORDS;
     exclude_keywords := List.map Py.lower EXCLUDE_KEYWORDS;
     search_terms := List.map Py.lower SEARCH_TERMS;
     exclude_senders := List.map Py.lower EXCLUDE_SENDERS |}.

(** The dict returned by [classify]. *)
Record Decision := {
  is_mechanic_invoice : bool;
  confidence : float;
  reason : string;
  found_identifiers : list string;
  found_keywords : list string
}.

(** [contains_truck_identifier]. *)
Definition contains_truck_identifier (self : InvoiceClassifier)
    (text : string) : bool * list string :=
  let text_lower := Py.lower text in
  let found_terms :=
    List.filter (fun term => Py.contains (Py.lower term) text_lower)
                (search_terms self) in
  ((0 <? List.length found_terms)%nat, found_terms).

(** [is_mechanic_related]. *)
Definition is_mechanic_related (self : InvoiceClassifier)
    (text : string) : bool * list string :=
  let text_lower := Py.lower text in
  let found_keywords :=
    List.filter (fun keyword => Py.contains keyword text_lower)
                (mechanic_keywords self) in
  ((0 <? List.length found_keywords)%nat, found_keywords).

(** [sum(1 for kw in kws if kw in text_lower)]. *)
Definition count_in (kws : list string) (text_lower : string) : nat :=
  List.length (List.filter (fun kw => Py.contains kw text_lower) kws).

(** The first loop of [should_exclude]: the first excluded sender found
    in the lowered sender, if any. *)
Fixpoint sender_loop (senders : list string) (sender_lower : string)
    : option string :=
  match senders with
  | [] => None
  | excluded_sender :: rest =>
      if Py.contains excluded_sender sender_lower
      then Some ("Excluded sender: " +:+ excluded_sender)
      else sender_loop rest sender_lower
  end.

(** The test of the special case: the keyword itself holds both words. *)
Definition is_rate_confirmation (keyword : string) : bool :=
  Py.contains "rate" keyword && Py.contains "confirm" keyword.

(** The second loop of [should_exclude], over the exclusion keywords
    still to visit. *)
Fixpoint keyword_loop (self : InvoiceClassifier) (keywords : list string)
    (text_lower : string) : option string :=
  match keywords with
  | [] => None
  | keyword :: rest =>
      if Py.contains keyword text_lower then
        if is_rate_confirmation keyword then
          Some "Rate confirmation detected"
        else
          let exclude_count := count_in (exclude_keywords self) text_lower in
          let mechanic_count := count_in (mechanic_keywords self) text_lower in
          if (mechanic_count <? exclude_count)%nat then
            Some ("More exclusion signals (" +:+ Py.str_of_nat exclude_count
                  +:+ ") than mechanic signals ("
                  +:+ Py.str_of_nat mechanic_count +:+ ")")
          else keyword_loop self rest text_lower
      else keyword_loop self rest text_lower
  end.

(** [should_exclude]. *)
Definition should_exclude (self : InvoiceClassifier) (text sender : string)
    : bool * string :=
  let text_lower := Py.lower text in
  let sender_lower := Py.lower sender in
  match sender_loop (exclude_senders self) sender_lower with
  | Some r => (true, r)
  | None =>
      match keyword_loop self (exclude_keywords self) text_lower with
      | Some r => (true, r)
      | None => (false, EmptyString)
      end
  end.

(** The text every check reads:
    [f"{subject} {body} {' '.join(attachment_names)}"]. *)
Definition full_text_of (subject body : string)
    (attachment_names : list string) : string :=
  subject +:+ " " +:+ body +:+ " " +:+ Py.join " " attachment_names.

(** Step 4 of [classify], one definition per commented block; each takes
    the running [confidence] and returns the new one. *)
Definition vin_step (full_text : string) (confidence : float) : float :=
  let t := Py.lower full_text in
  if Py.contains (Py.lower FULL_VIN) t then (confidence + 0.4)%float
  else if Py.contains (Py.lower VIN_LAST_8) t then (confidence + 0.35)%float
  else if Py.contains (Py.lower VIN_LAST_6) t then (confidence + 0.25)%float
  else if Py.contains (Py.lower VIN_LAST_4) t then (confidence + 0.15)%float
  else confidence.

Definition unit_step (full_text : string) (confidence : float) : float :=
  if Py.contains (Py.lower ("unit " +:+ UNIT_NUMBER)) (Py.lower full_text)
  then (confidence + 0.2)%float
  else if Py.contains UNIT_NUMBER full_text then (confidence + 0.1)%float
  else confidence.

Definition keyword_score (n : nat) : float :=
  Py.min (Py.float_of_nat n * 0.1)%float 0.4%float.

Definition keyword_step (found_keywords : list string) (confidence : float)
    : float :=
  (confidence + keyword_score (List.length found_keywords))%float.

Definition has_pdf (attachment_names : list string) : bool :=
  List.existsb (fun name => Py.endswith (Py.lower name) ".pdf")
               attachment_names.

Definition pdf_step (attachment_names : list string) (confidence : float)
    : float :=
  if has_pdf attachment_names then (confidence + 0.1)%float else confidence.

Definition subject_step (subject : string) (confidence : float) : float :=
  if Py.contains "invoice" (Py.lower subject) then (confidence + 0.15)%float
  else confidence.

(** The value of [confidence] when the threshold test reads it. *)
Definition confidence_score (subject full_text : string)
    (found_keywords attachment_names : list string) : float :=
  let confidence := 0.0%float in
  let confidence := vin_step full_text confidence in
  let confidence := unit_step full_text confidence in
  let confidence := keyword_step found_keywords confidence in
  let confidence := pdf_step attachment_names confidence in
  let confidence := subject_step subject confidence in
  Py.min confidence 1.0%float.

(** Steps 2 to 4 of [classify]: what runs once [should_exclude] has
    answered [False]. *)
Definition classify_from_identifiers (self : InvoiceClassifier)
    (subject : string) (full_text : string)
    (attachment_names : list string) : Decision :=
  let '(has_truck_id, found_ids) := contains_truck_identifier self full_text in
  if negb has_truck_id then
    {| is_mechanic_invoice := false; confidence := 0.0%float;
       reason := "No truck identifier found (574, VIN, etc.)";
       found_identifiers := found_ids; found_keywords := [] |}
  else
    let '(is_mechanic, found_kws) := is_mechanic_related self full_text in
    if negb is_mechanic then
      {| is_mechanic_invoice := false; confidence := 0.0%float;
         reason := "Found truck ID (" +:+ Py.repr_list found_ids
                   +:+ ") but no mechanic keywords";
         found_identifiers := found_ids; found_keywords := found_kws |}
    else
      let confidence :=
        confidence_score subject full_text found_kws attachment_names in
      if PrimFloat.leb 0.3%float confidence then
        {| is_mechanic_invoice := true; confidence := confidence;
           reason := "Mechanic invoice detected (confidence: "
                     +:+ Py.format_percent0 confidence +:+ ")";
           found_identifiers := found_ids; found_keywords := found_kws |}
      else
        {| is_mechanic_invoice := false; confidence := 0.0%float;
           reason := "Low confidence (" +:+ Py.format_percent0 confidence
                     +:+ ") - not enough signals";
           found_identifiers := found_ids; found_keywords := found_kws |}.

(** [classify]. *)
Definition classify (self : InvoiceClassifier)
    (subject body sender : string) (attachment_names : list string)
    : Decision :=
  let full_text := full_text_of subject body attachment_names in
  let '(excluded, exclude_reason) := should_exclude self full_text sender in
  if excluded then
    {| is_mechanic_invoice := false; confidence := 0.0%float;
       reason := "EXCLUDED: " +:+ exclude_reason;
       found_identifiers := []; found_keywords := [] |}
  else classify_from_identifiers self subject full_text attachment_names.

(** Whether Step 4 runs: the message is not excluded, names the truck and
    has a mechanic keyword. *)
Definition reaches_scoring (self : InvoiceClassifier)
    (subject body sender : string) (attachment_names : list string) : bool :=
  let full_text := full_text_of subject body attachment_names in
  negb (fst (should_exclude self full_text sender))
  && fst (contains_truck_identifier self full_text)
  && fst (is_mechanic_related self full_text).

(** The score Step 4 computes, when it runs. *)
Definition computed_confidence (self : InvoiceClassifier)
    (subject body sender : string) (attachment_names : list string)
    : option float :=
  let full_text := full_text_of subject body attachment_names in
  if reaches_scoring self subject body sender attachment_names then
    Some (confidence_score subject full_text
            (snd (is_mechanic_related self full_text)) attachment_names)
  else None.

(** A character is a letter of the ASCII alphabet. *)
Definition is_letter (c : ascii) : bool :=
  let n := nat_of_ascii c in
  ((65 <=? n)%nat && (n <=? 90)%nat) || ((97 <=? n)%nat && (n <=? 122)%nat).

(** A string without letters: [lower] cannot change it, nor create it. *)
Fixpoint caseless (s : string) : bool :=
  match s with
  | EmptyString => true
  | String c t => negb (is_letter c) && caseless t
  end.


(** The signals Step 4 reads, as numbers: which VIN form the first
    [if]/[elif] chain stops at (4: full VIN, 3: last 8, 2: last 6,
    1: last 4, 0: none), which branch the unit-number test takes
    (2: "unit 574", 1: the bare number, 0: neither), and the subject
    test. *)
Definition vin_rank (full_text : string) : nat :=
  let t := Py.lower full_text in
  if Py.contains (Py.lower FULL_VIN) t then 4
  else if Py.contains (Py.lower VIN_LAST_8) t then 3
  else if Py.contains (Py.lower VIN_LAST_6) t then 2
  else if Py.contains (Py.lower VIN_LAST_4) t then 1
  else 0.

Definition unit_rank (full_text : string) : nat :=
  if Py.contains (Py.lower ("unit " +:+ UNIT_NUMBER)) (Py.lower full_text)
  then 2
  else if Py.contains UNIT_NUMBER full_text then 1
  else 0.

Definition subject_has_invoice (subject : string) : bool :=
  Py.contains "invoice" (Py.lower subject).

(** Step 4 as a function of those signals and of the number of mechanic
    keywords found. *)
Definition score_of (vin unit n : nat) (pdf inv : bool) : float :=
  let c := 0.0%float in
  let c := match vin with
           | 4 => (c + 0.4)%float
           | 3 => (c + 0.35)%float
           | 2 => (c + 0.25)%float
           | 1 => (c + 0.15)%float
           | _ => c
           end in
  let c := match unit with
           | 2 => (c + 0.2)%float
           | 1 => (c + 0.1)%float
           | _ => c
           end in
  let c := (c + keyword_score n)%float in
  let c := if pdf then (c + 0.1)%float else c in
  let c := if inv then (c + 0.15)%float else c in
  Py.min c 1.0%float.

(* ===================================================================== *)
(** ** scanner.py: class GmailMechanicScanner *)
(* ===================================================================== *)

(** *** More string operations: white space, regular-expression classes *)

Module PyText.

(** [c.isspace()] on ASCII, which is also the class [\s] of [re]: tab
    to carriage return, the four separators 28 to 31, and the space. *)
Definition is_space (c : ascii) : bool :=
  let n := nat_of_ascii c in
  ((9 <=? n)%nat && (n <=? 13)%nat) || ((28 <=? n)%nat && (n <=? 32)%nat).

(** The class [\w] of [re] on ASCII: letters, digits and underscore. *)
Definition is_word (c : ascii) : bool :=
  let n := nat_of_ascii c in
  is_letter c || ((48 <=? n)%nat && (n <=? 57)%nat) || (n =? 95)%nat.

(** [re.sub(r'[^\w\s-]', '', s)]: drop every character that is neither a
    word character, nor white space, nor a hyphen. *)
Fixpoint strip_non_word (s : string) : string :=
  match s with
  | EmptyString => EmptyString
  | String c t =>
      if is_word c || is_space c || (nat_of_ascii c =? 45)%nat
      then String c (strip_non_word t)
      else strip_non_word t
  end.

(** [re.sub(r'\s+', '_', s)]: every maximal run of white space becomes
    one underscore. *)
Fixpoint collapse_spaces (s : string) : string :=
  match s with
  | EmptyString => EmptyString
  | String c t =>
      if is_space c then
        match t with
        | String c' _ =>
            if is_space c' then collapse_spaces t
            else String "_" (collapse_spaces t)
        | EmptyString => String "_" EmptyString
        end
      else String c (collapse_spaces t)
  end.

(** [s.lstrip()], [s.rstrip()] and [s.strip()]. *)
Fixpoint lstrip (s : string) : string :=
  match s with
  | EmptyString => EmptyString
  | String c t => if is_space c then lstrip t else s
  end.

Fixpoint rstrip (s : string) : string :=
  match s with
  | EmptyString => EmptyString
  | String c t =>
      match rstrip t with
      | EmptyString => if is_space c then EmptyString
                       else String c EmptyString
      | t' => String c t'
      end
  end.

Definition strip (s : string) : string := rstrip (lstrip s).

(** [s.split(sep)[0]] for a non-empty [sep]: the text before the first
    occurrence of [sep], all of [s] when there is none. *)
Fixpoint before (sep s : string) : string :=
  if String.prefix sep s then EmptyString
  else match s with
       | EmptyString => EmptyString
       | String c t => String c (before sep t)
       end.

(** The text after the first comma, if there is a comma. *)
Fixpoint after_comma (s : string) : option string :=
  match s with
  | EmptyString => None
  | String c t => if (nat_of_ascii c =? 44)%nat then Some t
                  else after_comma t
  end.

(** [s.split(',')[1]]; [None] stands for the [IndexError] of a string
    without comma. *)
Definition second_field (s : string) : option string :=
  match after_comma s with
  | Some rest => Some (before "," rest)
  | None => None
  end.

(** A number in decimal, padded with zeros to [width] digits. *)
Definition zero_pad (width n : nat) : string :=
  let digits := Py.str_of_nat n in
  String.concat EmptyString
    (List.repeat "0" (width - String.length digits)) +:+ digits.

End PyText.

(** *** Data *)

(** The calendar date of a [datetime]; the program formats nothing else
    of it when it archives. *)
Record Date := { year : nat; month : nat; day : nat }.

(** [d.strftime('%Y-%m')] and [d.strftime('%Y%m%d')]. *)
Definition strftime_Y_m (d : Date) : string :=
  PyText.zero_pad 4 (year d) +:+ "-" +:+ PyText.zero_pad 2 (month d).

Definition strftime_Ymd (d : Date) : string :=
  PyText.zero_pad 4 (year d) +:+ PyText.zero_pad 2 (month d)
  +:+ PyText.zero_pad 2 (day d).

(** An entry of [_get_attachments_info]. *)
Record Attachment := {
  att_filename : string;
  att_mimeType : string;
  att_attachmentId : option string;
  att_size : nat
}.

(** The dict returned by [get_email_details] (without the raw message). *)
Record Email := {
  email_id : string;
  email_subject : string;
  email_sender : string;
  email_date : string;
  email_body : string;
  email_attachments : list Attachment
}.

(* ===================================================================== *)
(** ** scanner.py: reading a message ([get_email_details], [_get_body],
       [_get_attachments_info]) *)
(* ===================================================================== *)

(** A header of a message part: the dict with the keys [name] and
    [value], either of which may be missing. *)
Record Header := {
  header_name : option string;
  header_value : option string
}.

(** The [body] dict of a part. *)
Record PartBody := {
  body_data : option string;
  body_attachmentId : option string;
  body_size : option nat
}.

(** A part of a message payload, the payload itself being the root part.
    A missing key is [None]; [headers] is only read with the default
    [[]], so a missing list and an empty one are the same list here. *)
#[warnings="-register-all"]
Inductive Part :=
| mkPart (mimeType : option string) (filename : option string)
    (body : option PartBody) (headers : list Header)
    (parts : option (list Part)).

Definition part_mimeType (p : Part) : option string :=
  match p with mkPart m _ _ _ _ => m end.

Definition part_filename (p : Part) : option string :=
  match p with mkPart _ f _ _ _ => f end.

Definition part_body (p : Part) : option PartBody :=
  match p with mkPart _ _ b _ _ => b end.

Definition part_headers (p : Part) : list Header :=
  match p with mkPart _ _ _ h _ => h end.

Definition part_parts (p : Part) : option (list Part) :=
  match p with mkPart _ _ _ _ ps => ps end.

(** The message dict the API returns; [message.get('payload', {})] reads
    a missing payload as the empty dict. *)
Record Message := {
  msg_payload : option Part
}.

Definition empty_part : Part := mkPart None None None [] None.

Definition payload_of (message : Message) : Part :=
  match msg_payload message with
  | Some p => p
  | None => empty_part
  end.

(** [d.get(key, '')]. *)
Definition get_or_empty (v : option string) : string :=
  match v with
  | Some s => s
  | None => EmptyString
  end.

(** [part.get('body', {}).get('data')] when it is truthy: a string that
    is there and not empty. *)
Definition data_of (body : option PartBody) : option string :=
  match body with
  | Some b =>
      match body_data b with
      | Some d => if String.eqb d EmptyString then None else Some d
      | None => None
      end
  | None => None
  end.

(** [part.get('mimeType') == mime]. *)
Definition mime_is (part : Part) (mime : string) : bool :=
  match part_mimeType part with
  | Some m => String.eqb m mime
  | None => false
  end.

(** *** The header loop of [get_email_details] *)

(** The three variables of the loop. *)
Record HeaderFields := {
  hf_subject : string;
  hf_sender : string;
  hf_date : string
}.

(** One turn of [for header in headers]. *)
Definition header_step (st : HeaderFields) (header : Header) : HeaderFields :=
  let name := Py.lower (get_or_empty (header_name header)) in
  if String.eqb name "subject" then
    {| hf_subject := get_or_empty (header_value header);
       hf_sender := hf_sender st; hf_date := hf_date st |}
  else if String.eqb name "from" then
    {| hf_subject := hf_subject st;
       hf_sender := get_or_empty (header_value header);
       hf_date := hf_date st |}
  else if String.eqb name "date" then
    {| hf_subject := hf_subject st; hf_sender := hf_sender st;
       hf_date := get_or_empty (header_value header) |}
  else st.

Definition extract_headers (headers : list Header) : HeaderFields :=
  List.fold_left header_step headers
    {| hf_subject := EmptyString; hf_sender := EmptyString;
       hf_date := EmptyString |}.

(** *** [re.sub(r'<[^>]+>', ' ', html)] *)

(** The text after the first [>] of [s], when there is one. *)
Fixpoint after_gt (s : string) : option string :=
  match s with
  | EmptyString => None
  | String c t => if Ascii.eqb c ">" then Some t else after_gt t
  end.

(** A match of [<[^>]+>] at the start of [s]: a [<], at least one
    character that is not [>], and the first [>] after them.  The result
    is the text that follows the match. *)
Definition match_tag (s : string) : option string :=
  match s with
  | String c (String c' t) =>
      if Ascii.eqb c "<" && negb (Ascii.eqb c' ">") then after_gt t
      else None
  | _ => None
  end.

(** The substitution, from left to right: a match becomes one space and
    the scan goes on after it; a character where no match starts is
    kept.  [fuel] bounds the number of turns. *)
Fixpoint strip_tags_fuel (fuel : nat) (s : string) : string :=
  match fuel with
  | O => EmptyString
  | S fuel' =>
      match s with
      | EmptyString => EmptyString
      | String c t =>
          match match_tag s with
          | Some rest => String " " (strip_tags_fuel fuel' rest)
          | None => String c (strip_tags_fuel fuel' t)
          end
      end
  end.

(** One turn for each character is enough. *)
Definition strip_tags (html : string) : string :=
  strip_tags_fuel (String.length html) html.

(** *** [_get_attachments_info] *)

(** The dict appended for a part with a file name. *)
Definition attachment_of (filename : string) (part : Part) : Attachment :=
  {| att_filename := filename;
     att_mimeType := get_or_empty (part_mimeType part);
     att_attachmentId :=
       match part_body part with
       | Some b => body_attachmentId b
       | None => None
       end;
     att_size :=
       match part_body part with
       | Some b => match body_size b with Some n => n | None => 0%nat end
       | None => 0%nat
       end |}.

(** The inner function [extract_attachments], which appends to the list
    [attachments] of the enclosing call; the list is passed in and
    returned. *)
Fixpoint extract_attachments (part : Part) (attachments : list Attachment)
    : list Attachment :=
  match part with
  | mkPart _ filename _ _ parts =>
      let attachments :=
        match filename with
        | Some f =>
            if String.eqb f EmptyString then attachments
            else attachments ++ [attachment_of f part]
        | None => attachments
        end in
      match parts with
      | None => attachments
      | Some ps =>
          (fix each (ps : list Part) (attachments : list Attachment)
             : list Attachment :=
             match ps with
             | [] => attachments
             | subpart :: rest =>
                 each rest (extract_attachments subpart attachments)
             end) ps attachments
      end
  end.

Definition get_attachments_info (payload : Part) : list Attachment :=
  extract_attachments payload [].

(** The loop [for subpart in part['parts']] of [extract_attachments], by
    itself. *)
Fixpoint extract_attachments_each (ps : list Part)
    (attachments : list Attachment) : list Attachment :=
  match ps with
  | [] => attachments
  | subpart :: rest =>
      extract_attachments_each rest (extract_attachments subpart attachments)
  end.

(** *** [_get_body] and [get_email_details] *)

Section Reader.

(** [base64.urlsafe_b64decode(data).decode('utf-8', errors='ignore')];
    [None] when the data is not valid base64 and the call raises. *)
Variable decode : string -> option string.

(** [None] is that exception, which nothing in the scanner catches. *)
Fixpoint get_body (payload : Part) : option string :=
  match payload with
  | mkPart _ _ own _ parts =>
      match
        match data_of own with
        | Some d => decode d
        | None => Some EmptyString
        end
      with
      | None => None
      | Some body =>
          match parts with
          | None => Some body
          | Some ps =>
              (fix each (ps : list Part) (body : string) : option string :=
                 match ps with
                 | [] => Some body
                 | part :: rest =>
                     if mime_is part "text/plain" then
                       match data_of (part_body part) with
                       | Some d =>
                           match decode d with
                           | Some text => each rest (body +:+ text)
                           | None => None
                           end
                       | None => each rest body
                       end
                     else if mime_is part "text/html" then
                       match data_of (part_body part) with
                       | Some d =>
                           match decode d with
                           | Some html =>
                               each rest (body +:+ strip_tags html)
                           | None => None
                           end
                       | None => each rest body
                       end
                     else
                       match part_parts part with
                       | Some _ =>
                           match get_body part with
                           | Some text => each rest (body +:+ text)
                           | None => None
                           end
                       | None => each rest body
                       end
                 end) ps body
          end
      end
  end.

(** The loop [for part in payload['parts']] of [_get_body], by itself. *)
Fixpoint get_body_each (ps : list Part) (body : string) : option string :=
  match ps with
  | [] => Some body
  | part :: rest =>
      if mime_is part "text/plain" then
        match data_of (part_body part) with
        | Some d =>
            match decode d with
            | Some text => get_body_each rest (body +:+ text)
            | None => None
            end
        | None => get_body_each rest body
        end
      else if mime_is part "text/html" then
        match data_of (part_body part) with
        | Some d =>
            match decode d with
            | Some html => get_body_each rest (body +:+ strip_tags html)
            | None => None
            end
        | None => get_body_each rest body
        end
      else
        match part_parts part with
        | Some _ =>
            match get_body part with
            | Some text => get_body_each rest (body +:+ text)
            | None => None
            end
        | None => get_body_each rest body
        end
  end.

(** How a call of [get_email_details] ends. *)
Inductive Fetch :=
| FetchRaised
| FetchNone
| Fetched (email : Email).

(** [get_email_details] over the call [messages().get(...)], which gives
    the message or fails with an [HttpError] ([None]). *)
Definition get_email_details_of (messages_get : string -> option Message)
    (msg_id : string) : Fetch :=
  match messages_get msg_id with
  | None => FetchNone
  | Some message =>
      let fields := extract_headers (part_headers (payload_of message)) in
      match get_body (payload_of message) with
      | None => FetchRaised
      | Some body =>
          Fetched
            {| email_id := msg_id;
               email_subject := hf_subject fields;
               email_sender := hf_sender fields;
               email_date := hf_date fields;
               email_body := body;
               email_attachments :=
                 get_attachments_info (payload_of message) |}
      end
  end.

End Reader.

(* ===================================================================== *)
(** ** scanner.py: the scanner, the archive and the scan *)
(* ===================================================================== *)

(** The Gmail service as the scanner uses it.  [None] is an [HttpError].
    [messages_list] is the list of message ids the query returns,
    [messages_get] the message of an id, and [attachments_get] the body
    dict of an attachment, whose [data] is still encoded. *)
Record Service := {
  messages_list : option (list string);
  messages_get : string -> option Message;
  attachments_get : string -> string -> option PartBody
}.

(** An entry of [results["invoices"]]. *)
Record InvoiceRecord := {
  inv_id : string;
  inv_subject : string;
  inv_sender : string;
  inv_date : string;
  inv_confidence : float;
  inv_identifiers : list string;
  inv_keywords : list string;
  inv_attachments_downloaded : list string
}.

(** The [results] dict of [scan]. *)
Record Results := {
  total_scanned : nat;
  invoices_found : nat;
  attachments_downloaded : nat;
  skipped_rate_confirmations : nat;
  skipped_no_identifier : nat;
  skipped_not_mechanic : nat;
  skipped_already_processed : nat;
  invoices : list InvoiceRecord
}.

(** What the scanner keeps outside its own memory: the files and folders
    under the download directory, by path, the paths written so far
    (latest first), the ledger file [processed_emails.json] ([None]: no
    such file) and the scan summaries written, by time stamp.  Paths are
    compared as texts. *)
Record World := {
  files : gmap string (list Byte.byte);
  dirs : gset string;
  written : list string;
  ledger_file : option (gset string);
  summaries : list (string * Results)
}.

(** The scanner object. *)
Record GmailMechanicScanner := {
  service : Service;
  classifier : InvoiceClassifier;
  processed_ids : gset string;
  download_dir : string
}.

(** *** File-system effects *)

(** What the scanner does not decide about the file system:
    [fs_join dir name] is [str(Path(dir) / name)], and the two tests say
    whether the operating system, in a given world, lets a missing
    folder be created (with its parents) and lets a path that does not
    exist be opened for writing.  The second fails, for one, when the
    folder the path lies in does not exist. *)
Record FileSystem := {
  fs_join : string -> string -> string;
  fs_can_mkdir : World -> string -> bool;
  fs_can_open : World -> string -> bool
}.

(** [path.exists()]. *)
Definition path_exists (w : World) (path : string) : bool :=
  bool_decide (is_Some (files w !! path)) || bool_decide (path ∈ dirs w).

(** [folder.mkdir(parents=True, exist_ok=True)]; [None] when it raises.
    A folder that exists is left alone, a file at the path is an error,
    and a missing folder is created when the operating system lets
    it. *)
Definition mkdir (fs : FileSystem) (w : World) (folder : string)
    : option World :=
  if bool_decide (folder ∈ dirs w) then Some w
  else if bool_decide (is_Some (files w !! folder)) then None
  else if fs_can_mkdir fs w folder then
    Some {| files := files w; dirs := {[folder]} ∪ dirs w;
            written := written w; ledger_file := ledger_file w;
            summaries := summaries w |}
  else None.

(** [with open(path, 'wb') as f: f.write(data)]; [None] when [open]
    raises. *)
Definition write_file (fs : FileSystem) (w : World) (path : string)
    (data : list Byte.byte) : option World :=
  if fs_can_open fs w path then
    Some {| files := <[path := data]> (files w); dirs := dirs w;
            written := path :: written w;
            ledger_file := ledger_file w; summaries := summaries w |}
  else None.

(** [_load_processed_ids]: the ids of the ledger file, or the empty set
    the constructor starts from. *)
Definition load_processed_ids (w : World) : gset string :=
  match ledger_file w with
  | Some ids => ids
  | None => ∅
  end.

(** [_save_processed_ids]. *)
Definition save_processed_ids (self : GmailMechanicScanner) (w : World)
    : World :=
  {| files := files w; dirs := dirs w; written := written w;
     ledger_file := Some (processed_ids self); summaries := summaries w |}.

(** [GmailMechanicScanner.__init__]: create the download directory and
    load the ledger; [None] when creating the directory raises. *)
Definition GmailMechanicScanner_init (fs : FileSystem) (svc : Service)
    (dir : string) (w : World) : option (GmailMechanicScanner * World) :=
  match mkdir fs w dir with
  | None => None
  | Some w =>
      Some ({| service := svc; classifier := InvoiceClassifier_init;
               processed_ids := load_processed_ids w;
               download_dir := dir |}, w)
  end.

Section Archiver.

(** [hashlib.md5(data).hexdigest()],
    [datetime.strptime(s, '%d %b %Y %H:%M:%S')] ([None]: it raises), the
    decoding of a body text as in [_get_body], and
    [base64.urlsafe_b64decode] on the data of an attachment ([None]: it
    raises). *)
Variable md5_hexdigest : list Byte.byte -> string.
Variable strptime : string -> option Date.
Variable decode : string -> option string.
Variable b64decode : string -> option (list Byte.byte).
Variable fs : FileSystem.

(** The [try] block that parses the date header; [None] when any step
    raises. *)
Definition parse_email_date (email_date : string) : option Date :=
  match PyText.second_field email_date with
  | None => None
  | Some field =>
      strptime
        (PyText.strip
           (PyText.before " -" (PyText.before " +" (PyText.strip field))))
  end.

(** The date that names the folder and stamps the file: the parsed
    header, or the clock. *)
Definition archive_date (now : Date) (email_date : string) : Date :=
  match parse_email_date email_date with
  | Some d => d
  | None => now
  end.

(** The file name under the month folder. *)
Definition archive_filename (date_obj : Date) (subject original_name : string)
    (file_data : list Byte.byte) : string :=
  let safe_subject := Py.first_chars 50 (PyText.strip_non_word subject) in
  let file_hash := Py.first_chars 8 (md5_hexdigest file_data) in
  PyText.collapse_spaces
    (strftime_Ymd date_obj +:+ "_" +:+ safe_subject +:+ "_" +:+ file_hash
     +:+ "_" +:+ original_name).

(** The month folder and the path of the file in it. *)
Definition archive_folder (dir : string) (date_obj : Date) : string :=
  fs_join fs dir (strftime_Y_m date_obj).

Definition archive_path (dir : string) (date_obj : Date)
    (subject original_name : string) (file_data : list Byte.byte)
    : string :=
  fs_join fs (archive_folder dir date_obj)
    (archive_filename date_obj subject original_name file_data).

(** How a call of [download_attachment] ends: by an exception that is
    not an [HttpError], which the method does not catch, or with what it
    returns. *)
Inductive Download :=
| DownloadRaised
| DownloadReturned (filepath : option string).

(** [download_attachment]; [now] is what [datetime.now()] returns
    during the call.  The world that comes with the outcome is the one
    the call leaves, also when it raises. *)
Definition download_attachment (self : GmailMechanicScanner) (w : World)
    (now : Date) (msg_id : string) (attachment : Attachment)
    (email_date subject : string) : Download * World :=
  match att_attachmentId attachment with
  | None => (DownloadReturned None, w)
  | Some attachment_id =>
      if String.eqb attachment_id EmptyString then (DownloadReturned None, w)
      else
        match attachments_get (service self) msg_id attachment_id with
        | None => (DownloadReturned None, w)
        | Some att_data =>
            match body_data att_data with
            | None => (DownloadRaised, w)
            | Some data =>
                match b64decode data with
                | None => (DownloadRaised, w)
                | Some file_data =>
                    let date_obj := archive_date now email_date in
                    let month_folder :=
                      fs_join fs (download_dir self)
                        (strftime_Y_m date_obj) in
                    match mkdir fs w month_folder with
                    | None => (DownloadRaised, w)
                    | Some w =>
                        let filename :=
                          archive_filename date_obj subject
                            (att_filename attachment) file_data in
                        let filepath := fs_join fs month_folder filename in
                        if path_exists w filepath then
                          (DownloadReturned (Some filepath), w)
                        else
                          match write_file fs w filepath file_data with
                          | Some w' => (DownloadReturned (Some filepath), w')
                          | None => (DownloadRaised, w)
                          end
                    end
                end
            end
        end
  end.

(** The test [scan] makes before it downloads an attachment. *)
Definition is_downloadable (attachment : Attachment) : bool :=
  let mime := Py.lower (att_mimeType attachment) in
  let filename := Py.lower (att_filename attachment) in
  Py.startswith mime "application/pdf" || Py.startswith mime "image/"
  || List.existsb (Py.endswith filename)
                  [".pdf"; ".png"; ".jpg"; ".jpeg"; ".tiff"].

(** How a loop ends: it ran over all its items, or an exception left
    it. *)
Inductive LoopEnd :=
| Finished
| Aborted.

(** The attachment loop of [scan]: how it ended, the paths stored so
    far, in order, and the world it leaves.  [clock k] is the clock
    during the [k]-th iteration. *)
Fixpoint download_all (self : GmailMechanicScanner) (w : World)
    (clock : nat -> Date) (k : nat) (msg_id : string)
    (atts : list Attachment) (email_date subject : string)
    : LoopEnd * list string * World :=
  match atts with
  | [] => (Finished, [], w)
  | attachment :: rest =>
      if is_downloadable attachment then
        match download_attachment self w (clock k) msg_id attachment
                                  email_date subject with
        | (DownloadRaised, w') => (Aborted, [], w')
        | (DownloadReturned (Some filepath), w') =>
            let '(e, paths, w'') :=
              download_all self w' clock (S k) msg_id rest email_date
                           subject in
            if String.eqb filepath EmptyString then (e, paths, w'')
            else (e, filepath :: paths, w'')
        | (DownloadReturned None, w') =>
            download_all self w' clock (S k) msg_id rest email_date subject
        end
      else download_all self w clock (S k) msg_id rest email_date subject
  end.

(** *** The scan loop *)

Definition empty_results : Results :=
  {| total_scanned := 0; invoices_found := 0; attachments_downloaded := 0;
     skipped_rate_confirmations := 0; skipped_no_identifier := 0;
     skipped_not_mechanic := 0; skipped_already_processed := 0;
     invoices := [] |}.

(** The state one iteration of the loop reads and writes: the scanner's
    set of processed ids, the world, the results so far, and the ids of
    the messages analysed so far (one "Analyzing" log line and one
    decision of the classifier each, in order). *)
Record LoopState := {
  ls_processed : gset string;
  ls_world : World;
  ls_results : Results;
  ls_analyzed : list string
}.

(** [results["skipped_already_processed"] += 1]. *)
Definition count_skipped (r : Results) : Results :=
  {| total_scanned := total_scanned r;
     invoices_found := invoices_found r;
     attachments_downloaded := attachments_downloaded r;
     skipped_rate_confirmations := skipped_rate_confirmations r;
     skipped_no_identifier := skipped_no_identifier r;
     skipped_not_mechanic := skipped_not_mechanic r;
     skipped_already_processed := S (skipped_already_processed r);
     invoices := invoices r |}.

(** [results["total_scanned"] += 1]. *)
Definition count_scanned (r : Results) : Results :=
  {| total_scanned := S (total_scanned r);
     invoices_found := invoices_found r;
     attachments_downloaded := attachments_downloaded r;
     skipped_rate_confirmations := skipped_rate_confirmations r;
     skipped_no_identifier := skipped_no_identifier r;
     skipped_not_mechanic := skipped_not_mechanic r;
     skipped_already_processed := skipped_already_processed r;
     invoices := invoices r |}.

(** The counters of an accepted message, before its record is appended:
    one invoice more, and one attachment more for each of the [n] paths
    stored. *)
Definition count_found (r : Results) (n : nat) : Results :=
  {| total_scanned := total_scanned r;
     invoices_found := S (invoices_found r);
     attachments_downloaded := attachments_downloaded r + n;
     skipped_rate_confirmations := skipped_rate_confirmations r;
     skipped_no_identifier := skipped_no_identifier r;
     skipped_not_mechanic := skipped_not_mechanic r;
     skipped_already_processed := skipped_already_processed r;
     invoices := invoices r |}.

(** The branch of an accepted message, run to its end. *)
Definition count_invoice (r : Results) (record : InvoiceRecord) : Results :=
  {| total_scanned := total_scanned r;
     invoices_found := S (invoices_found r);
     attachments_downloaded :=
       attachments_downloaded r
       + List.length (inv_attachments_downloaded record);
     skipped_rate_confirmations := skipped_rate_confirmations r;
     skipped_no_identifier := skipped_no_identifier r;
     skipped_not_mechanic := skipped_not_mechanic r;
     skipped_already_processed := skipped_already_processed r;
     invoices := invoices r ++ [record] |}.

(** The branch of a rejected message: one of three counters, chosen by
    the reason. *)
Definition count_rejection (r : Results) (reason : string) : Results :=
  if Py.contains "EXCLUDED" reason then
    {| total_scanned := total_scanned r;
       invoices_found := invoices_found r;
       attachments_downloaded := attachments_downloaded r;
       skipped_rate_confirmations := S (skipped_rate_confirmations r);
       skipped_no_identifier := skipped_no_identifier r;
       skipped_not_mechanic := skipped_not_mechanic r;
       skipped_already_processed := skipped_already_processed r;
       invoices := invoices r |}
  else if Py.contains "No truck identifier" reason then
    {| total_scanned := total_scanned r;
       invoices_found := invoices_found r;
       attachments_downloaded := attachments_downloaded r;
       skipped_rate_confirmations := skipped_rate_confirmations r;
       skipped_no_identifier := S (skipped_no_identifier r);
       skipped_not_mechanic := skipped_not_mechanic r;
       skipped_already_processed := skipped_already_processed r;
       invoices := invoices r |}
  else
    {| total_scanned := total_scanned r;
       invoices_found := invoices_found r;
       attachments_downloaded := attachments_downloaded r;
       skipped_rate_confirmations := skipped_rate_confirmations r;
       skipped_no_identifier := skipped_no_identifier r;
       skipped_not_mechanic := S (skipped_not_mechanic r);
       skipped_already_processed := skipped_already_processed r;
       invoices := invoices r |}.

(** [self.get_email_details(msg_id)]. *)
Definition get_email_details (self : GmailMechanicScanner)
    (msg_id : string) : Fetch :=
  get_email_details_of decode (messages_get (service self)) msg_id.

(** The decision [scan] takes on the details of a message. *)
Definition classification_of (self : GmailMechanicScanner) (email : Email)
    : Decision :=
  classify (classifier self) (email_subject email) (email_body email)
           (email_sender email)
           (List.map att_filename (email_attachments email)).

(** One iteration of the [for] loop of [scan], for the message
    [msg_id]: how it ended and the state it leaves.  An exception from
    [get_email_details] or [download_attachment] leaves the loop; the
    message is then not marked as processed. *)
Definition scan_message (self : GmailMechanicScanner)
    (clock : string -> nat -> Date) (msg_id : string) (st : LoopState)
    : LoopEnd * LoopState :=
  if bool_decide (msg_id ∈ ls_processed st) then
    (Finished,
     {| ls_processed := ls_processed st; ls_world := ls_world st;
        ls_results := count_skipped (ls_results st);
        ls_analyzed := ls_analyzed st |})
  else
    let results := count_scanned (ls_results st) in
    match get_email_details self msg_id with
    | FetchRaised =>
        (Aborted,
         {| ls_processed := ls_processed st; ls_world := ls_world st;
            ls_results := results; ls_analyzed := ls_analyzed st |})
    | FetchNone =>
        (Finished,
         {| ls_processed := ls_processed st; ls_world := ls_world st;
            ls_results := results; ls_analyzed := ls_analyzed st |})
    | Fetched email =>
        let classification := classification_of self email in
        if is_mechanic_invoice classification then
          match download_all self (ls_world st) (clock msg_id) 0 msg_id
                             (email_attachments email) (email_date email)
                             (email_subject email) with
          | (Finished, paths, w) =>
              let invoice_record :=
                {| inv_id := msg_id;
                   inv_subject := email_subject email;
                   inv_sender := email_sender email;
                   inv_date := email_date email;
                   inv_confidence := confidence classification;
                   inv_identifiers := found_identifiers classification;
                   inv_keywords := found_keywords classification;
                   inv_attachments_downloaded := paths |} in
              (Finished,
               {| ls_processed := {[msg_id]} ∪ ls_processed st;
                  ls_world := w;
                  ls_results := count_invoice results invoice_record;
                  ls_analyzed := ls_analyzed st ++ [msg_id] |})
          | (Aborted, paths, w) =>
              (Aborted,
               {| ls_processed := ls_processed st; ls_world := w;
                  ls_results := count_found results (List.length paths);
                  ls_analyzed := ls_analyzed st ++ [msg_id] |})
          end
        else
          (Finished,
           {| ls_processed := {[msg_id]} ∪ ls_processed st;
              ls_world := ls_world st;
              ls_results :=
                count_rejection results (reason classification);
              ls_analyzed := ls_analyzed st ++ [msg_id] |})
    end.

(** The [for] loop: it stops at the first message that raises. *)
Fixpoint scan_loop (self : GmailMechanicScanner)
    (clock : string -> nat -> Date) (messages : list string)
    (st : LoopState) : LoopEnd * LoopState :=
  match messages with
  | [] => (Finished, st)
  | msg_id :: rest =>
      match scan_message self clock msg_id st with
      | (Finished, st') => scan_loop self clock rest st'
      | (Aborted, st') => (Aborted, st')
      end
  end.

(** How a call of [scan] ends: by an exception (the [HttpError] of the
    listing call, raised again, or one that left the loop), or with the
    results it returns. *)
Inductive ScanOutcome :=
| Raised
| Returned (results : Results).

(** What a call of [scan] leaves: how it ended, the scanner and the
    world afterwards, and the ids of the messages it analysed. *)
Record ScanResult := {
  outcome : ScanOutcome;
  scanner_after : GmailMechanicScanner;
  world_after : World;
  analyzed : list string
}.

(** [scan].  [stamp] is the time stamp that names the summary file.
    The ledger and the summary are written after the loop, so not at
    all when an exception leaves it.  Both files lie in the download
    directory, which the constructor made, and their names do not come
    from a message: writing them is taken to succeed. *)
Definition scan (self : GmailMechanicScanner) (w : World)
    (clock : string -> nat -> Date) (stamp : string) : ScanResult :=
  match messages_list (service self) with
  | None =>
      {| outcome := Raised; scanner_after := self; world_after := w;
         analyzed := [] |}
  | Some [] =>
      {| outcome := Returned empty_results; scanner_after := self;
         world_after := w; analyzed := [] |}
  | Some messages =>
      let '(e, st) :=
        scan_loop self clock messages
          {| ls_processed := processed_ids self; ls_world := w;
             ls_results := empty_results; ls_analyzed := [] |} in
      let self' :=
        {| service := service self; classifier := classifier self;
           processed_ids := ls_processed st;
           download_dir := download_dir self |} in
      match e with
      | Aborted =>
          {| outcome := Raised; scanner_after := self';
             world_after := ls_world st; analyzed := ls_analyzed st |}
      | Finished =>
          let w' := save_processed_ids self' (ls_world st) in
          let w'' :=
            {| files := files w'; dirs := dirs w'; written := written w';
               ledger_file := ledger_file w';
               summaries := summaries w' ++ [(stamp, ls_results st)] |} in
          {| outcome := Returned (ls_results st); scanner_after := self';
             world_after := w''; analyzed := ls_analyzed st |}
      end
  end.

End Archiver.

(** What the scan loop keeps true, for the ledger [loaded] at its start,
    the messages [seen] so far and the detail fetch [details]: the set of
    processed ids lies between the ledger and the ledger with the
    messages analysed; no message is analysed twice; an analysed message
    was outside the ledger, had its details fetched and was listed. *)
Definition loop_invariant (details : string -> Fetch)
    (loaded : gset string) (seen : list string) (st : LoopState) : Prop :=
  loaded ⊆ ls_processed st /\
  ls_processed st ⊆ loaded ∪ list_to_set (ls_analyzed st) /\
  NoDup (ls_analyzed st) /\
  (forall x, x ∈ ls_analyzed st ->
             (x ∉ loaded) /\ (exists email, details x = Fetched email) /\
             x ∈ seen).

(** What holds besides while no exception has left the loop: the set of
    processed ids is the ledger with the messages analysed, and a listed
    message whose details were fetched is processed. *)
Definition loop_complete (details : string -> Fetch)
    (loaded : gset string) (seen : list string) (st : LoopState) : Prop :=
  ls_processed st = loaded ∪ list_to_set (ls_analyzed st) /\
  (forall x email, x ∈ seen -> details x = Fetched email ->
                   x ∈ ls_processed st).

(* ===================================================================== *)
(** ** The unit-number rule as the specification words it *)
(* ===================================================================== *)

(** These definitions follow the specification's sentence, not the code:
    a labeled phrase earns 0.20; otherwise the bare unit number, standing
    as a token of its own, earns 0.10.  They are compared with [unit_step]
    below. *)
Module SpecWording.

(** The labeled phrasings of the unit number among the search terms. *)
Definition labeled_phrases : list string :=
  [ "Unit " +:+ UNIT_NUMBER; "Unit#" +:+ UNIT_NUMBER;
    "Unit-" +:+ UNIT_NUMBER; "Truck " +:+ UNIT_NUMBER;
    "Truck#" +:+ UNIT_NUMBER; "Unit: " +:+ UNIT_NUMBER ].

Definition is_digit (c : ascii) : bool :=
  let n := nat_of_ascii c in (48 <=? n)%nat && (n <=? 57)%nat.

Definition is_alnum (c : ascii) : bool := is_letter c || is_digit c.

(** The tokens of a text: its maximal runs of letters and digits.
    [cur] is the run being read, reversed. *)
Fixpoint tokens_from (cur : list ascii) (s : string) : list string :=
  let flush (rest : list string) :=
    match cur with
    | [] => rest
    | _ => string_of_list_ascii (List.rev cur) :: rest
    end in
  match s with
  | EmptyString => flush []
  | String c t =>
      if is_alnum c then tokens_from (c :: cur) t
      else flush (tokens_from [] t)
  end.

Definition tokens (s : string) : list string := tokens_from [] s.

Definition has_labeled_phrase (full_text : string) : bool :=
  List.existsb (fun p => Py.contains (Py.lower p) (Py.lower full_text))
               labeled_phrases.

Definition has_bare_token (full_text : string) : bool :=
  List.existsb (String.eqb UNIT_NUMBER) (tokens full_text).

Definition unit_step (full_text : string) (confidence : float) : float :=
  if has_labeled_phrase full_text then (confidence + 0.2)%float
  else if has_bare_token full_text then (confidence + 0.1)%float
  else confidence.

End SpecWording.

(** A text in which the unit number occurs only inside a longer number. *)
Definition part_number_text : string := "Part 15740 brake pads".

(* ===================================================================== *)
(** ** Stand-ins for the examples *)
(* ===================================================================== *)

(** The theorems hold for every hash function, date parser, decoder,
    file system and service; the examples run the model on these.  Each
    stand-in gives what the real function gives on the inputs of the
    examples. *)
Definition example_md5 (data : list Byte.byte) : string :=
  "df4f7256aec7a0d72ad675bc479561f3".

Definition example_strptime (s : string) : option Date :=
  if String.eqb s "15 Mar 2024 10:30:00"
  then Some {| year := 2024; month := 3; day := 15 |}
  else None.

(** "JVBE" is the base64 text of the three bytes. *)
Definition example_b64decode (data : string) : option (list Byte.byte) :=
  if String.eqb data "JVBE" then Some [Byte.x25; Byte.x50; Byte.x44]
  else None.

(** A body decoder: "VklOIDNBS0pISERSN0tTS0UxNTk4" is the base64 text
    of the VIN line, and "a" is no base64 text. *)
Definition example_body_decode (data : string) : option string :=
  if String.eqb data "VklOIDNBS0pISERSN0tTS0UxNTk4"
  then Some "VIN 3AKJHHDR7KSKE1598"
  else None.

(** The text before the last "/" of a path. *)
Fixpoint dirname (path : string) : string :=
  match path with
  | EmptyString => EmptyString
  | String c t =>
      if Py.contains "/" t then String c (dirname t) else EmptyString
  end.

(** A file system that joins with "/", creates every folder asked for,
    and opens a new file when the folder it lies in exists. *)
Definition example_fs : FileSystem :=
  {| fs_join := fun dir name => dir +:+ "/" +:+ name;
     fs_can_mkdir := fun _ _ => true;
     fs_can_open := fun w path => bool_decide (dirname path ∈ dirs w) |}.

Definition example_headers (subject sender date : string) : list Header :=
  [ {| header_name := Some "From"; header_value := Some sender |};
    {| header_name := Some "Subject"; header_value := Some subject |};
    {| header_name := Some "Date"; header_value := Some date |} ].

(** A repair invoice with one PDF attached under the name [name]. *)
Definition invoice_message (name : string) : Message :=
  {| msg_payload := Some
       (mkPart (Some "multipart/mixed") None None
          (example_headers "Invoice: brake repair, Unit 574"
             "Shop <shop@example.com>" "Fri, 15 Mar 2024 10:30:00 +0000")
          (Some
             [ mkPart (Some "text/plain") None
                 (Some {| body_data := Some "VklOIDNBS0pISERSN0tTS0UxNTk4";
                          body_attachmentId := None;
                          body_size := Some 21%nat |}) [] None;
               mkPart (Some "application/pdf") (Some name)
                 (Some {| body_data := None;
                          body_attachmentId := Some "a1";
                          body_size := Some 3%nat |}) [] None ])) |}.

(** A newsletter without body text. *)
Definition example_newsletter : Message :=
  {| msg_payload := Some
       (mkPart (Some "text/plain") None None
          (example_headers "Weekly Newsletter" "news@example.com" "no date")
          None) |}.

(** A message whose body data is no base64 text. *)
Definition broken_message : Message :=
  {| msg_payload := Some
       (mkPart (Some "text/plain") None
          (Some {| body_data := Some "a"; body_attachmentId := None;
                   body_size := Some 1%nat |})
          (example_headers "Brake invoice unit 574" "shop@example.com"
             "no date")
          None) |}.

Definition example_attachments_get (msg_id attachment_id : string)
    : option PartBody :=
  if String.eqb attachment_id "a1"
  then Some {| body_data := Some "JVBE"; body_attachmentId := None;
               body_size := Some 3%nat |}
  else None.

(** Three messages listed; the second cannot be fetched. *)
Definition example_service : Service :=
  {| messages_list := Some ["m1"; "m2"; "m3"];
     messages_get := fun msg_id =>
       if String.eqb msg_id "m1" then Some (invoice_message "inv 574.pdf")
       else if String.eqb msg_id "m3" then Some example_newsletter
       else None;
     attachments_get := example_attachments_get |}.

(** The same mailbox, with the two messages that can be fetched. *)
Definition example_mailbox : Service :=
  {| messages_list := Some ["m1"; "m3"];
     messages_get := messages_get example_service;
     attachments_get := example_attachments_get |}.

(** A newsletter, then a message whose body cannot be decoded. *)
Definition broken_service : Service :=
  {| messages_list := Some ["m3"; "m4"];
     messages_get := fun msg_id =>
       if String.eqb msg_id "m3" then Some example_newsletter
       else if String.eqb msg_id "m4" then Some broken_message
       else None;
     attachments_get := example_attachments_get |}.


Definition empty_world : World :=
  {| files := ∅; dirs := ∅; written := []; ledger_file := None;
     summaries := [] |}.

(** The world with the download directory and nothing in it, and a
    scanner over it. *)
Definition example_world : World :=
  {| files := ∅; dirs := {["invoices"]}; written := [];
     ledger_file := None; summaries := [] |}.

Definition example_scanner (svc : Service) : GmailMechanicScanner :=
  {| service := svc; classifier := InvoiceClassifier_init;
     processed_ids := ∅; download_dir := "invoices" |}.

Definition example_clock (msg_id : string) (k : nat) : Date :=
  {| year := 2024; month := 4; day := 1 |}.


(* ===================================================================== *)
(** ** Exhaustive checks over the signals of Step 4 *)
(* ===================================================================== *)

(** Every pair of signal vectors, one below the other, compared. *)
Definition score_monotone_check : bool :=
  List.forallb (fun v' => List.forallb (fun v =>
  List.forallb (fun u' => List.forallb (fun u =>
  List.forallb (fun m' => List.forallb (fun m =>
  List.forallb (fun p' => List.forallb (fun p =>
  List.forallb (fun i' => List.forallb (fun i =>
    implb ((v <=? v')%nat && (u <=? u')%nat && (m <=? m')%nat
           && implb p p' && implb i i')
          (PrimFloat.leb (score_of v u m p i) (score_of v' u' m' p' i')
           && PrimFloat.leb (score_of v' u' m' p' i') 1.0%float))
  [false; true]) [false; true]) [false; true]) [false; true])
  (List.seq 0 5)) (List.seq 0 5)) (List.seq 0 3)) (List.seq 0 3))
  (List.seq 0 5)) (List.seq 0 5).

(** The signals that suffice for acceptance once Step 4 runs: a second
    keyword, a PDF, "invoice" in the subject, the phrase "unit 574", a VIN
    match longer than four characters, or the last four characters of the
    VIN together with the bare unit number. *)
Definition accept_rule (v u n : nat) (p i : bool) : bool :=
  (2 <=? n)%nat || p || i || (u =? 2)%nat || (2 <=? v)%nat
  || ((v =? 1)%nat && (u =? 1)%nat).

(** The threshold test compared with [accept_rule] on every signal
    vector with an identifier and at least one keyword. *)
Definition accept_rule_check : bool :=
  List.forallb (fun v => List.forallb (fun u => List.forallb (fun m =>
  List.forallb (fun p => List.forallb (fun i =>
    implb ((1 <=? v)%nat || (1 <=? u)%nat)
      (Bool.eqb (PrimFloat.leb 0.3%float (score_of v u (S m) p i))
                (accept_rule v u (S m) p i)))
  [false; true]) [false; true])
  (List.seq 0 4)) (List.seq 0 3)) (List.seq 0 5).

(* ===================================================================== *)
(** ** Predicates used to state properties of the archiver *)
(* ===================================================================== *)

(** Every character of [s] passes the test [P]. *)
Fixpoint all_chars (P : ascii -> bool) (s : string) : bool :=
  match s with
  | EmptyString => true
  | String c t => P c && all_chars P t
  end.

(** The characters [re.sub(r'[^\w\s-]', '', s)] keeps. *)
Definition is_safe_subject_char (c : ascii) : bool :=
  PyText.is_word c || PyText.is_space c || (nat_of_ascii c =? 45)%nat.

Definition not_space (c : ascii) : bool := negb (PyText.is_space c).

(** The number of stored paths over a list of invoice records. *)
Definition count_downloaded (records : list InvoiceRecord) : nat :=
  List.fold_right
    (fun record n => List.length (inv_attachments_downloaded record) + n)
    0 records.

(** [w'] keeps what [w] had: every file with its content, every folder,
    the ledger file and the summaries; the paths written since then are
    new files. *)
Definition world_extends (w w' : World) : Prop :=
  (forall p x, files w !! p = Some x -> files w' !! p = Some x) /\
  dirs w ⊆ dirs w' /\
  ledger_file w' = ledger_file w /\
  summaries w' = summaries w /\
  exists new, written w' = new ++ written w /\
              forall p, p ∈ new -> files w !! p = None.

(** What the counters of [results] satisfy after [n] messages of the
    listing, for the detail fetch [details] and the classifier of
    [self]: every message was either skipped or scanned; every analysed
    message was counted once, as an invoice or in one of the three
    rejection counters; the invoice counter and the attachment counter
    agree with the list of invoice records; and every record is that of
    an analysed message that [classify] accepted. *)
Definition counters_ok (details : string -> Fetch)
    (self : GmailMechanicScanner) (n : nat) (st : LoopState) : Prop :=
  let r := ls_results st in
  (skipped_already_processed r + total_scanned r = n)%nat /\
  (invoices_found r + skipped_rate_confirmations r + skipped_no_identifier r
   + skipped_not_mechanic r = List.length (ls_analyzed st))%nat /\
  (List.length (ls_analyzed st) <= total_scanned r)%nat /\
  invoices_found r = List.length (invoices r) /\
  attachments_downloaded r = count_downloaded (invoices r) /\
  forall record, In record (invoices r) ->
    inv_id record ∈ ls_analyzed st /\
    exists email,
      details (inv_id record) = Fetched email /\
      let d := classify (classifier self) (email_subject email)
                 (email_body email) (email_sender email)
                 (List.map att_filename (email_attachments email)) in
      is_mechanic_invoice d = true /\
      inv_confidence record = confidence d /\
      inv_subject record = email_subject email.

(** The results a call of [scan] returned (the empty results when it
    raised instead). *)
Definition results_of (o : ScanOutcome) : Results :=
  match o with
  | Returned r => r
  | Raised => empty_results
  end.

(** Neither of the capitals that begin the two phrases [scan] looks for
    in a rationale, "EXCLUDED" and "No truck identifier". *)
Definition no_E_N (c : ascii) : bool :=
  negb (Ascii.eqb c "E") && negb (Ascii.eqb c "N").

(** The three rejection counters of [results]. *)
Definition rejection_counters (r : Results) : nat * nat * nat :=
  (skipped_rate_confirmations r, skipped_no_identifier r,
   skipped_not_mechanic r).

(** Every path the invoice records hold exists in the world [w]. *)
Definition paths_stored (w : World) (records : list InvoiceRecord) : Prop :=
  forall record, In record records ->
  forall p, In p (inv_attachments_downloaded record) ->
    p <> EmptyString /\ path_exists w p = true.

(** The number of writes a returned value stands for, at most. *)
Definition download_weight (o : Download) : nat :=
  match o with
  | DownloadReturned (Some _) => 1
  | _ => 0
  end.

(** What can make the message [msg_id] raise in the loop of [scan]:
    fetching its details, or, once it is accepted, the download of one
    of the attachments that [scan] downloads, in some world and at some
    time. *)
Definition raises (md5_hexdigest : list Byte.byte -> string)
    (strptime : string -> option Date) (decode : string -> option string)
    (b64decode : string -> option (list Byte.byte)) (fs : FileSystem)
    (self : GmailMechanicScanner) (msg_id : string) : Prop :=
  get_email_details decode self msg_id = FetchRaised \/
  exists email,
    get_email_details decode self msg_id = Fetched email /\
    is_mechanic_invoice (classification_of self email) = true /\
    exists a w' now,
      In a (email_attachments email) /\ is_downloadable a = true /\
      fst (download_attachment md5_hexdigest strptime b64decode fs self w'
             now msg_id a (email_date email) (email_subject email))
      = DownloadRaised.

(* ===================================================================== *)
(** ** What the message reader is compared with *)
(* ===================================================================== *)

(** The name of the header [h], lowered, is [name]. *)
Definition header_is (name : string) (h : Header) : bool :=
  String.eqb (Py.lower (get_or_empty (header_name h))) name.

(** The value of the last header of [headers] whose name is [name] when
    lowered; the empty string when there is none. *)
Fixpoint last_header (name : string) (headers : list Header) : string :=
  match headers with
  | [] => EmptyString
  | h :: rest =>
      if existsb (header_is name) rest then last_header name rest
      else if header_is name h then get_or_empty (header_value h)
           else EmptyString
  end.

(** The parts of a payload, each before its sub-parts, from first to
    last. *)
Fixpoint preorder (part : Part) : list Part :=
  part ::
  match part_parts part with
  | None => []
  | Some ps =>
      (fix each (ps : list Part) : list Part :=
         match ps with
         | [] => []
         | subpart :: rest => preorder subpart ++ each rest
         end) ps
  end.

Definition preorder_each (ps : list Part) : list Part :=
  List.flat_map preorder ps.

(** The attachment a part stands for, when its file name is there and
    not empty. *)
Definition attachment_here (part : Part) : list Attachment :=
  match part_filename part with
  | Some f =>
      if String.eqb f EmptyString then [] else [attachment_of f part]
  | None => []
  end.

(** A tag starts somewhere in [s]. *)
Fixpoint has_tag (s : string) : bool :=
  match s with
  | EmptyString => false
  | String c t =>
      match match_tag s with
      | Some _ => true
      | None => has_tag t
      end
  end.

(** A part whose text [_get_body] reads when it meets it in a list of
    parts: plain text, HTML, or a part with sub-parts. *)
Definition is_read (part : Part) : bool :=
  mime_is part "text/plain" || mime_is part "text/html" ||
  match part_parts part with Some _ => true | None => false end.

(** The payload without what [_get_body] passes over: in every list of
    parts it walks, the parts that are neither text nor hold sub-parts
    are dropped, and a text part in such a list loses its sub-parts. *)
Fixpoint prune (payload : Part) : Part :=
  match payload with
  | mkPart m f b h parts =>
      mkPart m f b h
        match parts with
        | None => None
        | Some ps =>
            Some
              ((fix each (ps : list Part) : list Part :=
                  match ps with
                  | [] => []
                  | part :: rest =>
                      if mime_is part "text/plain" || mime_is part "text/html"
                      then
                        mkPart (part_mimeType part) (part_filename part)
                          (part_body part) (part_headers part) None
                        :: each rest
                      else
                        match part_parts part with
                        | Some _ => prune part :: each rest
                        | None => each rest
                        end
                  end) ps)
        end
  end.

(** What [prune] does to a list of parts. *)
Fixpoint prune_each (ps : list Part) : list Part :=
  match ps with
  | [] => []
  | part :: rest =>
      if mime_is part "text/plain" || mime_is part "text/html" then
        mkPart (part_mimeType part) (part_filename part) (part_body part)
          (part_headers part) None
        :: prune_each rest
      else
        match part_parts part with
        | Some _ => prune part :: prune_each rest
        | None => prune_each rest
        end
  end.

(** Every data string of the payload that is there and not empty. *)
Fixpoint all_data (part : Part) : list string :=
  match data_of (part_body part) with
  | Some d => [d]
  | None => []
  end ++
  match part_parts part with
  | None => []
  | Some ps =>
      (fix each (ps : list Part) : list string :=
         match ps with
         | [] => []
         | subpart :: rest => all_data subpart ++ each rest
         end) ps
  end.

Definition all_data_each (ps : list Part) : list string :=
  List.flat_map all_data ps.

(** A message in the usual layout: the headers on the payload, a
    multipart body in plain text and in HTML, and a PDF attached. *)
Definition example_message : Message :=
  {| msg_payload := Some
       (mkPart (Some "multipart/mixed") (Some EmptyString) None
          [ {| header_name := Some "From";
               header_value := Some "Shop <shop@example.com>" |};
            {| header_name := Some "SUBJECT";
               header_value := Some "Invoice: brake repair, Unit 574" |};
            {| header_name := Some "Date";
               header_value := Some "Fri, 15 Mar 2024 10:30:00 +0000" |} ]
          (Some
             [ mkPart (Some "multipart/alternative") None None []
                 (Some
                    [ mkPart (Some "text/plain") None
                        (Some {| body_data := Some "plain";
                                 body_attachmentId := None;
                                 body_size := Some 5%nat |}) [] None;
                      mkPart (Some "text/html") None
                        (Some {| body_data := Some "<p>html</p>";
                                 body_attachmentId := None;
                                 body_size := Some 11%nat |}) [] None ]);
               mkPart (Some "application/pdf") (Some "inv 574.pdf")
                 (Some {| body_data := None;
                          body_attachmentId := Some "a1";
                          body_size := Some 3%nat |}) [] None ])) |}.

(** A decoder for the examples: the data is the text. *)
Definition example_decode (data : string) : option string := Some data.

(** A decoder that rejects the data "!". *)
Definition strict_decode (data : string) : option string :=
  if String.eqb data "!" then None else Some data.
(* ===================================================================== *)
(** ** Facts about the string operations *)
(* ===================================================================== *)

Section StringFacts.

Lemma prefix_app (p s : string) :
  String.prefix p s = true <-> exists post, s = p +:+ post.
Proof.
  revert s. induction p as [|a p IH]; intros s; simpl.
  - destruct s; split; eauto.
  - destruct s as [|b s]; simpl.
    + split; [discriminate | intros [post H]; discriminate].
    + destruct (ascii_dec a b) as [->|Hne].
      * rewrite IH. split; intros [post H]; exists post.
        -- now rewrite H.
        -- now inversion H.
      * split; [discriminate | intros [post H]; inversion H; congruence].
Qed.

Lemma contains_spec (sub s : string) :
  Py.contains sub s = true <-> exists pre post, s = pre +:+ sub +:+ post.
Proof.
  induction s as [|c s IH]; cbn [Py.contains].
  - rewrite orb_false_r, prefix_app. split.
    + intros [post H]. exists EmptyString, post. exact H.
    + intros [pre [post H]]. destruct pre; [eauto | discriminate].
  - rewrite orb_true_iff, IH, prefix_app. split.
    + intros [[post H] | [pre [post H]]].
      * exists EmptyString, post. exact H.
      * exists (String c pre), post. simpl. now rewrite H.
    + intros [pre [post H]]. destruct pre as [|c' pre]; simpl in H.
      * left. eauto.
      * right. inversion H. eauto.
Qed.

Lemma append_assoc (a b c : string) : (a +:+ b) +:+ c = a +:+ (b +:+ c).
Proof. induction a; simpl; congruence. Qed.

(** Containment is transitive: a part of a part is a part. *)
Lemma contains_trans (a b c : string) :
  Py.contains a b = true -> Py.contains b c = true ->
  Py.contains a c = true.
Proof.
  rewrite !contains_spec. intros [p1 [q1 H1]] [p2 [q2 H2]].
  exists (p2 +:+ p1), (q1 +:+ q2). subst.
  now rewrite !append_assoc.
Qed.

Lemma lower_ascii_caseless (a b : ascii) :
  is_letter a = false -> (Py.lower_ascii b = a <-> b = a).
Proof.
  unfold is_letter, Py.lower_ascii. intros Ha.
  destruct ((65 <=? nat_of_ascii b)%nat && (nat_of_ascii b <=? 90)%nat) eqn:Hb.
  - apply andb_true_iff in Hb as [H1 H2].
    apply Nat.leb_le in H1, H2. split; intros <-.
    + rewrite nat_ascii_embedding in Ha by lia.
      apply orb_false_iff in Ha as [_ Ha].
      apply andb_false_iff in Ha as [Ha|Ha]; apply Nat.leb_gt in Ha; lia.
    + apply orb_false_iff in Ha as [Ha _].
      apply andb_false_iff in Ha as [Ha|Ha]; apply Nat.leb_gt in Ha; lia.
  - tauto.
Qed.

Lemma prefix_lower_caseless (sub s : string) :
  caseless sub = true ->
  String.prefix sub (Py.lower s) = String.prefix sub s.
Proof.
  revert s. induction sub as [|a sub IH]; intros s H.
  - now destruct s.
  - simpl in H. apply andb_true_iff in H as [Ha Hs].
    apply negb_true_iff in Ha.
    destruct s as [|b s]; simpl; [reflexivity|].
    destruct (ascii_dec a (Py.lower_ascii b)) as [E|E],
             (ascii_dec a b) as [E'|E']; auto.
    + exfalso. apply E'. symmetry.
      now apply (lower_ascii_caseless a b Ha).
    + exfalso. apply E. symmetry.
      now apply (lower_ascii_caseless a b Ha).
Qed.

(** A string without letters is found in a text exactly when it is
    found in the lowered text. *)
Lemma contains_lower_caseless (sub s : string) :
  caseless sub = true ->
  Py.contains sub (Py.lower s) = Py.contains sub s.
Proof.
  intros H. induction s as [|c s IH]; simpl.
  - now destruct sub.
  - rewrite IH. f_equal.
    apply (prefix_lower_caseless sub (String c s) H).
Qed.

End StringFacts.

(* ===================================================================== *)
(** ** Facts about the classifier *)
(* ===================================================================== *)

(** [classify] with its tuple unpackings read through [fst] and [snd]. *)
Lemma classify_unfold (self : InvoiceClassifier) (subject body sender : string)
    (attachment_names : list string) :
  classify self subject body sender attachment_names =
  let full_text := full_text_of subject body attachment_names in
  let found_ids := snd (contains_truck_identifier self full_text) in
  let found_kws := snd (is_mechanic_related self full_text) in
  let score :=
    confidence_score subject full_text found_kws attachment_names in
  if fst (should_exclude self full_text sender) then
    {| is_mechanic_invoice := false; confidence := 0.0%float;
       reason := "EXCLUDED: " +:+ snd (should_exclude self full_text sender);
       found_identifiers := []; found_keywords := [] |}
  else if negb (fst (contains_truck_identifier self full_text)) then
    {| is_mechanic_invoice := false; confidence := 0.0%float;
       reason := "No truck identifier found (574, VIN, etc.)";
       found_identifiers := found_ids; found_keywords := [] |}
  else if negb (fst (is_mechanic_related self full_text)) then
    {| is_mechanic_invoice := false; confidence := 0.0%float;
       reason := "Found truck ID (" +:+ Py.repr_list found_ids
                 +:+ ") but no mechanic keywords";
       found_identifiers := found_ids; found_keywords := found_kws |}
  else if PrimFloat.leb 0.3%float score then
    {| is_mechanic_invoice := true; confidence := score;
       reason := "Mechanic invoice detected (confidence: "
                 +:+ Py.format_percent0 score +:+ ")";
       found_identifiers := found_ids; found_keywords := found_kws |}
  else
    {| is_mechanic_invoice := false; confidence := 0.0%float;
       reason := "Low confidence (" +:+ Py.format_percent0 score
                 +:+ ") - not enough signals";
       found_identifiers := found_ids; found_keywords := found_kws |}.
Proof.
  unfold classify, classify_from_identifiers.
  destruct (should_exclude _ _ _) as [[|] r]; [reflexivity|].
  destruct (contains_truck_identifier _ _) as [[|] ids]; [|reflexivity].
  destruct (is_mechanic_related _ _) as [[|] kws]; reflexivity.
Qed.

Section ClassifierFacts.

Variable self : InvoiceClassifier.

Lemma sender_loop_none (senders : list string) (sl : string) :
  sender_loop senders sl = None <->
  forall s, In s senders -> Py.contains s sl = false.
Proof.
  induction senders as [|x rest IH]; simpl.
  - split; [intros _ s [] | reflexivity].
  - destruct (Py.contains x sl) eqn:E.
    + split; [discriminate | intros H].
      specialize (H x (or_introl eq_refl)). congruence.
    + rewrite IH. split.
      * intros H s [<-|Hs]; auto.
      * intros H s Hs. apply H. now right.
Qed.

Lemma sender_loop_some (senders : list string) (sl r : string) :
  sender_loop senders sl = Some r ->
  exists s, In s senders /\ Py.contains s sl = true /\
            r = "Excluded sender: " +:+ s.
Proof.
  induction senders as [|x rest IH]; simpl; [discriminate|].
  destruct (Py.contains x sl) eqn:E.
  - intros [= <-]. exists x. auto.
  - intros H. destruct (IH H) as [s [Hs Hr]]. exists s. auto.
Qed.

(** A rate-confirmation keyword found in the text stops the keyword
    loop with a rejection, wherever it stands in the list. *)
Lemma keyword_loop_rate (kws : list string) (text_lower kw : string) :
  In kw kws -> Py.contains kw text_lower = true ->
  is_rate_confirmation kw = true ->
  exists r, keyword_loop self kws text_lower = Some r.
Proof.
  induction kws as [|x rest IH]; simpl; [intros []|].
  intros Hin Hc Hr.
  destruct (Py.contains x text_lower) eqn:Ex.
  - destruct (is_rate_confirmation x) eqn:Rx; [eauto|].
    destruct (_ <? _)%nat; [eauto|].
    destruct Hin as [->|Hin]; [congruence | auto].
  - destruct Hin as [->|Hin]; [congruence | auto].
Qed.

(** Without a rate-confirmation match the keyword loop rejects exactly
    when some keyword of the list matches and the counts say so. *)
Lemma keyword_loop_soft (kws : list string) (text_lower : string) :
  (forall kw, In kw kws -> Py.contains kw text_lower = true ->
              is_rate_confirmation kw = false) ->
  let exclude_count := count_in (exclude_keywords self) text_lower in
  let mechanic_count := count_in (mechanic_keywords self) text_lower in
  keyword_loop self kws text_lower =
  if List.existsb (fun kw => Py.contains kw text_lower) kws
     && (mechanic_count <? exclude_count)%nat
  then Some ("More exclusion signals (" +:+ Py.str_of_nat exclude_count
             +:+ ") than mechanic signals ("
             +:+ Py.str_of_nat mechanic_count +:+ ")")
  else None.
Proof.
  intros Hsoft ec mc. induction kws as [|x rest IH]; simpl; [reflexivity|].
  destruct (Py.contains x text_lower) eqn:Ex; simpl.
  - rewrite (Hsoft x (or_introl eq_refl) Ex).
    fold ec mc. destruct (mc <? ec)%nat eqn:Hlt; [reflexivity|].
    rewrite IH by (intros kw Hk; apply Hsoft; now right).
    now rewrite andb_false_r.
  - apply IH. intros kw Hk. apply Hsoft. now right.
Qed.

Lemma count_in_pos (kws : list string) (text_lower : string) :
  (0 < count_in kws text_lower)%nat ->
  List.existsb (fun kw => Py.contains kw text_lower) kws = true.
Proof.
  unfold count_in. induction kws as [|x rest IH]; simpl; [lia|].
  destruct (Py.contains x text_lower); simpl; auto.
Qed.

Lemma found_length_le {A} (f : A -> bool) (l : list A) :
  (List.length (List.filter f l) <= List.length l)%nat.
Proof. induction l as [|x l IH]; simpl; [lia|]. destruct (f x); simpl; lia. Qed.

Lemma filter_nil_iff {A} (f : A -> bool) (l : list A) :
  List.filter f l = [] <-> forall x, In x l -> f x = false.
Proof.
  induction l as [|x l IH]; simpl.
  - split; [intros _ y [] | reflexivity].
  - destruct (f x) eqn:E.
    + split; [discriminate|]. intros H.
      specialize (H x (or_introl eq_refl)). congruence.
    + rewrite IH. split.
      * intros H y [<-|Hy]; auto.
      * intros H y Hy. apply H. now right.
Qed.

End ClassifierFacts.

(** The flag each search returns says whether its list is non-empty. *)
Lemma fst_contains_truck_identifier (self : InvoiceClassifier) (text : string) :
  fst (contains_truck_identifier self text)
  = (0 <? List.length (snd (contains_truck_identifier self text)))%nat.
Proof. reflexivity. Qed.

Lemma fst_is_mechanic_related (self : InvoiceClassifier) (text : string) :
  fst (is_mechanic_related self text)
  = (0 <? List.length (snd (is_mechanic_related self text)))%nat.
Proof. reflexivity. Qed.

(** Step 4 reads the message only through its signals. *)
Lemma confidence_score_features (subject full_text : string)
    (found_kws attachment_names : list string) :
  confidence_score subject full_text found_kws attachment_names =
  score_of (vin_rank full_text) (unit_rank full_text)
           (List.length found_kws) (has_pdf attachment_names)
           (subject_has_invoice subject).
Proof.
  unfold confidence_score, score_of, vin_step, unit_step, keyword_step,
    pdf_step, subject_step, vin_rank, unit_rank, subject_has_invoice.
  cbv zeta.
  destruct (Py.contains (Py.lower FULL_VIN) _);
    [|destruct (Py.contains (Py.lower VIN_LAST_8) _);
      [|destruct (Py.contains (Py.lower VIN_LAST_6) _);
        [|destruct (Py.contains (Py.lower VIN_LAST_4) _)]]];
  (destruct (Py.contains (Py.lower ("unit " +:+ UNIT_NUMBER)) _);
    [|destruct (Py.contains UNIT_NUMBER full_text)]);
  destruct (has_pdf attachment_names);
  destruct (Py.contains "invoice" (Py.lower subject)); reflexivity.
Qed.

(** How [classify] and the score of Step 4 relate, in every case. *)
Lemma classify_by_score (self : InvoiceClassifier)
    (subject body sender : string) (attachment_names : list string) :
  let d := classify self subject body sender attachment_names in
  match computed_confidence self subject body sender attachment_names with
  | Some c =>
      if PrimFloat.leb 0.3%float c then
        is_mechanic_invoice d = true /\ confidence d = c
      else
        is_mechanic_invoice d = false /\ confidence d = 0.0%float /\
        reason d = "Low confidence (" +:+ Py.format_percent0 c
                   +:+ ") - not enough signals"
  | None => is_mechanic_invoice d = false /\ confidence d = 0.0%float
  end.
Proof.
  intros d. subst d. rewrite classify_unfold.
  unfold computed_confidence, reaches_scoring. cbv zeta.
  set (full_text := full_text_of subject body attachment_names).
  generalize (fst (should_exclude self full_text sender)) as excluded.
  generalize (fst (contains_truck_identifier self full_text)) as has_id.
  generalize (fst (is_mechanic_related self full_text)) as is_mech.
  generalize (confidence_score subject full_text
                (snd (is_mechanic_related self full_text)) attachment_names)
    as score.
  intros score [|] [|] [|]; cbn; auto.
  destruct (PrimFloat.leb 0.3 score); cbn; auto.
Qed.

Lemma filter_singleton {A} (g : A -> bool) (l : list A) (x : A) :
  List.filter g l = [x] ->
  g x = true /\ forall y, In y l -> g y = true -> y = x.
Proof.
  intros H. split.
  - assert (Hx : In x (List.filter g l)) by (rewrite H; now left).
    apply filter_In in Hx. tauto.
  - intros y Hy Hg.
    assert (Hx : In y (List.filter g l)) by (apply filter_In; tauto).
    rewrite H in Hx. destruct Hx as [->|[]]. reflexivity.
Qed.

(** When the search-term loop keeps only the last four characters of the
    VIN, every other term failed its test. *)
Lemma only_vin4_filter (f : string -> bool) :
  List.filter (fun term => f (Py.lower term))
              (search_terms InvoiceClassifier_init) = [Py.lower VIN_LAST_4] ->
  f (Py.lower FULL_VIN) = false /\ f (Py.lower VIN_LAST_8) = false /\
  f (Py.lower VIN_LAST_6) = false /\ f (Py.lower VIN_LAST_4) = true /\
  f (Py.lower ("unit " +:+ UNIT_NUMBER)) = false /\ f UNIT_NUMBER = false.
Proof.
  intros H. apply filter_singleton in H as [Hx Hall].
  assert (Hno : forall y, In y (search_terms InvoiceClassifier_init) ->
                  y <> Py.lower VIN_LAST_4 -> f (Py.lower y) = false).
  { intros y Hy Hne. destruct (f (Py.lower y)) eqn:E; [|reflexivity].
    elim Hne. now apply Hall. }
  repeat split.
  - apply (Hno (Py.lower FULL_VIN)); [vm_compute; tauto | discriminate].
  - apply (Hno (Py.lower VIN_LAST_8)); [vm_compute; tauto | discriminate].
  - apply (Hno (Py.lower VIN_LAST_6)); [vm_compute; tauto | discriminate].
  - exact Hx.
  - apply (Hno (Py.lower ("unit " +:+ UNIT_NUMBER)));
      [vm_compute; tauto | discriminate].
  - apply (Hno UNIT_NUMBER); [vm_compute; tauto | discriminate].
Qed.

(** Then the VIN chain stops at its last branch and the unit test adds
    nothing. *)
Lemma only_vin4_ranks (full_text : string) :
  snd (contains_truck_identifier InvoiceClassifier_init full_text)
    = [Py.lower VIN_LAST_4] ->
  vin_rank full_text = 1 /\ unit_rank full_text = 0.
Proof.
  unfold contains_truck_identifier, vin_rank, unit_rank. intros H.
  apply (only_vin4_filter (fun t => Py.contains t (Py.lower full_text))) in H.
  destruct H as (H1 & H2 & H3 & H4 & H5 & H6).
  rewrite (contains_lower_caseless UNIT_NUMBER full_text eq_refl) in H6.
  cbv zeta. now rewrite H1, H2, H3, H4, H5, H6.
Qed.

(* ===================================================================== *)
(** ** The score as a function of the signals *)
(* ===================================================================== *)

Lemma forallb_seq (P : nat -> bool) (k n : nat) :
  List.forallb P (List.seq 0 k) = true -> (n < k)%nat -> P n = true.
Proof.
  intros H Hn. rewrite forallb_forall in H. apply H.
  apply in_seq. lia.
Qed.

Lemma forallb_bool (P : bool -> bool) (b : bool) :
  List.forallb P [false; true] = true -> P b = true.
Proof.
  intros H. rewrite forallb_forall in H. apply H.
  destruct b; simpl; auto.
Qed.

(** From the fourth keyword on, the keyword score stays at its cap. *)
Lemma keyword_score_cap (n : nat) :
  (n <= 60)%nat -> keyword_score n = keyword_score (Nat.min n 4).
Proof.
  intros H.
  do 61 (destruct n as [|n]; [vm_compute; reflexivity|]). lia.
Qed.

Lemma score_of_cap (vin unit n : nat) (pdf inv : bool) :
  (n <= 60)%nat ->
  score_of vin unit n pdf inv = score_of vin unit (Nat.min n 4) pdf inv.
Proof. intros H. unfold score_of. now rewrite (keyword_score_cap n H). Qed.

Lemma score_monotone_check_ok : score_monotone_check = true.
Proof. vm_compute. reflexivity. Qed.

(** The score never decreases when a signal gets stronger, and never
    exceeds 1. *)
Lemma score_of_monotone (v v' u u' n n' : nat) (p p' i i' : bool) :
  (v <= v')%nat -> (v' <= 4)%nat -> (u <= u')%nat -> (u' <= 2)%nat ->
  (n <= n')%nat -> (n' <= 60)%nat ->
  (p = true -> p' = true) -> (i = true -> i' = true) ->
  PrimFloat.leb (score_of v u n p i) (score_of v' u' n' p' i') = true /\
  PrimFloat.leb (score_of v' u' n' p' i') 1.0%float = true.
Proof.
  intros Hv Hv' Hu Hu' Hn Hn' Hp Hi.
  rewrite (score_of_cap v u n) by lia. rewrite (score_of_cap v' u' n') by lia.
  pose proof score_monotone_check_ok as H. unfold score_monotone_check in H.
  apply (forallb_seq _ 5 v') in H; [|lia].
  apply (forallb_seq _ 5 v) in H; [|lia].
  apply (forallb_seq _ 3 u') in H; [|lia].
  apply (forallb_seq _ 3 u) in H; [|lia].
  apply (forallb_seq _ 5 (Nat.min n' 4)) in H; [|lia].
  apply (forallb_seq _ 5 (Nat.min n 4)) in H; [|lia].
  apply (forallb_bool _ p') in H. apply (forallb_bool _ p) in H.
  apply (forallb_bool _ i') in H. apply (forallb_bool _ i) in H.
  assert (G : ((v <=? v')%nat && (u <=? u')%nat
               && (Nat.min n 4 <=? Nat.min n' 4)%nat
               && implb p p' && implb i i') = true).
  { repeat (apply andb_true_iff; split); try (apply Nat.leb_le; lia).
    - destruct p, p'; simpl; auto.
    - destruct i, i'; simpl; auto. }
  cbv beta in H. rewrite G in H. simpl in H. now apply andb_true_iff in H.
Qed.

Lemma vin_rank_le (full_text : string) : (vin_rank full_text <= 4)%nat.
Proof.
  unfold vin_rank. cbv zeta.
  repeat match goal with |- context [if ?b then _ else _] => destruct b end;
    lia.
Qed.

Lemma unit_rank_le (full_text : string) : (unit_rank full_text <= 2)%nat.
Proof.
  unfold unit_rank.
  repeat match goal with |- context [if ?b then _ else _] => destruct b end;
    lia.
Qed.

Lemma found_keywords_le (full_text : string) :
  (List.length (snd (is_mechanic_related InvoiceClassifier_init full_text))
   <= 60)%nat.
Proof.
  unfold is_mechanic_related. cbn [snd].
  etransitivity; [apply found_length_le|].
  vm_compute. lia.
Qed.

(** When Step 4 runs, its score is [score_of] at the signals of the
    message. *)
Lemma computed_confidence_some (self : InvoiceClassifier)
    (subject body sender : string) (attachment_names : list string)
    (c : float) :
  computed_confidence self subject body sender attachment_names = Some c ->
  c = score_of
        (vin_rank (full_text_of subject body attachment_names))
        (unit_rank (full_text_of subject body attachment_names))
        (List.length
           (snd (is_mechanic_related self
                   (full_text_of subject body attachment_names))))
        (has_pdf attachment_names) (subject_has_invoice subject).
Proof.
  unfold computed_confidence.
  destruct (reaches_scoring self subject body sender attachment_names).
  - intros E. injection E as E. rewrite <- E.
    apply confidence_score_features.
  - discriminate.
Qed.

(* ===================================================================== *)
(** ** Facts about the archiver and the scan loop *)
(* ===================================================================== *)

Lemma string_length_append (a b : string) :
  String.length (a +:+ b) = (String.length a + String.length b)%nat.
Proof. induction a as [|c a IH]; simpl; [reflexivity | now rewrite IH]. Qed.

Lemma world_eq (w1 w2 : World) :
  files w1 = files w2 -> dirs w1 = dirs w2 -> written w1 = written w2 ->
  ledger_file w1 = ledger_file w2 -> summaries w1 = summaries w2 ->
  w1 = w2.
Proof. destruct w1, w2; simpl; intros; subst; reflexivity. Qed.

(** Creating a folder that exists changes nothing. *)
Lemma mkdir_existing (fs : FileSystem) (w : World) (folder : string) :
  folder ∈ dirs w -> mkdir fs w folder = Some w.
Proof.
  intros H. unfold mkdir. now rewrite bool_decide_eq_true_2 by exact H.
Qed.

(** What a successful [mkdir] leaves. *)
Lemma mkdir_some (fs : FileSystem) (w w' : World) (folder : string) :
  mkdir fs w folder = Some w' ->
  folder ∈ dirs w' /\ files w' = files w /\ written w' = written w /\
  ledger_file w' = ledger_file w /\ summaries w' = summaries w /\
  dirs w ⊆ dirs w'.
Proof.
  unfold mkdir.
  destruct (bool_decide (folder ∈ dirs w)) eqn:E.
  { apply bool_decide_eq_true in E. intros [= <-]. auto 10. }
  destruct (bool_decide (is_Some (files w !! folder))); [discriminate|].
  destruct (fs_can_mkdir fs w folder); [|discriminate].
  intros [= <-]. cbn. repeat split; set_solver.
Qed.

(** What a successful [write_file] leaves. *)
Lemma write_file_some (fs : FileSystem) (w w' : World) (path : string)
    (data : list Byte.byte) :
  write_file fs w path data = Some w' ->
  files w' = <[path := data]> (files w) /\ dirs w' = dirs w /\
  written w' = path :: written w /\
  ledger_file w' = ledger_file w /\ summaries w' = summaries w.
Proof.
  unfold write_file. destruct (fs_can_open fs w path); [|discriminate].
  intros [= <-]. auto.
Qed.

Lemma path_exists_file (w : World) (path : string) (data : list Byte.byte) :
  files w !! path = Some data -> path_exists w path = true.
Proof.
  intros H. unfold path_exists.
  rewrite bool_decide_eq_true_2 by eauto. reflexivity.
Qed.

Lemma path_exists_false (w : World) (path : string) :
  path_exists w path = false -> files w !! path = None /\ path ∉ dirs w.
Proof.
  unfold path_exists. intros H. apply orb_false_iff in H as [H1 H2].
  apply bool_decide_eq_false in H1. apply bool_decide_eq_false in H2.
  split; [|exact H2].
  destruct (files w !! path) eqn:E; [|reflexivity].
  exfalso. apply H1. eauto.
Qed.


Section ScannerFacts.

Variable md5_hexdigest : list Byte.byte -> string.
Variable strptime : string -> option Date.
Variable decode : string -> option string.
Variable b64decode : string -> option (list Byte.byte).
Variable fs : FileSystem.

(** [download_attachment] once it has the bytes: what is left is the
    folder, the test and the write. *)
Lemma download_attachment_fetched (self : GmailMechanicScanner) (w : World)
    (now : Date) (msg_id : string) (attachment : Attachment)
    (email_date subject : string) (aid : string) (att_data : PartBody)
    (data : string) (file_data : list Byte.byte) :
  att_attachmentId attachment = Some aid -> aid <> EmptyString ->
  attachments_get (service self) msg_id aid = Some att_data ->
  body_data att_data = Some data -> b64decode data = Some file_data ->
  let date_obj := archive_date strptime now email_date in
  let folder := archive_folder fs (download_dir self) date_obj in
  let path := archive_path md5_hexdigest fs (download_dir self) date_obj
                subject (att_filename attachment) file_data in
  download_attachment md5_hexdigest strptime b64decode fs self w now msg_id
                      attachment email_date subject
  = match mkdir fs w folder with
    | None => (DownloadRaised, w)
    | Some w1 =>
        if path_exists w1 path then (DownloadReturned (Some path), w1)
        else match write_file fs w1 path file_data with
             | Some w2 => (DownloadReturned (Some path), w2)
             | None => (DownloadRaised, w1)
             end
    end.
Proof.
  intros Hid Hne Hget Hdata Hdec date_obj folder path.
  unfold download_attachment. rewrite Hid.
  destruct (String.eqb aid EmptyString) eqn:E.
  { apply String.eqb_eq in E. contradiction. }
  rewrite Hget, Hdata, Hdec. reflexivity.
Qed.

(** Either [download_attachment] leaves before the file system, in
    every world and at every time and always the same way, or it has an
    attachment id and the bytes. *)
Lemma download_attachment_cases (self : GmailMechanicScanner)
    (msg_id : string) (attachment : Attachment)
    (email_date subject : string) :
  (exists o,
     (forall path, o <> DownloadReturned (Some path)) /\
     forall w now,
       download_attachment md5_hexdigest strptime b64decode fs self w now
         msg_id attachment email_date subject = (o, w)) \/
  (exists aid att_data data file_data,
     att_attachmentId attachment = Some aid /\ aid <> EmptyString /\
     attachments_get (service self) msg_id aid = Some att_data /\
     body_data att_data = Some data /\ b64decode data = Some file_data).
Proof.
  unfold download_attachment.
  destruct (att_attachmentId attachment) as [aid|] eqn:Hid.
  2:{ left. exists (DownloadReturned None). repeat split; discriminate
        || reflexivity. }
  destruct (String.eqb aid EmptyString) eqn:E.
  { left. exists (DownloadReturned None). repeat split; discriminate
      || reflexivity. }
  destruct (attachments_get (service self) msg_id aid) as [att_data|]
    eqn:Hget.
  2:{ left. exists (DownloadReturned None). repeat split; discriminate
        || reflexivity. }
  destruct (body_data att_data) as [data|] eqn:Hdata.
  2:{ left. exists DownloadRaised. repeat split; discriminate
        || reflexivity. }
  destruct (b64decode data) as [file_data|] eqn:Hdec.
  2:{ left. exists DownloadRaised. repeat split; discriminate
        || reflexivity. }
  right. exists aid, att_data, data, file_data.
  apply String.eqb_neq in E. auto.
Qed.

End ScannerFacts.

(* ===================================================================== *)
(** ** What a download and an iteration of the scan do *)
(* ===================================================================== *)

Lemma world_extends_refl (w : World) : world_extends w w.
Proof.
  split; [auto|]. split; [set_solver|]. split; [reflexivity|].
  split; [reflexivity|]. exists []. split; [reflexivity|].
  intros p Hp. inversion Hp.
Qed.

Lemma world_extends_trans (w1 w2 w3 : World) :
  world_extends w1 w2 -> world_extends w2 w3 -> world_extends w1 w3.
Proof.
  intros (F1 & D1 & L1 & S1 & n1 & W1 & N1) (F2 & D2 & L2 & S2 & n2 & W2 & N2).
  split; [auto|]. split; [set_solver|]. split; [congruence|].
  split; [congruence|].
  exists (n2 ++ n1). split; [rewrite W2, W1, app_assoc; reflexivity|].
  intros p Hp. apply elem_of_app in Hp as [Hp|Hp]; [|auto].
  specialize (N2 p Hp). destruct (files w1 !! p) as [x|] eqn:E; [|reflexivity].
  rewrite (F1 p x E) in N2. discriminate.
Qed.

Lemma world_extends_mkdir (fs : FileSystem) (w w' : World)
    (folder : string) :
  mkdir fs w folder = Some w' -> world_extends w w'.
Proof.
  intros H. destruct (mkdir_some fs w w' folder H)
    as (_ & Hf & Hw & Hl & Hs & Hd).
  split; [intros p x; now rewrite Hf|]. split; [exact Hd|].
  split; [exact Hl|]. split; [exact Hs|].
  exists []. split; [exact Hw|]. intros p Hp. inversion Hp.
Qed.

Lemma world_extends_write_file (fs : FileSystem) (w w' : World)
    (p : string) (data : list Byte.byte) :
  files w !! p = None -> write_file fs w p data = Some w' ->
  world_extends w w'.
Proof.
  intros Hn H. destruct (write_file_some fs w w' p data H)
    as (Hf & Hd & Hw & Hl & Hs).
  split.
  - intros q x Hq. rewrite Hf, lookup_insert_ne; [exact Hq|].
    intros ->. rewrite Hn in Hq. discriminate.
  - split; [now rewrite Hd|]. split; [exact Hl|]. split; [exact Hs|].
    exists [p]. split; [exact Hw|].
    intros q Hq. apply list_elem_of_singleton in Hq. now subst.
Qed.

Lemma path_exists_extends (w w' : World) (p : string) :
  world_extends w w' -> path_exists w p = true -> path_exists w' p = true.
Proof.
  intros (F & D & _) H. unfold path_exists in *.
  apply orb_true_iff in H as [H|H]; apply orb_true_iff.
  - left. apply bool_decide_eq_true in H as [x Hx].
    apply bool_decide_eq_true. exists x. now apply F.
  - right. apply bool_decide_eq_true in H.
    apply bool_decide_eq_true. set_solver.
Qed.

Lemma Returned_inj (a b : Results) : Returned a = Returned b -> a = b.
Proof. now intros [= ->]. Qed.

Lemma count_downloaded_snoc (l : list InvoiceRecord) (r : InvoiceRecord) :
  count_downloaded (l ++ [r])
  = (count_downloaded l + List.length (inv_attachments_downloaded r))%nat.
Proof.
  induction l as [|x l IH]; cbn; [lia|].
  unfold count_downloaded in IH. rewrite IH. lia.
Qed.

Section ScanFacts.

Variable md5_hexdigest : list Byte.byte -> string.
Variable strptime : string -> option Date.
Variable decode : string -> option string.
Variable b64decode : string -> option (list Byte.byte).
Variable fs : FileSystem.

(** What one call of [download_attachment] does to the world, however
    it ends. *)
Lemma download_attachment_extends (self : GmailMechanicScanner) (w : World)
    (now : Date) (msg_id : string) (attachment : Attachment)
    (email_date subject : string) :
  let r := download_attachment md5_hexdigest strptime b64decode fs self w
             now msg_id attachment email_date subject in
  world_extends w (snd r) /\
  (List.length (written (snd r))
   <= List.length (written w) + download_weight (fst r))%nat /\
  (forall p, fst r = DownloadReturned (Some p) ->
             path_exists (snd r) p = true).
Proof.
  destruct (download_attachment_cases md5_hexdigest strptime b64decode fs
              self msg_id attachment email_date subject)
    as [(o & Ho & Hnone) | (aid & att_data & data & file_data & Hid & Hne
                            & Hget & Hdata & Hdec)].
  - rewrite Hnone. cbn [fst snd].
    split; [apply world_extends_refl|]. split; [lia|].
    intros p E. now elim (Ho p).
  - pose proof (download_attachment_fetched md5_hexdigest strptime b64decode
                  fs self w now msg_id attachment email_date subject aid
                  att_data data file_data Hid Hne Hget Hdata Hdec) as H.
    cbv zeta in H. rewrite H. clear H.
    set (folder := archive_folder fs (download_dir self)
                     (archive_date strptime now email_date)).
    set (path := archive_path md5_hexdigest fs (download_dir self)
                   (archive_date strptime now email_date) subject
                   (att_filename attachment) file_data).
    destruct (mkdir fs w folder) as [w1|] eqn:Hmk.
    2:{ cbn [fst snd]. split; [apply world_extends_refl|].
        split; [lia|]. discriminate. }
    pose proof (world_extends_mkdir fs w w1 folder Hmk) as E1.
    destruct (mkdir_some fs w w1 folder Hmk) as (_ & _ & Hw1 & _).
    destruct (path_exists w1 path) eqn:Hex.
    + cbn [fst snd download_weight]. split; [exact E1|].
      split; [rewrite Hw1; lia|]. now intros p [= <-].
    + destruct (path_exists_false w1 path Hex) as [Hnone _].
      destruct (write_file fs w1 path file_data) as [w2|] eqn:Hwr.
      * pose proof (world_extends_write_file fs w1 w2 path file_data
                      Hnone Hwr) as E2.
        destruct (write_file_some fs w1 w2 path file_data Hwr)
          as (Hf2 & _ & Hw2 & _).
        cbn [fst snd download_weight].
        split; [exact (world_extends_trans _ _ _ E1 E2)|].
        split; [rewrite Hw2, Hw1; simpl; lia|].
        intros p [= <-]. apply (path_exists_file w2 path file_data).
        rewrite Hf2. apply lookup_insert_eq.
      * cbn [fst snd]. split; [exact E1|].
        split; [rewrite Hw1; lia|]. discriminate.
Qed.

(** What the attachment loop does to the world, however it ends: it
    only adds, and every path it returns exists and is not the empty
    text.  When the file system joins no two texts into the empty one,
    it writes at most as many files as it returns paths. *)
Lemma download_all_extends (self : GmailMechanicScanner)
    (clock : nat -> Date) (msg_id : string) (atts : list Attachment)
    (email_date subject : string) (w : World) (k : nat) :
  let r := download_all md5_hexdigest strptime b64decode fs self w clock k
             msg_id atts email_date subject in
  world_extends w (snd r) /\
  (forall p, In p (snd (fst r)) ->
             p <> EmptyString /\ path_exists (snd r) p = true) /\
  ((forall a b, fs_join fs a b <> EmptyString) ->
   (List.length (written (snd r))
    <= List.length (written w) + List.length (snd (fst r)))%nat).
Proof.
  revert w k. induction atts as [|a atts IH]; intros w k.
  - cbn. split; [apply world_extends_refl|]. split; [intros p []|lia].
  - cbn [download_all].
    destruct (is_downloadable a); [|apply IH].
    pose proof (download_attachment_extends self w (clock k) msg_id a
                  email_date subject) as H.
    cbv zeta in H.
    destruct (download_attachment md5_hexdigest strptime b64decode fs self
                w (clock k) msg_id a email_date subject)
      as [[|[q|]] w'] eqn:E;
      cbn [fst snd download_weight] in H; destruct H as (He & Hl & Hp).
    + cbn [fst snd]. split; [exact He|]. split; [intros p []|].
      intros _. cbn. lia.
    + specialize (IH w' (S k)). cbv zeta in IH.
      destruct (download_all md5_hexdigest strptime b64decode fs self w'
                  clock (S k) msg_id atts email_date subject)
        as [[e paths] w''].
      cbn [fst snd] in IH. destruct IH as (He' & Hs' & Hl').
      pose proof (Hp q eq_refl) as Hq.
      destruct (String.eqb q EmptyString) eqn:Eq; cbn [fst snd].
      * split; [exact (world_extends_trans _ _ _ He He')|].
        split; [exact Hs'|].
        intros Hj. exfalso. apply String.eqb_eq in Eq. subst q.
        destruct (download_attachment_cases md5_hexdigest strptime
                    b64decode fs self msg_id a email_date subject)
          as [(o & Ho & Hnone) | (aid & att_data & data & file_data & Hid
                                  & Hne & Hget & Hdata & Hdec)].
        -- rewrite Hnone in E. injection E as E _.
           now elim (Ho EmptyString).
        -- pose proof (download_attachment_fetched md5_hexdigest strptime
                         b64decode fs self w (clock k) msg_id a email_date
                         subject aid att_data data file_data Hid Hne Hget
                         Hdata Hdec) as R.
           cbv zeta in R. rewrite R in E.
           destruct (mkdir fs w _); [|discriminate].
           destruct (path_exists _ _);
             [|destruct (write_file fs _ _ _); [|discriminate]];
             injection E as E _; now elim (Hj _ _ E).
      * split; [exact (world_extends_trans _ _ _ He He')|].
        split.
        -- intros p [<-|Hin]; [|now apply Hs'].
           split; [now apply String.eqb_neq|].
           exact (path_exists_extends w' w'' q He' Hq).
        -- intros Hj. specialize (Hl' Hj). simpl. lia.
    + specialize (IH w' (S k)). cbv zeta in IH.
      destruct IH as (He' & Hs' & Hl').
      split; [exact (world_extends_trans _ _ _ He He')|].
      split; [exact Hs'|]. intros Hj. specialize (Hl' Hj). lia.
Qed.

End ScanFacts.

Section LoopFacts.

Variable md5_hexdigest : list Byte.byte -> string.
Variable strptime : string -> option Date.
Variable decode : string -> option string.
Variable b64decode : string -> option (list Byte.byte).
Variable fs : FileSystem.
Variable self : GmailMechanicScanner.
Variable clock : string -> nat -> Date.

Let step := scan_message md5_hexdigest strptime decode b64decode fs self
              clock.
Let loop := scan_loop md5_hexdigest strptime decode b64decode fs self clock.
Let details := get_email_details decode self.

(** How one iteration ends, and the sets it leaves. *)
Lemma scan_message_sets (msg_id : string) (st : LoopState) :
  let r := step msg_id st in
  if bool_decide (msg_id ∈ ls_processed st) then
    fst r = Finished /\ ls_processed (snd r) = ls_processed st /\
    ls_analyzed (snd r) = ls_analyzed st
  else
    match details msg_id with
    | FetchRaised =>
        fst r = Aborted /\ ls_processed (snd r) = ls_processed st /\
        ls_analyzed (snd r) = ls_analyzed st
    | FetchNone =>
        fst r = Finished /\ ls_processed (snd r) = ls_processed st /\
        ls_analyzed (snd r) = ls_analyzed st
    | Fetched _ =>
        ls_analyzed (snd r) = ls_analyzed st ++ [msg_id] /\
        ((fst r = Finished /\
          ls_processed (snd r) = {[msg_id]} ∪ ls_processed st) \/
         (fst r = Aborted /\ ls_processed (snd r) = ls_processed st))
    end.
Proof.
  unfold step, scan_message, details.
  destruct (bool_decide (msg_id ∈ ls_processed st)); [cbn; auto|].
  destruct (get_email_details decode self msg_id) as [| |email];
    [cbn; auto|cbn; auto|].
  cbv zeta. destruct (is_mechanic_invoice _); [|cbn; auto].
  destruct (download_all _ _ _ _ _ _ _ _ _ _ _ _)
    as [[[|] paths] w']; cbn; auto.
Qed.

Lemma loop_invariant_seen (loaded : gset string) (seen seen' : list string)
    (st : LoopState) :
  (forall x, x ∈ seen -> x ∈ seen') ->
  loop_invariant details loaded seen st ->
  loop_invariant details loaded seen' st.
Proof.
  intros Hs (H1 & H2 & H3 & H4).
  split; [exact H1|]. split; [exact H2|]. split; [exact H3|].
  intros x Hx. destruct (H4 x Hx) as (A & B & C). auto.
Qed.

Lemma scan_message_invariant (loaded : gset string) (seen : list string)
    (msg_id : string) (st : LoopState) :
  loop_invariant details loaded seen st ->
  loop_complete details loaded seen st ->
  let r := step msg_id st in
  loop_invariant details loaded (seen ++ [msg_id]) (snd r) /\
  (fst r = Finished ->
   loop_complete details loaded (seen ++ [msg_id]) (snd r)).
Proof.
  intros Hinv (Hp & Hseen) r.
  assert (Hweak : loop_invariant details loaded (seen ++ [msg_id]) st).
  { apply (loop_invariant_seen loaded seen); [|exact Hinv].
    intros x Hx. apply elem_of_app. now left. }
  destruct Hinv as (Hl & Hsub & Hnd & Han).
  pose proof (scan_message_sets msg_id st) as S. cbv zeta in S. fold r in S.
  destruct (bool_decide (msg_id ∈ ls_processed st)) eqn:Hin.
  { apply bool_decide_eq_true in Hin. destruct S as (_ & Sp & Sa).
    split.
    - unfold loop_invariant. rewrite Sp, Sa. exact Hweak.
    - intros _. unfold loop_complete. rewrite Sp, Sa.
      split; [exact Hp|].
      intros x email Hx Hd. apply elem_of_app in Hx as [Hx|Hx].
      + exact (Hseen x email Hx Hd).
      + apply list_elem_of_singleton in Hx. now subst. }
  apply bool_decide_eq_false in Hin.
  destruct (details msg_id) as [| |email] eqn:Hd.
  - destruct S as (Se & Sp & Sa). split.
    + unfold loop_invariant. rewrite Sp, Sa. exact Hweak.
    + rewrite Se. discriminate.
  - destruct S as (_ & Sp & Sa). split.
    + unfold loop_invariant. rewrite Sp, Sa. exact Hweak.
    + intros _. unfold loop_complete. rewrite Sp, Sa.
      split; [exact Hp|].
      intros x email Hx Hdx. apply elem_of_app in Hx as [Hx|Hx].
      * exact (Hseen x email Hx Hdx).
      * apply list_elem_of_singleton in Hx. subst x.
        rewrite Hd in Hdx. discriminate.
  - destruct S as (Sa & Sp).
    assert (Hfresh : msg_id ∉ ls_analyzed st).
    { intros Hc. apply Hin. rewrite Hp.
      apply elem_of_union. right. now apply elem_of_list_to_set. }
    assert (Hnew : msg_id ∉ loaded) by set_solver.
    assert (Hnd' : NoDup (ls_analyzed st ++ [msg_id])).
    { apply NoDup_app. split; [exact Hnd|]. split.
      - intros x Hx Hx'. apply list_elem_of_singleton in Hx'. now subst.
      - apply NoDup_singleton. }
    assert (Han' : forall x, x ∈ ls_analyzed st ++ [msg_id] ->
              (x ∉ loaded) /\ (exists email, details x = Fetched email) /\
              x ∈ seen ++ [msg_id]).
    { intros x Hx. apply elem_of_app in Hx as [Hx|Hx].
      - destruct (Han x Hx) as (A & B & C). split; [exact A|].
        split; [exact B|]. apply elem_of_app. now left.
      - apply list_elem_of_singleton in Hx. subst x.
        split; [exact Hnew|]. split; [eauto|].
        apply elem_of_app. right. now apply list_elem_of_singleton. }
    split.
    + unfold loop_invariant. rewrite Sa.
      destruct Sp as [[_ Sp]|[_ Sp]]; rewrite Sp, list_to_set_app_L.
      * split; [set_solver|]. split; [simpl; set_solver|]. auto.
      * split; [exact Hl|]. split; [set_solver|]. auto.
    + intros Hfin. destruct Sp as [[_ Sp]|[Hab _]];
        [|rewrite Hab in Hfin; discriminate].
      unfold loop_complete. rewrite Sp, Sa, list_to_set_app_L.
      split; [rewrite Hp; simpl; set_solver|].
      intros x email' Hx Hdx. apply elem_of_union.
      apply elem_of_app in Hx as [Hx|Hx].
      * right. exact (Hseen x email' Hx Hdx).
      * apply list_elem_of_singleton in Hx. subst x.
        left. now apply elem_of_singleton.
Qed.

Lemma scan_loop_invariant (loaded : gset string)
    (messages seen : list string) (st : LoopState) :
  loop_invariant details loaded seen st ->
  loop_complete details loaded seen st ->
  let r := loop messages st in
  loop_invariant details loaded (seen ++ messages) (snd r) /\
  (fst r = Finished ->
   loop_complete details loaded (seen ++ messages) (snd r)).
Proof.
  revert seen st. induction messages as [|m ms IH]; intros seen st Hi Hc.
  - cbn. rewrite app_nil_r. auto.
  - unfold loop. cbn [scan_loop]. fold step. fold loop.
    pose proof (scan_message_invariant loaded seen m st Hi Hc) as H.
    cbv zeta in H. destruct H as [Hi' Hc'].
    replace (seen ++ m :: ms) with ((seen ++ [m]) ++ ms)
      by (rewrite <- app_assoc; reflexivity).
    destruct (step m st) as [[|] st'] eqn:E; cbn [fst snd] in *.
    + apply IH; auto.
    + split; [|discriminate].
      apply (loop_invariant_seen loaded (seen ++ [m])); [|exact Hi'].
      intros x Hx. apply elem_of_app. now left.
Qed.

(** One iteration keeps the world, the counters and the recorded paths
    in order. *)
Lemma scan_message_step (msg_id : string) (st : LoopState) (n : nat) :
  let r := step msg_id st in
  world_extends (ls_world st) (ls_world (snd r)) /\
  (fst r = Finished ->
   counters_ok details self n st -> counters_ok details self (S n) (snd r)) /\
  ((forall a b, fs_join fs a b <> EmptyString) ->
   (List.length (written (ls_world (snd r)))
      + attachments_downloaded (ls_results st)
    <= List.length (written (ls_world st))
       + attachments_downloaded (ls_results (snd r)))%nat) /\
  (paths_stored (ls_world st) (invoices (ls_results st)) ->
   paths_stored (ls_world (snd r)) (invoices (ls_results (snd r)))).
Proof.
  unfold step, scan_message.
  destruct (bool_decide (msg_id ∈ ls_processed st)).
  { cbn. split; [apply world_extends_refl|]. split; [|split; [lia|auto]].
    intros _. unfold counters_ok. cbn. intros (H1 & H2 & H3 & H4 & H5 & H6).
    split; [lia|]. split; [exact H2|]. split; [exact H3|].
    split; [exact H4|]. split; [exact H5 | exact H6]. }
  fold details.
  destruct (details msg_id) as [| |email] eqn:Hd.
  { cbn. split; [apply world_extends_refl|].
    split; [discriminate|]. split; [lia|auto]. }
  { cbn. split; [apply world_extends_refl|]. split; [|split; [lia|auto]].
    intros _. unfold counters_ok. cbn. intros (H1 & H2 & H3 & H4 & H5 & H6).
    split; [lia|]. split; [exact H2|]. split; [lia|].
    split; [exact H4|]. split; [exact H5 | exact H6]. }
  cbv zeta. unfold classification_of.
  set (d := classify (classifier self) (email_subject email)
              (email_body email) (email_sender email)
              (List.map att_filename (email_attachments email))).
  destruct (is_mechanic_invoice d) eqn:Hacc.
  - pose proof (download_all_extends md5_hexdigest strptime b64decode fs
                  self (clock msg_id) msg_id (email_attachments email)
                  (email_date email) (email_subject email) (ls_world st) 0)
      as H.
    cbv zeta in H.
    destruct (download_all md5_hexdigest strptime b64decode fs self
                (ls_world st) (clock msg_id) 0 msg_id
                (email_attachments email) (email_date email)
                (email_subject email)) as [[e paths] w'].
    cbn [fst snd] in H. destruct H as (He & Hs & Hl).
    assert (Hold : paths_stored (ls_world st) (invoices (ls_results st)) ->
                   paths_stored w' (invoices (ls_results st))).
    { intros H record Hr p Hp. destruct (H record Hr p Hp) as [Hne Hex].
      split; [exact Hne|]. exact (path_exists_extends _ _ _ He Hex). }
    destruct e; cbn [fst snd ls_world ls_results ls_analyzed].
    + split; [exact He|]. split; [|split].
      * intros _. unfold counters_ok. cbn.
        intros (H1 & H2 & H3 & H4 & H5 & H6).
        rewrite !length_app. cbn.
        split; [lia|]. split; [lia|]. split; [lia|].
        split; [lia|]. split.
        { rewrite count_downloaded_snoc, H5. reflexivity. }
        intros record Hr. apply in_app_or in Hr as [Hr|Hr].
        -- destruct (H6 record Hr) as (Ha & e & He1 & He2).
           split; [apply elem_of_app; now left|]. exists e. auto.
        -- destruct Hr as [<-|[]]. cbn.
           split; [apply elem_of_app; right;
                   now apply list_elem_of_singleton|].
           exists email. split; [exact Hd|]. fold d. auto.
      * intros Hj. specialize (Hl Hj). cbn. lia.
      * intros H record Hr p Hp. cbn in Hr.
        apply in_app_or in Hr as [Hr|[<-|[]]].
        -- now apply (Hold H record Hr).
        -- cbn in Hp. now apply Hs.
    + split; [exact He|]. split; [discriminate|]. split.
      * intros Hj. specialize (Hl Hj). cbn. lia.
      * cbn. exact Hold.
  - cbn [fst snd ls_world ls_results ls_analyzed].
    split; [apply world_extends_refl|].
    assert (Hrej : forall r, invoices (count_rejection r (reason d))
                             = invoices r /\
                 invoices_found (count_rejection r (reason d))
                   = invoices_found r /\
                 attachments_downloaded (count_rejection r (reason d))
                   = attachments_downloaded r /\
                 total_scanned (count_rejection r (reason d))
                   = total_scanned r /\
                 skipped_already_processed (count_rejection r (reason d))
                   = skipped_already_processed r /\
                 (skipped_rate_confirmations (count_rejection r (reason d))
                  + skipped_no_identifier (count_rejection r (reason d))
                  + skipped_not_mechanic (count_rejection r (reason d))
                  = S (skipped_rate_confirmations r + skipped_no_identifier r
                       + skipped_not_mechanic r))%nat).
    { intros r. unfold count_rejection.
      destruct (Py.contains "EXCLUDED" (reason d));
        [|destruct (Py.contains "No truck identifier" (reason d))];
        cbn; repeat split; lia. }
    destruct (Hrej (count_scanned (ls_results st)))
      as (R1 & R2 & R3 & R4 & R5 & R6).
    split; [|split; [intros _; rewrite R3; cbn; lia|now rewrite R1]].
    intros _. unfold counters_ok. cbn [ls_results ls_analyzed].
    intros (H1 & H2 & H3 & H4 & H5 & H6).
    rewrite R1, R2, R3, R4, R5, length_app. cbn in *.
    split; [lia|]. split; [lia|]. split; [lia|].
    split; [exact H4|]. split; [exact H5|].
    intros record Hr. destruct (H6 record Hr) as (Ha & e & He1).
    split; [apply elem_of_app; now left|]. exists e. exact He1.
Qed.

Lemma scan_loop_steps (messages : list string) (st : LoopState) (n : nat) :
  let r := loop messages st in
  world_extends (ls_world st) (ls_world (snd r)) /\
  (fst r = Finished ->
   counters_ok details self n st ->
   counters_ok details self (n + List.length messages) (snd r)) /\
  ((forall a b, fs_join fs a b <> EmptyString) ->
   (List.length (written (ls_world (snd r)))
      + attachments_downloaded (ls_results st)
    <= List.length (written (ls_world st))
       + attachments_downloaded (ls_results (snd r)))%nat) /\
  (paths_stored (ls_world st) (invoices (ls_results st)) ->
   paths_stored (ls_world (snd r)) (invoices (ls_results (snd r)))).
Proof.
  revert st n. induction messages as [|m ms IH]; intros st n.
  - cbn. split; [apply world_extends_refl|].
    split; [now rewrite Nat.add_0_r|]. split; [lia|auto].
  - unfold loop. cbn [scan_loop]. fold step. fold loop.
    pose proof (scan_message_step m st n) as Hm. cbv zeta in Hm.
    destruct Hm as (E1 & C1 & W1 & P1).
    destruct (step m st) as [[|] st'] eqn:E; cbn [fst snd] in *.
    + specialize (IH st' (S n)). cbv zeta in IH.
      destruct IH as (E2 & C2 & W2 & P2).
      split; [exact (world_extends_trans _ _ _ E1 E2)|].
      split; [|split].
      * intros Hf H. replace (n + List.length (m :: ms))%nat
          with (S n + List.length ms)%nat by (simpl; lia).
        apply C2; [exact Hf|]. now apply C1.
      * intros Hj. specialize (W1 Hj). specialize (W2 Hj). lia.
      * intros H. apply P2, P1, H.
    + split; [exact E1|]. split; [discriminate|]. split; [exact W1|exact P1].
Qed.

(** A message that is processed already only moves the skip counter. *)
Lemma scan_message_processed_already (msg_id : string) (st : LoopState) :
  msg_id ∈ ls_processed st ->
  step msg_id st
  = (Finished,
     {| ls_processed := ls_processed st; ls_world := ls_world st;
        ls_results := count_skipped (ls_results st);
        ls_analyzed := ls_analyzed st |}).
Proof.
  intros H. unfold step, scan_message.
  now rewrite bool_decide_eq_true_2 by exact H.
Qed.

(** So does a listing whose messages are all processed already. *)
Lemma scan_loop_all_processed (messages : list string) (st : LoopState) :
  (forall x, x ∈ messages -> x ∈ ls_processed st) ->
  let r := loop messages st in
  fst r = Finished /\
  ls_processed (snd r) = ls_processed st /\
  ls_world (snd r) = ls_world st /\
  ls_analyzed (snd r) = ls_analyzed st /\
  total_scanned (ls_results (snd r)) = total_scanned (ls_results st) /\
  invoices (ls_results (snd r)) = invoices (ls_results st) /\
  skipped_already_processed (ls_results (snd r))
  = (skipped_already_processed (ls_results st) + List.length messages)%nat.
Proof.
  revert st. induction messages as [|m ms IH]; intros st H.
  - cbn. repeat split; lia.
  - unfold loop. cbn [scan_loop]. fold step. fold loop.
    rewrite (scan_message_processed_already m st) by (apply H; left).
    specialize (IH {| ls_processed := ls_processed st;
                      ls_world := ls_world st;
                      ls_results := count_skipped (ls_results st);
                      ls_analyzed := ls_analyzed st |}).
    cbv zeta in IH |- *. cbn [ls_processed ls_world ls_analyzed ls_results]
      in IH.
    destruct IH as (I0 & I1 & I2 & I3 & I4 & I5 & I6).
    { intros x Hx. apply H. now right. }
    rewrite I0, I1, I2, I3, I4, I5, I6. cbn. repeat split; lia.
Qed.

End LoopFacts.

Section ScanFacts2.

Variable md5_hexdigest : list Byte.byte -> string.
Variable strptime : string -> option Date.
Variable decode : string -> option string.
Variable b64decode : string -> option (list Byte.byte).
Variable fs : FileSystem.

(** [scan] as its loop: how it ends and what it leaves. *)
Lemma scan_unfold (self : GmailMechanicScanner) (w : World)
    (clock : string -> nat -> Date) (stamp : string) (m : string)
    (ms : list string) :
  messages_list (service self) = Some (m :: ms) ->
  let l := scan_loop md5_hexdigest strptime decode b64decode fs self clock
             (m :: ms)
             {| ls_processed := processed_ids self; ls_world := w;
                ls_results := empty_results; ls_analyzed := [] |} in
  let r := scan md5_hexdigest strptime decode b64decode fs self w clock
             stamp in
  processed_ids (scanner_after r) = ls_processed (snd l) /\
  analyzed r = ls_analyzed (snd l) /\
  files (world_after r) = files (ls_world (snd l)) /\
  dirs (world_after r) = dirs (ls_world (snd l)) /\
  written (world_after r) = written (ls_world (snd l)) /\
  match fst l with
  | Finished =>
      outcome r = Returned (ls_results (snd l)) /\
      ledger_file (world_after r) = Some (ls_processed (snd l)) /\
      summaries (world_after r)
      = summaries (ls_world (snd l)) ++ [(stamp, ls_results (snd l))]
  | Aborted =>
      outcome r = Raised /\ world_after r = ls_world (snd l)
  end.
Proof.
  intros Hl l r. unfold r, scan. rewrite Hl. fold l.
  destruct l as [[|] st]; cbn; auto 10.
Qed.

(** [scan] on a scanner with any set of processed ids: the set it ends
    with, the ledger file it leaves, and the messages it analysed. *)
Lemma scan_ledger (self : GmailMechanicScanner) (w : World)
    (clock : string -> nat -> Date) (stamp : string) :
  let r := scan md5_hexdigest strptime decode b64decode fs self w clock
             stamp in
  let details := get_email_details decode self in
  processed_ids self ⊆ processed_ids (scanner_after r) /\
  processed_ids (scanner_after r)
    ⊆ processed_ids self ∪ list_to_set (analyzed r) /\
  NoDup (analyzed r) /\
  (forall x, x ∈ analyzed r ->
     (x ∉ processed_ids self) /\
     (exists email, details x = Fetched email) /\
     exists ms, messages_list (service self) = Some ms /\ x ∈ ms) /\
  (outcome r = Raised ->
   ledger_file (world_after r) = ledger_file w /\
   summaries (world_after r) = summaries w) /\
  (forall res, outcome r = Returned res ->
   processed_ids (scanner_after r)
   = processed_ids self ∪ list_to_set (analyzed r) /\
   (ledger_file (world_after r) = Some (processed_ids (scanner_after r)) \/
    (ledger_file (world_after r) = ledger_file w /\ analyzed r = [])) /\
   (forall x ms email, messages_list (service self) = Some ms -> x ∈ ms ->
      details x = Fetched email -> x ∈ processed_ids (scanner_after r))).
Proof.
  intros r details.
  destruct (messages_list (service self)) as [[|m ms]|] eqn:Hl.
  - unfold r, scan. rewrite Hl. cbn.
    split; [set_solver|]. split; [set_solver|]. split; [constructor|].
    split; [set_solver|]. split; [discriminate|].
    intros res _. split; [set_solver|]. split; [right; auto|].
    intros x ms' email E Hx. injection E as <-. set_solver.
  - pose proof (scan_unfold self w clock stamp m ms Hl) as U.
    cbv zeta in U. fold r in U.
    pose proof (scan_loop_invariant md5_hexdigest strptime decode b64decode
                  fs self clock (processed_ids self) (m :: ms) []
                  {| ls_processed := processed_ids self; ls_world := w;
                     ls_results := empty_results; ls_analyzed := [] |})
      as H.
    pose proof (scan_loop_steps md5_hexdigest strptime decode b64decode
                  fs self clock (m :: ms)
                  {| ls_processed := processed_ids self; ls_world := w;
                     ls_results := empty_results; ls_analyzed := [] |} 0)
      as W.
    cbv zeta in H, W. simpl app in H. cbn [ls_world] in W.
    destruct W as ((_ & _ & Wl & Ws & _) & _).
    destruct H as ((Hsub1 & Hsub2 & Hnd & Han) & Hc).
    { split; [simpl; set_solver|]. split; [simpl; set_solver|].
      split; [constructor|]. simpl. set_solver. }
    { split; [simpl; set_solver|]. simpl. set_solver. }
    destruct U as (Up & Ua & _ & _ & _ & Uo).
    rewrite Up, Ua.
    split; [exact Hsub1|]. split; [exact Hsub2|]. split; [exact Hnd|].
    split.
    { intros x Hx. destruct (Han x Hx) as (H1 & H2 & H3).
      split; [exact H1|]. split; [exact H2|].
      exists (m :: ms). split; [reflexivity | exact H3]. }
    destruct (fst (scan_loop md5_hexdigest strptime decode b64decode fs self
                     clock (m :: ms) _)) eqn:Ee.
    + destruct Uo as (Uo & Ul & Us). split; [rewrite Uo; discriminate|].
      intros res _. destruct (Hc eq_refl) as [Hp Hseen].
      split; [exact Hp|]. split; [left; exact Ul|].
      intros x ms' email E Hx Hd. injection E as <-.
      exact (Hseen x email Hx Hd).
    + destruct Uo as (Uo & Uw). split.
      * intros _. rewrite Uw. auto.
      * intros res E. rewrite Uo in E. discriminate.
  - unfold r, scan. rewrite Hl. cbn.
    split; [set_solver|]. split; [set_solver|]. split; [constructor|].
    split; [set_solver|]. split; [auto|]. discriminate.
Qed.

End ScanFacts2.

(* ===================================================================== *)
(** ** The classifier's decisions *)
(* ===================================================================== *)

(** Enumerate a hypothesis [In x [a; b; ...]]. *)
Ltac in_cases H :=
  simpl in H; repeat (destruct H as [<- | H]); try contradiction.

(** C3.  A message whose lowered sender contains one of the classifier's
    excluded-sender substrings is rejected whatever its subject, body and
    attachment names are; the sender test runs before every other rule, so
    the rationale is the excluded-sender one and nothing is recorded as
    matched. *)
Theorem C3_excluded_sender_rejects (self : InvoiceClassifier)
    (subject body sender : string) (attachment_names : list string)
    (s : string) :
  In s (exclude_senders self) ->
  Py.contains s (Py.lower sender) = true ->
  let d := classify self subject body sender attachment_names in
  is_mechanic_invoice d = false /\
  confidence d = 0.0%float /\
  found_identifiers d = [] /\ found_keywords d = [] /\
  exists s', In s' (exclude_senders self) /\
             Py.contains s' (Py.lower sender) = true /\
             reason d = "EXCLUDED: Excluded sender: " +:+ s'.
Proof.
  intros Hin Hc d. subst d. unfold classify, should_exclude.
  destruct (sender_loop (exclude_senders self) (Py.lower sender)) as [r|] eqn:E.
  - apply sender_loop_some in E as [s' [H1 [H2 ->]]].
    simpl. repeat split; eauto.
  - rewrite sender_loop_none in E. rewrite (E s Hin) in Hc. discriminate.
Qed.

Lemma C3_witness :
  is_mechanic_invoice
    (classify InvoiceClassifier_init "Invoice - brake repair Unit 574"
       "VIN 3AKJHHDR7KSKE1598" "DAT <No-Reply@DAT.com>" ["invoice.pdf"])
  = false.
Proof.
  apply (C3_excluded_sender_rejects InvoiceClassifier_init
           "Invoice - brake repair Unit 574" "VIN 3AKJHHDR7KSKE1598"
           "DAT <No-Reply@DAT.com>" ["invoice.pdf"] "no-reply@dat.com").
  - simpl. left. reflexivity.
  - vm_compute. reflexivity.
Defined.

(** C2.  When the lowered text of subject, body and attachment names
    contains an exclusion keyword that itself holds both "rate" and
    "confirm", [should_exclude] answers true and [classify] rejects with an
    EXCLUDED rationale, whatever identifiers and mechanic keywords the text
    has. *)
Theorem C2_rate_confirmation_veto (self : InvoiceClassifier)
    (subject body sender : string) (attachment_names : list string)
    (kw : string) :
  In kw (exclude_keywords self) ->
  Py.contains "rate" kw = true -> Py.contains "confirm" kw = true ->
  Py.contains kw (Py.lower (full_text_of subject body attachment_names))
    = true ->
  let d := classify self subject body sender attachment_names in
  fst (should_exclude self (full_text_of subject body attachment_names) sender)
    = true /\
  is_mechanic_invoice d = false /\
  confidence d = 0.0%float /\
  Py.startswith (reason d) "EXCLUDED: " = true.
Proof.
  intros Hin Hr Hc Ht d. subst d.
  assert (Hrc : is_rate_confirmation kw = true)
    by (unfold is_rate_confirmation; now rewrite Hr, Hc).
  destruct (keyword_loop_rate self _ _ _ Hin Ht Hrc) as [r Hk].
  unfold classify, should_exclude.
  destruct (sender_loop _ _) as [r0|]; [|rewrite Hk]; simpl;
    repeat split; auto; apply prefix_app; eauto.
Qed.

Lemma C2_witness :
  is_mechanic_invoice
    (classify InvoiceClassifier_init "Rate Confirmation #4471"
       "Unit 574 brake repair tire service invoice" "shop@example.com"
       ["invoice.pdf"])
  = false.
Proof.
  apply (C2_rate_confirmation_veto InvoiceClassifier_init
           "Rate Confirmation #4471"
           "Unit 574 brake repair tire service invoice" "shop@example.com"
           ["invoice.pdf"] "rate confirmation").
  - simpl. left. reflexivity.
  - vm_compute. reflexivity.
  - vm_compute. reflexivity.
  - vm_compute. reflexivity.
Defined.

(** C5.  A message that [should_exclude] lets through and whose lowered
    text contains none of the classifier's search terms is rejected with
    the no-identifier rationale, an empty list of identifiers and no
    keywords recorded, whatever mechanic keywords the text has. *)
Theorem C5_no_identifier_rejects (self : InvoiceClassifier)
    (subject body sender : string) (attachment_names : list string) :
  let full_text := full_text_of subject body attachment_names in
  fst (should_exclude self full_text sender) = false ->
  (forall term, In term (search_terms self) ->
     Py.contains (Py.lower term) (Py.lower full_text) = false) ->
  let d := classify self subject body sender attachment_names in
  is_mechanic_invoice d = false /\
  confidence d = 0.0%float /\
  reason d = "No truck identifier found (574, VIN, etc.)" /\
  found_identifiers d = [] /\
  found_keywords d = [].
Proof.
  intros full_text Hex Hnone d. subst d.
  rewrite classify_unfold. fold full_text. cbv zeta. rewrite Hex.
  assert (E : contains_truck_identifier self full_text = (false, [])).
  { unfold contains_truck_identifier.
    assert (F : List.filter
                  (fun term => Py.contains (Py.lower term) (Py.lower full_text))
                  (search_terms self) = [])
      by now apply filter_nil_iff.
    now rewrite F. }
  rewrite E. simpl. auto.
Qed.

Lemma C5_witness :
  reason
    (classify InvoiceClassifier_init "Weekly Newsletter"
       "brake repair and tire service specials" "news@example.com" [])
  = "No truck identifier found (574, VIN, etc.)".
Proof.
  apply (C5_no_identifier_rejects InvoiceClassifier_init "Weekly Newsletter"
           "brake repair and tire service specials" "news@example.com" []).
  - vm_compute. reflexivity.
  - intros term H. in_cases H; vm_compute; reflexivity.
Defined.

(** C4.  For a message whose sender is not excluded and whose lowered text
    matches no rate-confirmation keyword, [should_exclude] answers true
    exactly when the exclusion keywords found in the whole text outnumber
    the mechanic keywords found in it; then [classify] rejects and names
    both counts, and otherwise it goes on to the identifier check.  (The
    statement needs no assumption that some exclusion keyword matches:
    with none the exclusion count is zero.) *)
Theorem C4_soft_exclusion_by_counts (self : InvoiceClassifier)
    (subject body sender : string) (attachment_names : list string) :
  let full_text := full_text_of subject body attachment_names in
  let text_lower := Py.lower full_text in
  let exclude_count := count_in (exclude_keywords self) text_lower in
  let mechanic_count := count_in (mechanic_keywords self) text_lower in
  let d := classify self subject body sender attachment_names in
  (forall s, In s (exclude_senders self) ->
     Py.contains s (Py.lower sender) = false) ->
  (forall kw, In kw (exclude_keywords self) ->
     Py.contains kw text_lower = true -> is_rate_confirmation kw = false) ->
  (fst (should_exclude self full_text sender) = true <->
   (mechanic_count < exclude_count)%nat) /\
  ((mechanic_count < exclude_count)%nat ->
   is_mechanic_invoice d = false /\
   reason d = "EXCLUDED: More exclusion signals ("
              +:+ Py.str_of_nat exclude_count
              +:+ ") than mechanic signals ("
              +:+ Py.str_of_nat mechanic_count +:+ ")") /\
  ((exclude_count <= mechanic_count)%nat ->
   d = classify_from_identifiers self subject full_text attachment_names).
Proof.
  intros full_text text_lower ec mc d Hsender Hsoft. subst d.
  unfold classify, should_exclude. fold full_text text_lower.
  apply sender_loop_none in Hsender. rewrite Hsender.
  rewrite (keyword_loop_soft self _ _ Hsoft). fold ec mc.
  destruct (mc <? ec)%nat eqn:Hlt.
  - apply Nat.ltb_lt in Hlt.
    rewrite (count_in_pos (exclude_keywords self) text_lower) by (fold ec; lia).
    simpl. repeat split; auto; lia.
  - apply Nat.ltb_ge in Hlt. rewrite andb_false_r. simpl.
    repeat split; try discriminate; try lia; auto.
Qed.

Lemma C4_witness :
  reason
    (classify InvoiceClassifier_init "dispatch pickup" "574 tire"
       "shop@example.com" [])
  = "EXCLUDED: More exclusion signals (2) than mechanic signals (1)".
Proof.
  refine (proj2 (proj1 (proj2
    (C4_soft_exclusion_by_counts InvoiceClassifier_init "dispatch pickup"
       "574 tire" "shop@example.com" [] _ _)) _)).
  - intros s H. in_cases H; vm_compute; reflexivity.
  - intros kw H Hc. in_cases H; try (vm_compute; reflexivity).
    vm_compute in Hc. discriminate.
  - vm_compute. lia.
Defined.

(** C10.  On every rejection the [confidence] field of the decision is
    0.0, also when Step 4 ran and its score fell short of 0.3: that score
    is only printed, as a percentage, inside the reason.  An accepted
    decision carries the score itself, which is at least 0.3; so the
    field differs from 0.0 on accepted decisions only. *)
Theorem C10_rejected_confidence_is_zero (self : InvoiceClassifier)
    (subject body sender : string) (attachment_names : list string) :
  let d := classify self subject body sender attachment_names in
  (is_mechanic_invoice d = false -> confidence d = 0.0%float) /\
  (confidence d <> 0.0%float -> is_mechanic_invoice d = true) /\
  (is_mechanic_invoice d = true ->
   confidence d <> 0.0%float /\
   computed_confidence self subject body sender attachment_names
     = Some (confidence d)) /\
  (forall c,
     computed_confidence self subject body sender attachment_names = Some c ->
     PrimFloat.leb 0.3%float c = false ->
     is_mechanic_invoice d = false /\ confidence d = 0.0%float /\
     reason d = "Low confidence (" +:+ Py.format_percent0 c
                +:+ ") - not enough signals").
Proof.
  intros d.
  pose proof (classify_by_score self subject body sender attachment_names) as H.
  cbv zeta in H. fold d in H.
  destruct (computed_confidence self subject body sender attachment_names)
    as [c|].
  - destruct (PrimFloat.leb 0.3 c) eqn:L.
    + destruct H as [Ha Hc]. rewrite Ha, Hc.
      assert (Hnz : c <> 0.0%float).
      { intros ->. vm_compute in L. discriminate. }
      split; [discriminate|]. split; [reflexivity|]. split; [auto|].
      intros c' [= <-] L'. congruence.
    + destruct H as (Ha & Hc & Hr). rewrite Ha, Hc.
      split; [reflexivity|]. split; [congruence|]. split; [discriminate|].
      intros c' [= <-] _. auto.
  - destruct H as [Ha Hc]. rewrite Ha, Hc.
    split; [reflexivity|]. split; [congruence|]. split; [discriminate|].
    intros c' E. discriminate.
Qed.

Lemma C10_witness :
  let d := classify InvoiceClassifier_init "hello 574" "tire"
             "shop@example.com" [] in
  is_mechanic_invoice d = false /\ confidence d = 0.0%float /\
  reason d = "Low confidence (" +:+ Py.format_percent0 (0.0 + 0.1 + 0.1)%float
             +:+ ") - not enough signals".
Proof.
  assert (E : computed_confidence InvoiceClassifier_init "hello 574" "tire"
                "shop@example.com" [] = Some (0.0 + 0.1 + 0.1)%float)
    by (vm_compute; reflexivity).
  assert (L : PrimFloat.leb 0.3%float (0.0 + 0.1 + 0.1)%float = false)
    by (vm_compute; reflexivity).
  exact (proj2 (proj2 (proj2
    (C10_rejected_confidence_is_zero InvoiceClassifier_init "hello 574"
       "tire" "shop@example.com" []))) (0.0 + 0.1 + 0.1)%float E L).
Defined.

(** C1.  [classify] accepts exactly when Step 4 ran and its score is at
    least 0.3, which is also exactly when the [confidence] field of the
    decision is at least 0.3.  In Scenario D (subject "Brake repair", no
    attachment, a message that is not excluded, whose only identifier found
    is the last four characters of the VIN and which matches two mechanic
    keywords) the score is 0.15 + 0.2, that is 0.35, and the message is
    accepted. *)
Theorem C1_accept_iff_threshold :
  (forall (self : InvoiceClassifier) (subject body sender : string)
          (attachment_names : list string),
     let d := classify self subject body sender attachment_names in
     (is_mechanic_invoice d = true <->
      exists c,
        computed_confidence self subject body sender attachment_names
          = Some c /\ PrimFloat.leb 0.3%float c = true) /\
     (is_mechanic_invoice d = true <->
      PrimFloat.leb 0.3%float (confidence d) = true)) /\
  (forall (body sender : string),
     let self := InvoiceClassifier_init in
     let full_text := full_text_of "Brake repair" body [] in
     let d := classify self "Brake repair" body sender [] in
     fst (should_exclude self full_text sender) = false ->
     snd (contains_truck_identifier self full_text) = [Py.lower VIN_LAST_4] ->
     List.length (snd (is_mechanic_related self full_text)) = 2 ->
     computed_confidence self "Brake repair" body sender []
       = Some (0.15 + 0.2)%float /\
     (0.15 + 0.2)%float = 0.35%float /\
     confidence d = 0.35%float /\
     is_mechanic_invoice d = true).
Proof.
  split.
  - intros self subject body sender attachment_names d.
    pose proof (classify_by_score self subject body sender attachment_names)
      as H.
    cbv zeta in H. fold d in H.
    destruct (computed_confidence self subject body sender attachment_names)
      as [c|].
    + destruct (PrimFloat.leb 0.3 c) eqn:L.
      * destruct H as [Ha Hc]. rewrite Ha, Hc. split; split; eauto.
      * destruct H as (Ha & Hc & _). rewrite Ha, Hc.
        split; split; try discriminate;
          try (vm_compute; discriminate).
        intros [c' [[= <-] L']]. rewrite L in L'. discriminate.
    + destruct H as [Ha Hc]. rewrite Ha, Hc.
      split; split; try discriminate;
        try (vm_compute; discriminate).
      intros [c' [E _]]. discriminate.
  - intros body sender self full_text d Hex Hid Hkw.
    assert (Hfst : fst (contains_truck_identifier self full_text) = true)
      by (rewrite fst_contains_truck_identifier, Hid; reflexivity).
    assert (Hmech : fst (is_mechanic_related self full_text) = true)
      by (rewrite fst_is_mechanic_related, Hkw; reflexivity).
    assert (Hscore :
      computed_confidence self "Brake repair" body sender []
        = Some (0.15 + 0.2)%float).
    { unfold computed_confidence, reaches_scoring. fold full_text.
      rewrite Hex, Hfst, Hmech. cbn [negb andb]. f_equal.
      rewrite confidence_score_features, Hkw.
      destruct (only_vin4_ranks full_text Hid) as [-> ->].
      vm_compute. reflexivity. }
    pose proof (classify_by_score self "Brake repair" body sender []) as H.
    cbv zeta in H. fold d in H. rewrite Hscore in H.
    assert (L : PrimFloat.leb 0.3 (0.15 + 0.2) = true)
      by (vm_compute; reflexivity).
    rewrite L in H. destruct H as [Ha Hc].
    split; [exact Hscore|]. split; [vm_compute; reflexivity|].
    split; [|exact Ha]. rewrite Hc. vm_compute. reflexivity.
Qed.

Lemma C1_witness :
  let d := classify InvoiceClassifier_init "Brake repair" "VIN ending 1598"
             "shop@example.com" [] in
  (0.15 + 0.2)%float = 0.35%float /\
  confidence d = 0.35%float /\ is_mechanic_invoice d = true.
Proof.
  assert (H1 : fst (should_exclude InvoiceClassifier_init
                      (full_text_of "Brake repair" "VIN ending 1598" [])
                      "shop@example.com") = false)
    by (vm_compute; reflexivity).
  assert (H2 : snd (contains_truck_identifier InvoiceClassifier_init
                      (full_text_of "Brake repair" "VIN ending 1598" []))
               = [Py.lower VIN_LAST_4])
    by (vm_compute; reflexivity).
  assert (H3 : List.length
                 (snd (is_mechanic_related InvoiceClassifier_init
                         (full_text_of "Brake repair" "VIN ending 1598" [])))
               = 2)
    by (vm_compute; reflexivity).
  exact (proj2 (proj2 C1_accept_iff_threshold "VIN ending 1598"
                  "shop@example.com" H1 H2 H3)).
Defined.

(** C7.  For two messages that both reach Step 4, if the second has a VIN
    match of at least the rank of the first (full VIN, then the last 8, 6
    and 4 characters), at least as strong a unit-number match, at least as
    many mechanic keywords found, a PDF attachment whenever the first has
    one and "invoice" in its subject whenever the first has it, then its
    score is at least the score of the first; every score is at most 1.0.
    The keyword part is 0.1 times the number of keywords found, held at the
    value it has for four keywords from the fourth on. *)
Theorem C7_confidence_monotone
    (subject1 body1 sender1 : string) (attachments1 : list string)
    (subject2 body2 sender2 : string) (attachments2 : list string)
    (c1 c2 : float) :
  let self := InvoiceClassifier_init in
  let text1 := full_text_of subject1 body1 attachments1 in
  let text2 := full_text_of subject2 body2 attachments2 in
  computed_confidence self subject1 body1 sender1 attachments1 = Some c1 ->
  computed_confidence self subject2 body2 sender2 attachments2 = Some c2 ->
  (vin_rank text1 <= vin_rank text2)%nat ->
  (unit_rank text1 <= unit_rank text2)%nat ->
  (List.length (snd (is_mechanic_related self text1))
   <= List.length (snd (is_mechanic_related self text2)))%nat ->
  (has_pdf attachments1 = true -> has_pdf attachments2 = true) ->
  (subject_has_invoice subject1 = true ->
   subject_has_invoice subject2 = true) ->
  PrimFloat.leb c1 c2 = true /\
  PrimFloat.leb c1 1.0%float = true /\ PrimFloat.leb c2 1.0%float = true /\
  (forall n, (n <= 60)%nat ->
     keyword_score n
     = Py.min (Py.float_of_nat (Nat.min n 4) * 0.1)%float 0.4%float) /\
  keyword_score 4 = 0.4%float.
Proof.
  intros self text1 text2 H1 H2 Hv Hu Hn Hp Hi.
  apply computed_confidence_some in H1. apply computed_confidence_some in H2.
  fold text1 in H1. fold text2 in H2. rewrite H1, H2.
  pose proof (vin_rank_le text1) as V1. pose proof (vin_rank_le text2) as V2.
  pose proof (unit_rank_le text1) as U1. pose proof (unit_rank_le text2) as U2.
  pose proof (found_keywords_le text1) as K1.
  pose proof (found_keywords_le text2) as K2.
  destruct (score_of_monotone _ _ _ _ _ _ _ _ _ _
              Hv V2 Hu U2 Hn K2 Hp Hi) as [M B2].
  destruct (score_of_monotone
              (vin_rank text1) (vin_rank text1)
              (unit_rank text1) (unit_rank text1)
              (List.length (snd (is_mechanic_related self text1)))
              (List.length (snd (is_mechanic_related self text1)))
              (has_pdf attachments1) (has_pdf attachments1)
              (subject_has_invoice subject1) (subject_has_invoice subject1)
              (Nat.le_refl _) V1 (Nat.le_refl _) U1 (Nat.le_refl _) K1
              (fun e => e) (fun e => e)) as [_ B1].
  split; [exact M|]. split; [exact B1|]. split; [exact B2|].
  split; [|vm_compute; reflexivity].
  intros n Hle. apply (keyword_score_cap n Hle).
Qed.

Lemma C7_witness :
  computed_confidence InvoiceClassifier_init "Brake repair" "VIN ending 1598"
    "shop@example.com" [] = Some 0.35%float /\
  computed_confidence InvoiceClassifier_init "Invoice for brake repair"
    "Unit 574, VIN 3AKJHHDR7KSKE1598" "shop@example.com" ["inv-574.pdf"]
    = Some 1.0%float /\
  PrimFloat.leb 0.35%float 1.0%float = true.
Proof.
  assert (E1 : computed_confidence InvoiceClassifier_init "Brake repair"
                 "VIN ending 1598" "shop@example.com" [] = Some 0.35%float)
    by (vm_compute; reflexivity).
  assert (E2 : computed_confidence InvoiceClassifier_init
                 "Invoice for brake repair" "Unit 574, VIN 3AKJHHDR7KSKE1598"
                 "shop@example.com" ["inv-574.pdf"] = Some 1.0%float)
    by (vm_compute; reflexivity).
  split; [exact E1|]. split; [exact E2|].
  refine (proj1 (C7_confidence_monotone _ _ _ _ _ _ _ _ _ _ E1 E2 _ _ _ _ _)).
  - vm_compute. lia.
  - vm_compute. lia.
  - vm_compute. lia.
  - vm_compute. discriminate.
  - vm_compute. discriminate.
Defined.

(** The unit-number test of the code and the rule as the specification
    words it disagree on a text in which "574" occurs only inside the
    number 15740: no labeled phrase is there and "574" is not a token of
    its own, so the worded rule adds nothing, while the code adds 0.1. *)
Lemma C6_counterexample :
  SpecWording.has_labeled_phrase part_number_text = false /\
  SpecWording.has_bare_token part_number_text = false /\
  SpecWording.unit_step part_number_text 0.0%float = 0.0%float /\
  unit_step part_number_text 0.0%float = 0.1%float /\
  unit_step part_number_text 0.0%float
    <> SpecWording.unit_step part_number_text 0.0%float.
Proof.
  repeat split; try (vm_compute; reflexivity).
  intros H.
  apply (f_equal (fun x => PrimFloat.eqb x 0.1%float)) in H.
  vm_compute in H. discriminate.
Qed.

(** C6, amended.  In Step 4 the phrase "unit 574", found anywhere in the
    lowered text, adds 0.2 to the running confidence; otherwise "574",
    found anywhere in the text as a substring (a token of its own or not:
    inside another search term such as "truck 574" or "unit#574", or
    inside a longer number), adds 0.1; otherwise nothing is added.  The
    two additions exclude each other. *)
Theorem C6_unit_number_bonus (full_text : string) (c : float) :
  (Py.contains "unit 574" (Py.lower full_text) = true ->
   unit_step full_text c = (c + 0.2)%float) /\
  (Py.contains "unit 574" (Py.lower full_text) = false ->
   Py.contains "574" (Py.lower full_text) = true ->
   unit_step full_text c = (c + 0.1)%float) /\
  (Py.contains "574" (Py.lower full_text) = false ->
   unit_step full_text c = c) /\
  (forall term,
     In term (search_terms InvoiceClassifier_init) ->
     Py.contains "574" term = true ->
     Py.contains term (Py.lower full_text) = true ->
     Py.contains "unit 574" (Py.lower full_text) = false ->
     unit_step full_text c = (c + 0.1)%float) /\
  (unit_step full_text c = (c + 0.2)%float \/
   unit_step full_text c = (c + 0.1)%float \/
   unit_step full_text c = c).
Proof.
  assert (E : Py.contains UNIT_NUMBER full_text
              = Py.contains "574" (Py.lower full_text))
    by (symmetry; apply (contains_lower_caseless "574" full_text eq_refl)).
  unfold unit_step.
  change (Py.lower ("unit " +:+ UNIT_NUMBER)) with "unit 574".
  rewrite E.
  split; [intros ->; reflexivity|].
  split; [intros -> ->; reflexivity|].
  split.
  { intros H.
    destruct (Py.contains "unit 574" (Py.lower full_text)) eqn:U.
    - assert (T : Py.contains "574" (Py.lower full_text) = true)
        by (apply (contains_trans "574" "unit 574"); [reflexivity | exact U]).
      rewrite H in T. discriminate.
    - rewrite H. reflexivity. }
  split.
  { intros term _ H1 H2 ->.
    rewrite (contains_trans "574" term (Py.lower full_text) H1 H2).
    reflexivity. }
  destruct (Py.contains "unit 574" (Py.lower full_text)); [auto|].
  destruct (Py.contains "574" (Py.lower full_text)); auto.
Qed.

Lemma C6_witness :
  unit_step "Invoice for Truck 574" 0.0%float = (0.0 + 0.1)%float.
Proof.
  assert (H1 : In "truck 574" (search_terms InvoiceClassifier_init))
    by (vm_compute; tauto).
  assert (H2 : Py.contains "574" "truck 574" = true)
    by (vm_compute; reflexivity).
  assert (H3 : Py.contains "truck 574" (Py.lower "Invoice for Truck 574")
               = true) by (vm_compute; reflexivity).
  assert (H4 : Py.contains "unit 574" (Py.lower "Invoice for Truck 574")
               = false) by (vm_compute; reflexivity).
  exact (proj1 (proj2 (proj2 (proj2
    (C6_unit_number_bonus "Invoice for Truck 574" 0.0%float))))
    "truck 574" H1 H2 H3 H4).
Defined.

(* ===================================================================== *)
(** ** Archiving and the ledger *)
(* ===================================================================== *)




(** C9, as the claim states it, fails when an exception leaves the
    scan.  The listing holds a newsletter and then a message whose body
    data is no base64 text.  The newsletter is analysed and a decision
    is produced for it; decoding the body of the second message raises,
    [get_email_details] does not catch it, and [scan] is left before
    the ledger is saved.  The ledger file is still the one loaded,
    without the id of the newsletter. *)
Lemma C9_counterexample :
  let r := scan example_md5 example_strptime example_body_decode
             example_b64decode example_fs (example_scanner broken_service)
             example_world example_clock "20240401_120000" in
  GmailMechanicScanner_init example_fs broken_service "invoices"
    example_world
  = Some (example_scanner broken_service, example_world) /\
  classification_of (example_scanner broken_service)
    {| email_id := "m3"; email_subject := "Weekly Newsletter";
       email_sender := "news@example.com"; email_date := "no date";
       email_body := EmptyString; email_attachments := [] |}
  = {| is_mechanic_invoice := false; confidence := 0.0%float;
       reason := "No truck identifier found (574, VIN, etc.)";
       found_identifiers := []; found_keywords := [] |} /\
  get_email_details example_body_decode (example_scanner broken_service)
    "m4" = FetchRaised /\
  outcome r = Raised /\
  analyzed r = ["m3"] /\
  load_processed_ids example_world = ∅ /\
  load_processed_ids (world_after r) = ∅ /\
  load_processed_ids (world_after r)
  <> load_processed_ids example_world ∪ list_to_set (analyzed r).
Proof.
  assert (Hr : outcome (scan example_md5 example_strptime
                          example_body_decode example_b64decode example_fs
                          (example_scanner broken_service) example_world
                          example_clock "20240401_120000") = Raised /\
               analyzed (scan example_md5 example_strptime
                          example_body_decode example_b64decode example_fs
                          (example_scanner broken_service) example_world
                          example_clock "20240401_120000") = ["m3"] /\
               ledger_file (world_after
                        (scan example_md5 example_strptime
                          example_body_decode example_b64decode example_fs
                          (example_scanner broken_service) example_world
                          example_clock "20240401_120000")) = None)
    by (vm_compute; auto).
  destruct Hr as (Ho & Ha & Hl).
  cbv zeta. split; [reflexivity|]. split; [vm_compute; reflexivity|].
  split; [vm_compute; reflexivity|].
  split; [exact Ho|]. split; [exact Ha|].
  split; [reflexivity|].
  unfold load_processed_ids. rewrite Hl, Ha.
  split; [reflexivity|]. cbn [ledger_file example_world].
  clear Ho Ha Hl. intros E.
  apply (not_elem_of_empty (C := gset string) "m3").
  rewrite E. set_solver.
Qed.

(** C9.  Build a scanner over a world and run [scan]; suppose the scan
    returns.  The set of ids in the ledger file afterwards (and the
    scanner's own set) is the set loaded at the start united with the
    ids of the messages analysed in this scan, so it contains the loaded
    set.  No message is analysed twice; an analysed message was listed,
    was outside the loaded ledger and had its details fetched; a message
    of the loaded ledger is not analysed again.  A listed message whose
    details are fetched ends in the ledger; one for which
    [get_email_details] returns nothing, and which was not in the
    ledger, stays out of it, and a later scan that lists it, fetches its
    details and returns analyses it. *)
Theorem C9_ledger_only_grows
    (md5_hexdigest : list Byte.byte -> string)
    (strptime : string -> option Date)
    (decode : string -> option string)
    (b64decode : string -> option (list Byte.byte)) (fs : FileSystem)
    (svc : Service) (dir : string) (w0 w : World)
    (self : GmailMechanicScanner)
    (clock : string -> nat -> Date) (stamp : string) (res : Results) :
  GmailMechanicScanner_init fs svc dir w0 = Some (self, w) ->
  let r := scan md5_hexdigest strptime decode b64decode fs self w clock
             stamp in
  outcome r = Returned res ->
  let loaded := load_processed_ids w0 in
  let persisted := load_processed_ids (world_after r) in
  persisted = loaded ∪ list_to_set (analyzed r) /\
  processed_ids (scanner_after r) = persisted /\
  loaded ⊆ persisted /\
  NoDup (analyzed r) /\
  (forall x, x ∈ analyzed r ->
     (x ∉ loaded) /\
     (exists email, get_email_details decode self x = Fetched email) /\
     exists ms, messages_list svc = Some ms /\ x ∈ ms) /\
  (forall x, x ∈ loaded -> x ∉ analyzed r) /\
  (forall x ms email, messages_list svc = Some ms -> x ∈ ms ->
     get_email_details decode self x = Fetched email -> x ∈ persisted) /\
  (forall x, get_email_details decode self x = FetchNone -> x ∉ loaded ->
     x ∉ persisted) /\
  (forall x svc2 self2 w2 clock2 stamp2 ms2 email res2,
     x ∉ persisted ->
     GmailMechanicScanner_init fs svc2 dir (world_after r)
     = Some (self2, w2) ->
     messages_list svc2 = Some ms2 -> x ∈ ms2 ->
     get_email_details decode self2 x = Fetched email ->
     let r2 := scan md5_hexdigest strptime decode b64decode fs self2 w2
                 clock2 stamp2 in
     outcome r2 = Returned res2 ->
     x ∈ analyzed r2).
Proof.
  intros Hinit r Hret loaded persisted.
  assert (Hself : service self = svc /\ processed_ids self = loaded /\
                  ledger_file w = ledger_file w0).
  { unfold GmailMechanicScanner_init in Hinit.
    destruct (mkdir fs w0 dir) as [w1|] eqn:Hmk; [|discriminate].
    injection Hinit as <- <-.
    destruct (mkdir_some fs w0 w1 dir Hmk) as (_ & _ & _ & Hlf & _).
    cbn. unfold loaded, load_processed_ids. now rewrite Hlf. }
  destruct Hself as (Hsvc & Hloaded & Hlf).
  pose proof (scan_ledger md5_hexdigest strptime decode b64decode fs self w
                clock stamp) as H.
  cbv zeta in H. fold r in H. rewrite Hsvc, Hloaded in H.
  destruct H as (_ & _ & Hnd & Han & _ & Hres).
  destruct (Hres res Hret) as (Hp & Hfile & Hseen).
  assert (Hpers : persisted = processed_ids (scanner_after r)).
  { unfold persisted, load_processed_ids.
    destruct Hfile as [-> | [-> Hnil]]; [reflexivity|].
    rewrite Hp, Hnil, Hlf. fold (load_processed_ids w0). fold loaded.
    simpl. set_solver. }
  split; [now rewrite Hpers|].
  split; [now rewrite Hpers|].
  split; [rewrite Hpers, Hp; set_solver|].
  split; [exact Hnd|].
  split; [exact Han|].
  split.
  { intros x Hx Hc. destruct (Han x Hc) as [Hn _]. contradiction. }
  split.
  { intros x ms email Hl Hx Hs. rewrite Hpers.
    now apply (Hseen x ms email). }
  split.
  { intros x Hx Hn Hc. rewrite Hpers, Hp in Hc.
    apply elem_of_union in Hc as [Hc|Hc]; [contradiction|].
    apply elem_of_list_to_set in Hc.
    destruct (Han x Hc) as (_ & [e He] & _).
    rewrite Hx in He. discriminate. }
  intros x svc2 self2 w2 clock2 stamp2 ms2 email res2 Hx Hinit2 Hl Hin Hs
    r2 Hret2.
  assert (Hself2 : service self2 = svc2 /\
                   processed_ids self2 = persisted).
  { unfold GmailMechanicScanner_init in Hinit2.
    destruct (mkdir fs (world_after r) dir) as [w1|] eqn:Hmk;
      [|discriminate].
    injection Hinit2 as <- <-.
    destruct (mkdir_some fs _ w1 dir Hmk) as (_ & _ & _ & Hlf2 & _).
    cbn. unfold persisted, load_processed_ids. now rewrite Hlf2. }
  destruct Hself2 as (Hsvc2 & Hloaded2).
  pose proof (scan_ledger md5_hexdigest strptime decode b64decode fs self2
                w2 clock2 stamp2) as H2.
  cbv zeta in H2. fold r2 in H2. rewrite Hsvc2, Hloaded2 in H2.
  destruct H2 as (_ & _ & _ & _ & _ & Hres2).
  destruct (Hres2 res2 Hret2) as (Hp2 & _ & Hseen2).
  specialize (Hseen2 x ms2 email Hl Hin Hs). rewrite Hp2 in Hseen2.
  apply elem_of_union in Hseen2 as [Hc|Hc]; [contradiction|].
  now apply elem_of_list_to_set in Hc.
Qed.

Lemma C9_witness :
  let r := scan example_md5 example_strptime example_body_decode
             example_b64decode example_fs (example_scanner example_service)
             example_world example_clock "20240401_120000" in
  load_processed_ids (world_after r)
  = load_processed_ids empty_world ∪ list_to_set (analyzed r) /\
  processed_ids (scanner_after r) = load_processed_ids (world_after r) /\
  analyzed r = ["m1"; "m3"].
Proof.
  assert (H1 : GmailMechanicScanner_init example_fs example_service
                 "invoices" empty_world
               = Some (example_scanner example_service, example_world))
    by reflexivity.
  assert (H2 : exists res,
            outcome (scan example_md5 example_strptime example_body_decode
                       example_b64decode example_fs
                       (example_scanner example_service) example_world
                       example_clock "20240401_120000") = Returned res)
    by (eexists; vm_compute; reflexivity).
  destruct H2 as [res H2].
  pose proof (C9_ledger_only_grows example_md5 example_strptime
                example_body_decode example_b64decode example_fs
                example_service "invoices" empty_world example_world
                (example_scanner example_service) example_clock
                "20240401_120000" res H1 H2) as T.
  cbv zeta in T.
  split; [exact (proj1 T)|]. split; [exact (proj1 (proj2 T))|].
  vm_compute. reflexivity.
Defined.

(* ===================================================================== *)
(** ** Further properties of the classifier *)
(* ===================================================================== *)

Lemma lower_ascii_idem (c : ascii) :
  Py.lower_ascii (Py.lower_ascii c) = Py.lower_ascii c.
Proof.
  unfold Py.lower_ascii.
  destruct ((65 <=? nat_of_ascii c)%nat && (nat_of_ascii c <=? 90)%nat)
    eqn:E; [|now rewrite E].
  apply andb_true_iff in E as [H1 H2]. apply Nat.leb_le in H1, H2.
  rewrite nat_ascii_embedding by lia.
  replace ((nat_of_ascii c + 32 <=? 90)%nat) with false
    by (symmetry; apply Nat.leb_gt; lia).
  now rewrite andb_false_r.
Qed.

Lemma lower_idem (s : string) : Py.lower (Py.lower s) = Py.lower s.
Proof.
  induction s as [|c s IH]; simpl; [reflexivity|].
  now rewrite lower_ascii_idem, IH.
Qed.

Lemma lower_app (a b : string) :
  Py.lower (a +:+ b) = Py.lower a +:+ Py.lower b.
Proof. induction a as [|c a IH]; simpl; [reflexivity | now rewrite IH]. Qed.

Lemma lower_join (sep : string) (l : list string) :
  Py.lower (Py.join sep l) = Py.join (Py.lower sep) (List.map Py.lower l).
Proof.
  unfold Py.join. induction l as [|x l IH]; [reflexivity|].
  destruct l as [|y l]; [reflexivity|].
  change (String.concat sep (x :: y :: l))
    with (x +:+ sep +:+ String.concat sep (y :: l)).
  change (String.concat (Py.lower sep) (List.map Py.lower (x :: y :: l)))
    with (Py.lower x +:+ Py.lower sep
          +:+ String.concat (Py.lower sep) (List.map Py.lower (y :: l))).
  now rewrite !lower_app, IH.
Qed.

(** Lowering the parts of a message does not change its lowered text. *)
Lemma lower_full_text (subject body : string) (attachment_names : list string) :
  Py.lower (full_text_of (Py.lower subject) (Py.lower body)
              (List.map Py.lower attachment_names))
  = Py.lower (full_text_of subject body attachment_names).
Proof.
  unfold full_text_of.
  rewrite !lower_app, !lower_join, !lower_idem.
  rewrite List.map_map.
  rewrite (List.map_ext (fun x => Py.lower (Py.lower x)) Py.lower lower_idem).
  reflexivity.
Qed.

Lemma has_pdf_lower (attachment_names : list string) :
  has_pdf (List.map Py.lower attachment_names) = has_pdf attachment_names.
Proof.
  unfold has_pdf. induction attachment_names as [|x l IH]; simpl;
    [reflexivity|].
  now rewrite lower_idem, IH.
Qed.

(** [should_exclude] reads its arguments through [lower] only. *)
Lemma should_exclude_lower (self : InvoiceClassifier)
    (text1 text2 sender1 sender2 : string) :
  Py.lower text1 = Py.lower text2 -> Py.lower sender1 = Py.lower sender2 ->
  should_exclude self text1 sender1 = should_exclude self text2 sender2.
Proof. unfold should_exclude. now intros -> ->. Qed.

(** So do Steps 2 to 4, the subject test and the PDF test included. *)
Lemma classify_from_identifiers_lower (self : InvoiceClassifier)
    (subject1 subject2 text1 text2 : string) (names1 names2 : list string) :
  Py.lower text1 = Py.lower text2 ->
  Py.lower subject1 = Py.lower subject2 ->
  has_pdf names1 = has_pdf names2 ->
  classify_from_identifiers self subject1 text1 names1
  = classify_from_identifiers self subject2 text2 names2.
Proof.
  intros Ht Hs Hp.
  assert (Hscore : forall kws,
    confidence_score subject1 text1 kws names1
    = confidence_score subject2 text2 kws names2).
  { intros kws. rewrite !confidence_score_features.
    unfold vin_rank, unit_rank, subject_has_invoice.
    rewrite <- (contains_lower_caseless UNIT_NUMBER text1 eq_refl).
    rewrite <- (contains_lower_caseless UNIT_NUMBER text2 eq_refl).
    now rewrite Ht, Hs, Hp. }
  unfold classify_from_identifiers, contains_truck_identifier,
    is_mechanic_related.
  rewrite Ht. cbv zeta.
  destruct (negb _); [reflexivity|].
  destruct (negb _); [reflexivity|].
  now rewrite Hscore.
Qed.

(** X1.  [classify] does not see letter case: lowering the subject, the
    body, the sender and every attachment name gives the same decision,
    field by field. *)
Theorem classify_case_insensitive (self : InvoiceClassifier)
    (subject body sender : string) (attachment_names : list string) :
  classify self (Py.lower subject) (Py.lower body) (Py.lower sender)
           (List.map Py.lower attachment_names)
  = classify self subject body sender attachment_names.
Proof.
  unfold classify. cbv zeta.
  rewrite (should_exclude_lower self
             (full_text_of (Py.lower subject) (Py.lower body)
                (List.map Py.lower attachment_names))
             (full_text_of subject body attachment_names)
             (Py.lower sender) sender
             (lower_full_text subject body attachment_names)
             (lower_idem sender)).
  destruct (should_exclude self _ sender) as [[|] r]; [reflexivity|].
  apply classify_from_identifiers_lower.
  - apply lower_full_text.
  - apply lower_idem.
  - apply has_pdf_lower.
Qed.

(** Every score of the configured classifier is at most 1. *)
Lemma computed_confidence_le_1 (subject body sender : string)
    (attachment_names : list string) (c : float) :
  computed_confidence InvoiceClassifier_init subject body sender
    attachment_names = Some c ->
  PrimFloat.leb c 1.0%float = true.
Proof.
  intros H. apply computed_confidence_some in H. rewrite H.
  apply (score_of_monotone _ _ _ _ _ _ _ _ _ _
           (Nat.le_refl _) (vin_rank_le _) (Nat.le_refl _) (unit_rank_le _)
           (Nat.le_refl _) (found_keywords_le _) (fun e => e) (fun e => e)).
Qed.

(** X2.  The [confidence] field of a decision of the configured
    classifier is 0.0 on a rejection and lies between 0.3 and 1.0 on an
    acceptance; no decision carries a value strictly between 0 and 0.3
    or above 1. *)
Theorem confidence_field_range (subject body sender : string)
    (attachment_names : list string) :
  let d := classify InvoiceClassifier_init subject body sender
             attachment_names in
  (is_mechanic_invoice d = false /\ confidence d = 0.0%float) \/
  (is_mechanic_invoice d = true /\
   PrimFloat.leb 0.3%float (confidence d) = true /\
   PrimFloat.leb (confidence d) 1.0%float = true).
Proof.
  intros d.
  pose proof (classify_by_score InvoiceClassifier_init subject body sender
                attachment_names) as H.
  cbv zeta in H. fold d in H.
  destruct (computed_confidence InvoiceClassifier_init subject body sender
              attachment_names) as [c|] eqn:Hc.
  - destruct (PrimFloat.leb 0.3 c) eqn:L.
    + right. destruct H as [Ha Hd]. rewrite Hd.
      split; [exact Ha|]. split; [exact L|].
      exact (computed_confidence_le_1 _ _ _ _ c Hc).
    + left. destruct H as (Ha & Hd & _). split; assumption.
  - left. exact H.
Qed.

(** X3.  What a decision reports is what the text holds: every reported
    identifier is a search term found in the lowered text, every reported
    keyword a mechanic keyword found in it; and an accepted decision
    reports at least one of each, and all of them. *)
Theorem decision_reports_what_is_found (self : InvoiceClassifier)
    (subject body sender : string) (attachment_names : list string) :
  let d := classify self subject body sender attachment_names in
  let text_lower := Py.lower (full_text_of subject body attachment_names) in
  (forall t, In t (found_identifiers d) ->
     In t (search_terms self) /\
     Py.contains (Py.lower t) text_lower = true) /\
  (forall k, In k (found_keywords d) ->
     In k (mechanic_keywords self) /\ Py.contains k text_lower = true) /\
  (is_mechanic_invoice d = true ->
   found_identifiers d <> [] /\ found_keywords d <> [] /\
   (forall t, In t (search_terms self) ->
      Py.contains (Py.lower t) text_lower = true ->
      In t (found_identifiers d)) /\
   (forall k, In k (mechanic_keywords self) ->
      Py.contains k text_lower = true -> In k (found_keywords d))).
Proof.
  intros d text_lower. subst d. rewrite classify_unfold. cbv zeta.
  set (full_text := full_text_of subject body attachment_names) in *.
  rewrite fst_contains_truck_identifier, fst_is_mechanic_related.
  assert (Hids : forall t,
            In t (snd (contains_truck_identifier self full_text)) <->
            In t (search_terms self) /\
            Py.contains (Py.lower t) text_lower = true)
    by (intros t;
        apply (filter_In (fun term => Py.contains (Py.lower term) text_lower))).
  assert (Hkws : forall k,
            In k (snd (is_mechanic_related self full_text)) <->
            In k (mechanic_keywords self) /\
            Py.contains k text_lower = true)
    by (intros k;
        apply (filter_In (fun keyword => Py.contains keyword text_lower))).
  generalize dependent (snd (contains_truck_identifier self full_text)).
  generalize dependent (snd (is_mechanic_related self full_text)).
  intros kws Hkws ids Hids.
  destruct (fst (should_exclude self full_text sender)).
  { cbn. split. { intros t Hfalse. elim Hfalse. }
    split. { intros k Hfalse. elim Hfalse. } discriminate. }
  destruct ids as [|i ids'].
  { cbn. split. { intros t Hfalse. elim Hfalse. }
    split. { intros k Hfalse. elim Hfalse. } discriminate. }
  destruct kws as [|k0 kws'].
  { cbn. split; [intros t Ht; now apply Hids|].
    split. { intros k Hfalse. elim Hfalse. } discriminate. }
  cbn [List.length Nat.ltb Nat.leb negb].
  destruct (PrimFloat.leb _ _); cbn [is_mechanic_invoice found_identifiers
                                      found_keywords].
  - split; [intros t Ht; now apply Hids|].
    split; [intros k Hk; now apply Hkws|].
    intros _. split; [discriminate|]. split; [discriminate|].
    split; [intros t H1 H2; now apply Hids | intros k H1 H2; now apply Hkws].
  - split; [intros t Ht; now apply Hids|].
    split; [intros k Hk; now apply Hkws|]. discriminate.
Qed.

Lemma accept_rule_check_ok : accept_rule_check = true.
Proof. vm_compute. reflexivity. Qed.

Lemma accept_rule_cap (v u n : nat) (p i : bool) :
  (1 <= n)%nat -> accept_rule v u n p i = accept_rule v u (Nat.min n 4) p i.
Proof.
  intros H. unfold accept_rule.
  replace (2 <=? Nat.min n 4)%nat with (2 <=? n)%nat; [reflexivity|].
  destruct (2 <=? n)%nat eqn:E.
  - apply Nat.leb_le in E. symmetry. apply Nat.leb_le. lia.
  - apply Nat.leb_gt in E. symmetry. apply Nat.leb_gt. lia.
Qed.

(** On every signal vector Step 4 can meet, the threshold test is
    [accept_rule]. *)
Lemma threshold_is_accept_rule (v u n : nat) (p i : bool) :
  (v <= 4)%nat -> (u <= 2)%nat -> (1 <= v \/ 1 <= u)%nat ->
  (1 <= n)%nat -> (n <= 60)%nat ->
  PrimFloat.leb 0.3%float (score_of v u n p i) = accept_rule v u n p i.
Proof.
  intros Hv Hu Hid Hn Hn'.
  rewrite (score_of_cap v u n p i Hn'), (accept_rule_cap v u n p i Hn).
  pose proof accept_rule_check_ok as H. unfold accept_rule_check in H.
  apply (forallb_seq _ 5 v) in H; [|lia].
  apply (forallb_seq _ 3 u) in H; [|lia].
  apply (forallb_seq _ 4 (Nat.min n 4 - 1)) in H; [|lia].
  apply (forallb_bool _ p) in H. apply (forallb_bool _ i) in H.
  cbv beta in H.
  replace (S (Nat.min n 4 - 1)) with (Nat.min n 4) in H by lia.
  assert (G : ((1 <=? v)%nat || (1 <=? u)%nat) = true).
  { apply orb_true_iff. destruct Hid; [left | right]; now apply Nat.leb_le. }
  rewrite G in H. cbn [implb] in H.
  now apply Bool.eqb_prop in H.
Qed.

Lemma existsb_filter_length {A} (f : A -> bool) (l : list A) :
  (0 <? List.length (List.filter f l))%nat = List.existsb f l.
Proof.
  induction l as [|x l IH]; [reflexivity|]. simpl.
  destruct (f x); [reflexivity | exact IH].
Qed.

(** The search-term loop of the configured classifier, test by test. *)
Lemma existsb_search_terms (f : string -> bool) :
  List.existsb (fun term => f (Py.lower term))
               (search_terms InvoiceClassifier_init)
  = f "3akjhhdr7kske1598" || (f "kske1598" || (f "ke1598" || (f "1598" ||
    (f "574" || (f "unit 574" || (f "unit#574" || (f "unit-574" ||
    (f "truck 574" || (f "truck#574" || (f "unit: 574" || false)))))))))).
Proof. reflexivity. Qed.

Lemma contains_sub_false (a b t : string) :
  Py.contains a b = true -> Py.contains a t = false ->
  Py.contains b t = false.
Proof.
  intros Hab Hat. destruct (Py.contains b t) eqn:E; [|reflexivity].
  rewrite (contains_trans a b t Hab E) in Hat. discriminate.
Qed.

(** Some search term of the configured classifier is found exactly when
    the lowered text contains "1598" or the text contains "574". *)
Lemma found_identifier_two_tests (text : string) :
  fst (contains_truck_identifier InvoiceClassifier_init text)
  = Py.contains "1598" (Py.lower text) || Py.contains "574" text.
Proof.
  rewrite fst_contains_truck_identifier.
  unfold contains_truck_identifier. cbn [snd].
  rewrite existsb_filter_length.
  rewrite (existsb_search_terms (fun t => Py.contains t (Py.lower text))).
  rewrite <- (contains_lower_caseless "574" text eq_refl).
  generalize (Py.lower text) as T. intros T.
  destruct (Py.contains "1598" T) eqn:A.
  { now rewrite !orb_true_r. }
  destruct (Py.contains "574" T) eqn:B.
  { now rewrite !orb_true_r. }
  rewrite (contains_sub_false "1598" "3akjhhdr7kske1598" T eq_refl A).
  rewrite (contains_sub_false "1598" "kske1598" T eq_refl A).
  rewrite (contains_sub_false "1598" "ke1598" T eq_refl A).
  rewrite (contains_sub_false "574" "unit 574" T eq_refl B).
  rewrite (contains_sub_false "574" "unit#574" T eq_refl B).
  rewrite (contains_sub_false "574" "unit-574" T eq_refl B).
  rewrite (contains_sub_false "574" "truck 574" T eq_refl B).
  rewrite (contains_sub_false "574" "truck#574" T eq_refl B).
  rewrite (contains_sub_false "574" "unit: 574" T eq_refl B).
  reflexivity.
Qed.

(** The VIN chain finds something exactly when "1598" is in the lowered
    text; the unit test exactly when "574" is in the text. *)
Lemma vin_rank_pos (text : string) :
  (1 <=? vin_rank text)%nat = Py.contains "1598" (Py.lower text).
Proof.
  unfold vin_rank. cbv zeta.
  change (Py.lower FULL_VIN) with "3akjhhdr7kske1598".
  change (Py.lower VIN_LAST_8) with "kske1598".
  change (Py.lower VIN_LAST_6) with "ke1598".
  change (Py.lower VIN_LAST_4) with "1598".
  generalize (Py.lower text) as T. intros T.
  destruct (Py.contains "1598" T) eqn:A.
  - repeat match goal with
           | |- context [if ?b then _ else _] => destruct b
           end; reflexivity.
  - rewrite (contains_sub_false "1598" "3akjhhdr7kske1598" T eq_refl A).
    rewrite (contains_sub_false "1598" "kske1598" T eq_refl A).
    rewrite (contains_sub_false "1598" "ke1598" T eq_refl A).
    reflexivity.
Qed.

Lemma unit_rank_pos (text : string) :
  (1 <=? unit_rank text)%nat = Py.contains "574" text.
Proof.
  unfold unit_rank.
  change (Py.lower ("unit " +:+ UNIT_NUMBER)) with "unit 574".
  change UNIT_NUMBER with "574".
  destruct (Py.contains "574" text) eqn:B.
  - destruct (Py.contains "unit 574" (Py.lower text)); reflexivity.
  - rewrite <- (contains_lower_caseless "574" text eq_refl) in B.
    rewrite (contains_sub_false "574" "unit 574" (Py.lower text) eq_refl B).
    reflexivity.
Qed.

(** X4.  The configured classifier accepts a message exactly when Step 4
    runs (not excluded, an identifier, a keyword) and at least one of
    these holds: two or more keywords found, a PDF attachment, "invoice"
    in the subject, the phrase "unit 574", a VIN match longer than four
    characters, or the last four characters of the VIN together with the
    bare unit number.  So the threshold rejects only a message with one
    keyword and a single weak identifier. *)
Theorem acceptance_rule (subject body sender : string)
    (attachment_names : list string) :
  let self := InvoiceClassifier_init in
  let full_text := full_text_of subject body attachment_names in
  is_mechanic_invoice (classify self subject body sender attachment_names)
  = reaches_scoring self subject body sender attachment_names
    && accept_rule (vin_rank full_text) (unit_rank full_text)
         (List.length (snd (is_mechanic_related self full_text)))
         (has_pdf attachment_names) (subject_has_invoice subject).
Proof.
  intros self full_text. subst self full_text.
  set (full_text := full_text_of subject body attachment_names).
  pose proof (classify_by_score InvoiceClassifier_init subject body sender
                attachment_names) as H.
  cbv zeta in H.
  pose proof (computed_confidence_some InvoiceClassifier_init subject body
                sender attachment_names) as Hs.
  unfold computed_confidence in H, Hs. fold full_text in H, Hs.
  destruct (reaches_scoring InvoiceClassifier_init subject body sender
              attachment_names) eqn:R.
  - specialize (Hs _ eq_refl). rewrite Hs in H.
    unfold reaches_scoring in R. fold full_text in R.
    apply andb_true_iff in R as [R Rk].
    apply andb_true_iff in R as [_ Ri].
    assert (Hn : (1 <= List.length
                         (snd (is_mechanic_related InvoiceClassifier_init
                                 full_text)))%nat).
    { rewrite fst_is_mechanic_related in Rk. apply Nat.ltb_lt in Rk. lia. }
    assert (Hid : (1 <= vin_rank full_text \/ 1 <= unit_rank full_text)%nat).
    { rewrite found_identifier_two_tests in Ri.
      rewrite <- vin_rank_pos, <- unit_rank_pos in Ri.
      apply orb_true_iff in Ri as [Ri|Ri]; apply Nat.leb_le in Ri; auto. }
    rewrite (threshold_is_accept_rule _ _ _ _ _
               (vin_rank_le full_text) (unit_rank_le full_text) Hid Hn
               (found_keywords_le full_text)) in H.
    cbn [andb].
    destruct (accept_rule _ _ _ _ _); destruct H as [H _]; exact H.
  - destruct H as [H _]. exact H.
Qed.

(** X5.  The eleven search terms of the configured classifier come down
    to two tests: some identifier is found exactly when the lowered text
    contains "1598" or the text contains "574", that is, when the VIN
    chain or the unit test of Step 4 would add something. *)
Theorem identifier_found_iff_two_tests (text : string) :
  fst (contains_truck_identifier InvoiceClassifier_init text)
  = Py.contains "1598" (Py.lower text) || Py.contains "574" text /\
  fst (contains_truck_identifier InvoiceClassifier_init text)
  = (1 <=? vin_rank text)%nat || (1 <=? unit_rank text)%nat.
Proof.
  split.
  - apply found_identifier_two_tests.
  - rewrite vin_rank_pos, unit_rank_pos. apply found_identifier_two_tests.
Qed.

(** X6.  Keywords that contain one another are all counted: when a found
    keyword contains another mechanic keyword, that one is found too (so
    "towing" alone counts as two keywords, "tow" and "towing"). *)
Theorem sub_keywords_are_found (self : InvoiceClassifier)
    (text k1 k2 : string) :
  In k1 (mechanic_keywords self) ->
  Py.contains k1 k2 = true ->
  In k2 (snd (is_mechanic_related self text)) ->
  In k1 (snd (is_mechanic_related self text)).
Proof.
  unfold is_mechanic_related. cbn [snd]. intros H1 Hsub H2.
  apply filter_In in H2 as [_ H2]. apply filter_In. split; [exact H1|].
  exact (contains_trans k1 k2 (Py.lower text) Hsub H2).
Qed.

Lemma sub_keywords_are_found_witness :
  In "tow" (snd (is_mechanic_related InvoiceClassifier_init
                   "Towing for unit 574")).
Proof.
  assert (H1 : In "tow" (mechanic_keywords InvoiceClassifier_init))
    by (vm_compute; tauto).
  assert (H2 : Py.contains "tow" "towing" = true)
    by (vm_compute; reflexivity).
  assert (H3 : In "towing" (snd (is_mechanic_related InvoiceClassifier_init
                                   "Towing for unit 574")))
    by (vm_compute; tauto).
  exact (sub_keywords_are_found InvoiceClassifier_init "Towing for unit 574"
           "tow" "towing" H1 H2 H3).
Defined.

(** When the keyword loop gives the rate-confirmation reason, a keyword
    holding both words was matched. *)
Lemma keyword_loop_rate_reason (self : InvoiceClassifier)
    (kws : list string) (text_lower : string) :
  keyword_loop self kws text_lower = Some "Rate confirmation detected" ->
  exists kw, In kw kws /\ Py.contains kw text_lower = true /\
             is_rate_confirmation kw = true.
Proof.
  induction kws as [|x rest IH]; simpl; [discriminate|].
  destruct (Py.contains x text_lower) eqn:Ex.
  - destruct (is_rate_confirmation x) eqn:Rx.
    + intros _. exists x. auto.
    + destruct (_ <? _)%nat.
      * intros E. simpl in E. discriminate.
      * intros E. destruct (IH E) as [kw (H1 & H2 & H3)]. exists kw. auto.
  - intros E. destruct (IH E) as [kw (H1 & H2 & H3)]. exists kw. auto.
Qed.

(** The only configured exclusion keyword that holds both "rate" and
    "confirm". *)
Lemma only_rate_confirmation (kw : string) :
  In kw (exclude_keywords InvoiceClassifier_init) ->
  is_rate_confirmation kw = true -> kw = "rate confirmation".
Proof.
  intros H R. vm_compute in H.
  repeat (destruct H as [<- | H];
          [first [reflexivity | vm_compute in R; discriminate R] | ]).
  elim H.
Qed.

(** For any classifier, the decision carries the rate-confirmation
    rationale exactly when the sender loop finds nothing and the keyword
    loop stops on a rate-confirmation keyword. *)
Lemma reason_rate_confirmation (self : InvoiceClassifier)
    (subject body sender : string) (attachment_names : list string) :
  reason (classify self subject body sender attachment_names)
  = "EXCLUDED: Rate confirmation detected" <->
  sender_loop (exclude_senders self) (Py.lower sender) = None /\
  keyword_loop self (exclude_keywords self)
    (Py.lower (full_text_of subject body attachment_names))
  = Some "Rate confirmation detected".
Proof.
  rewrite classify_unfold. cbv zeta. unfold should_exclude.
  destruct (sender_loop (exclude_senders self) (Py.lower sender)) as [r|]
    eqn:Es.
  { cbn [fst snd reason]. apply sender_loop_some in Es as [s (_ & _ & ->)].
    split; [|intros [E _]; discriminate].
    intros E. simpl in E. discriminate. }
  destruct (keyword_loop self (exclude_keywords self) _) as [r|] eqn:Ek.
  - cbn [fst snd reason]. split.
    + intros E. simpl in E. injection E as E. subst r. auto.
    + intros [_ E]. injection E as E. subst r. reflexivity.
  - cbn [fst snd]. split; [|intros [_ E]; discriminate].
    generalize (fst (contains_truck_identifier self
                       (full_text_of subject body attachment_names))).
    generalize (fst (is_mechanic_related self
                       (full_text_of subject body attachment_names))).
    generalize (snd (contains_truck_identifier self
                       (full_text_of subject body attachment_names))).
    generalize (snd (is_mechanic_related self
                       (full_text_of subject body attachment_names))).
    intros kws ids m i.
    generalize (confidence_score subject
                  (full_text_of subject body attachment_names) kws
                  attachment_names).
    intros score.
    destruct i, m; cbn [negb reason]; try (intros E; simpl in E; discriminate).
    destruct (PrimFloat.leb 0.3 score); cbn [reason];
      intros E; simpl in E; discriminate.
Qed.

(** A matched rate-confirmation keyword at the head of the list stops the
    keyword loop at once. *)
Lemma keyword_loop_head_rate (self : InvoiceClassifier) (kw : string)
    (rest : list string) (text_lower : string) :
  Py.contains kw text_lower = true -> is_rate_confirmation kw = true ->
  keyword_loop self (kw :: rest) text_lower
  = Some "Rate confirmation detected".
Proof. intros H1 H2. simpl. now rewrite H1, H2. Qed.

Lemma exclude_keywords_head :
  exclude_keywords InvoiceClassifier_init
  = "rate confirmation" :: List.tl (exclude_keywords InvoiceClassifier_init).
Proof. reflexivity. Qed.

(** X7.  With the configured vocabulary the hard veto is the phrase
    "rate confirmation" and nothing else: the decision carries the
    rate-confirmation rationale exactly when no excluded sender matches
    and the lowered text contains "rate confirmation".  The other
    rate keywords ("rate con", "ratecon", "rate sheet") only count in the
    comparison of counts. *)
Theorem hard_veto_is_rate_confirmation (subject body sender : string)
    (attachment_names : list string) :
  reason (classify InvoiceClassifier_init subject body sender
            attachment_names)
  = "EXCLUDED: Rate confirmation detected" <->
  (forall s, In s (exclude_senders InvoiceClassifier_init) ->
     Py.contains s (Py.lower sender) = false) /\
  Py.contains "rate confirmation"
    (Py.lower (full_text_of subject body attachment_names)) = true.
Proof.
  rewrite reason_rate_confirmation, <- sender_loop_none.
  split; intros [Hs Hk]; (split; [exact Hs|]).
  - apply keyword_loop_rate_reason in Hk as [kw (H1 & H2 & H3)].
    now rewrite <- (only_rate_confirmation kw H1 H3).
  - rewrite exclude_keywords_head.
    apply keyword_loop_head_rate; [exact Hk | reflexivity].
Qed.

(* ===================================================================== *)
(** ** Further properties of the archiver *)
(* ===================================================================== *)

Lemma all_chars_app (P : ascii -> bool) (a b : string) :
  all_chars P (a +:+ b) = all_chars P a && all_chars P b.
Proof.
  induction a as [|c a IH]; simpl; [reflexivity|].
  now rewrite IH, andb_assoc.
Qed.

Lemma all_chars_substring (P : ascii -> bool) (s : string) (i n : nat) :
  all_chars P s = true -> all_chars P (String.substring i n s) = true.
Proof.
  revert i n. induction s as [|c s IH]; intros i n H.
  - destruct i, n; reflexivity.
  - simpl in H. apply andb_true_iff in H as [Hc Hs].
    destruct i as [|i]; destruct n as [|n]; simpl; auto.
    rewrite Hc. simpl. now apply IH.
Qed.

Lemma length_substring_le (s : string) (i n : nat) :
  (String.length (String.substring i n s) <= n)%nat.
Proof.
  revert i n. induction s as [|c s IH]; intros i n.
  - destruct i, n; simpl; lia.
  - destruct i as [|i]; destruct n as [|n]; simpl; try lia.
    + specialize (IH 0 n). lia.
    + apply IH.
    + apply IH.
Qed.

Lemma collapse_spaces_not_space (s : string) :
  all_chars not_space (PyText.collapse_spaces s) = true.
Proof.
  induction s as [|c s IH]; [reflexivity|].
  cbn [PyText.collapse_spaces].
  destruct (PyText.is_space c) eqn:Ec.
  - destruct s as [|c' s'].
    + reflexivity.
    + destruct (PyText.is_space c'); [exact IH|].
      cbn [all_chars]. rewrite IH. reflexivity.
  - cbn [all_chars]. unfold not_space at 1. rewrite Ec, IH. reflexivity.
Qed.

Lemma collapse_spaces_space_cons (x y : ascii) (t : string) :
  PyText.is_space x = true ->
  PyText.collapse_spaces (String x (String y t))
  = if PyText.is_space y then PyText.collapse_spaces (String y t)
    else String "_" (PyText.collapse_spaces (String y t)).
Proof. intros H. cbn [PyText.collapse_spaces]. rewrite H. reflexivity. Qed.

Lemma collapse_spaces_other_cons (x : ascii) (t : string) :
  PyText.is_space x = false ->
  PyText.collapse_spaces (String x t) = String x (PyText.collapse_spaces t).
Proof. intros H. cbn [PyText.collapse_spaces]. rewrite H. reflexivity. Qed.

(** [collapse_spaces] works on the two sides of a character that is not
    white space independently. *)
Lemma collapse_spaces_app (a : string) (c : ascii) (b : string) :
  PyText.is_space c = false ->
  PyText.collapse_spaces (a +:+ String c b)
  = PyText.collapse_spaces a +:+ String c (PyText.collapse_spaces b).
Proof.
  intros Hc. induction a as [|x a IH].
  - change (EmptyString +:+ String c b) with (String c b).
    now rewrite (collapse_spaces_other_cons c b Hc).
  - change (String x a +:+ String c b) with (String x (a +:+ String c b)).
    destruct (PyText.is_space x) eqn:Ex.
    + destruct a as [|y a'].
      * change (EmptyString +:+ String c b) with (String c b).
        rewrite (collapse_spaces_space_cons x c b Ex), Hc.
        rewrite (collapse_spaces_other_cons c b Hc).
        cbn [PyText.collapse_spaces]. rewrite Ex. reflexivity.
      * change (String y a' +:+ String c b)
          with (String y (a' +:+ String c b)) in *.
        rewrite (collapse_spaces_space_cons x y _ Ex).
        rewrite (collapse_spaces_space_cons x y _ Ex).
        rewrite IH. destruct (PyText.is_space y); reflexivity.
    + rewrite !(collapse_spaces_other_cons x _ Ex), IH. reflexivity.
Qed.

Lemma collapse_spaces_underscore (a b : string) :
  PyText.collapse_spaces (a +:+ "_" +:+ b)
  = PyText.collapse_spaces a +:+ "_" +:+ PyText.collapse_spaces b.
Proof. exact (collapse_spaces_app a "_" b eq_refl). Qed.

Lemma strip_non_word_safe (s : string) :
  all_chars is_safe_subject_char (PyText.strip_non_word s) = true.
Proof.
  induction s as [|c s IH]; [reflexivity|].
  cbn [PyText.strip_non_word].
  fold (is_safe_subject_char c).
  destruct (is_safe_subject_char c) eqn:E; [|exact IH].
  cbn [all_chars]. now rewrite E, IH.
Qed.

(** *** The date header *)

Lemma contains_cons_false (sep : string) (x : ascii) (s : string) :
  Py.contains sep (String x s) = false ->
  String.prefix sep (String x s) = false /\ Py.contains sep s = false.
Proof. cbn [Py.contains]. intros H. now apply orb_false_iff in H. Qed.

(** A string without comma has no second comma-separated field. *)
Lemma after_comma_none (s : string) :
  Py.contains "," s = false -> PyText.after_comma s = None.
Proof.
  induction s as [|x s IH]; [reflexivity|]. intros H.
  apply contains_cons_false in H as [Hp Hs].
  cbn [PyText.after_comma].
  destruct (nat_of_ascii x =? 44)%nat eqn:E; [|now apply IH].
  apply Nat.eqb_eq in E.
  assert (x = ","%char).
  { rewrite <- (ascii_nat_embedding x), E. reflexivity. }
  subst x. cbn in Hp. destruct s; discriminate.
Qed.

Lemma after_comma_app (a rest : string) :
  Py.contains "," a = false ->
  PyText.after_comma (a +:+ String "," rest) = Some rest.
Proof.
  induction a as [|x a IH]; intros H; [reflexivity|].
  apply contains_cons_false in H as [Hp Hs].
  change (String x a +:+ String "," rest)
    with (String x (a +:+ String "," rest)).
  cbn [PyText.after_comma].
  destruct (nat_of_ascii x =? 44)%nat eqn:E; [|now apply IH].
  apply Nat.eqb_eq in E.
  assert (x = ","%char).
  { rewrite <- (ascii_nat_embedding x), E. reflexivity. }
  subst x. cbn in Hp. destruct a; discriminate.
Qed.

(** Nothing is cut from a string that does not contain the separator. *)
Lemma before_absent (sep s : string) :
  Py.contains sep s = false -> PyText.before sep s = s.
Proof.
  induction s as [|x s IH]; intros H.
  - cbn [PyText.before]. now destruct (String.prefix sep EmptyString).
  - apply contains_cons_false in H as [Hp Hs].
    cbn [PyText.before]. rewrite Hp. now rewrite IH.
Qed.

(** A two-character separator is not met inside [a] when [a] does not
    contain it and what follows [a] does not begin with its second
    character. *)
Lemma before_app2 (c1 c2 : ascii) (a tail : string) :
  Py.contains (String c1 (String c2 EmptyString)) a = false ->
  (forall t, tail <> String c2 t) ->
  PyText.before (String c1 (String c2 EmptyString)) (a +:+ tail)
  = a +:+ PyText.before (String c1 (String c2 EmptyString)) tail.
Proof.
  intros Ha Ht. induction a as [|x a IH]; [reflexivity|].
  apply contains_cons_false in Ha as [Hp Hs].
  change (String x a +:+ tail) with (String x (a +:+ tail)).
  cbn [PyText.before].
  assert (Hpre : String.prefix (String c1 (String c2 EmptyString))
                   (String x (a +:+ tail)) = false).
  { cbn [String.prefix] in Hp |- *.
    destruct (ascii_dec c1 x) as [E|E]; [|reflexivity].
    destruct a as [|y a'].
    - change (EmptyString +:+ tail) with tail.
      destruct tail as [|z t]; [reflexivity|].
      cbn [String.prefix].
      destruct (ascii_dec c2 z) as [E2|E2]; [|reflexivity].
      subst z. elim (Ht t). reflexivity.
    - change (String y a' +:+ tail) with (String y (a' +:+ tail)).
      cbn [String.prefix] in Hp |- *.
      destruct (ascii_dec c2 y) as [E2|E2]; [|reflexivity].
      destruct a'; discriminate. }
  rewrite Hpre, (IH Hs). reflexivity.
Qed.

Lemma before_at_separator (sep b : string) :
  PyText.before sep (sep +:+ b) = EmptyString.
Proof.
  assert (H : String.prefix sep (sep +:+ b) = true)
    by (apply prefix_app; eauto).
  destruct sep as [|c sep]; destruct b; cbn [PyText.before String.append];
    cbn [PyText.before String.append] in H; try reflexivity;
    now rewrite H.
Qed.

Lemma append_nil_r (s : string) : s +:+ EmptyString = s.
Proof. induction s as [|c s IH]; simpl; [reflexivity | now rewrite IH]. Qed.

Lemma rstrip_app (a b : string) :
  PyText.rstrip b <> EmptyString ->
  PyText.rstrip (a +:+ b) = a +:+ PyText.rstrip b.
Proof.
  intros Hb. induction a as [|x a IH]; [reflexivity|].
  change (String x a +:+ b) with (String x (a +:+ b)).
  cbn [PyText.rstrip]. rewrite IH.
  change (String x a +:+ PyText.rstrip b)
    with (String x (a +:+ PyText.rstrip b)).
  destruct (a +:+ PyText.rstrip b) as [|y t] eqn:E; [|reflexivity].
  destruct a; [|discriminate]. simpl in E. contradiction.
Qed.

Lemma rstrip_cons_nonspace (c : ascii) (s : string) :
  PyText.is_space c = false ->
  PyText.rstrip (String c s) = String c (PyText.rstrip s).
Proof.
  intros Hc. cbn [PyText.rstrip].
  destruct (PyText.rstrip s); [now rewrite Hc | reflexivity].
Qed.

Lemma lstrip_fixed_of_strip (s : string) :
  PyText.strip s = s -> PyText.lstrip s = s.
Proof.
  unfold PyText.strip. intros H.
  destruct s as [|c s]; [reflexivity|].
  cbn [PyText.lstrip] in *. destruct (PyText.is_space c) eqn:Ec; [|reflexivity].
  exfalso.
  assert (L : forall t, (String.length (PyText.rstrip t) <= String.length t)%nat).
  { intros t. induction t as [|x t IHt]; [simpl; lia|].
    cbn [PyText.rstrip]. destruct (PyText.rstrip t) as [|y t'].
    - destruct (PyText.is_space x); simpl; lia.
    - simpl in *. lia. }
  assert (L2 : forall t, (String.length (PyText.lstrip t) <= String.length t)%nat).
  { intros t. induction t as [|x t IHt]; [simpl; lia|].
    cbn [PyText.lstrip]. destruct (PyText.is_space x); simpl in *; lia. }
  apply (f_equal String.length) in H.
  specialize (L (PyText.lstrip s)). specialize (L2 s). simpl in H. lia.
Qed.

Lemma lstrip_app_fixed (core t : string) :
  core <> EmptyString -> PyText.strip core = core ->
  PyText.lstrip (core +:+ t) = core +:+ t.
Proof.
  intros Hne Hs. apply lstrip_fixed_of_strip in Hs.
  destruct core as [|c core]; [contradiction|].
  change (String c core +:+ t) with (String c (core +:+ t)).
  cbn [PyText.lstrip] in *.
  destruct (PyText.is_space c); [|reflexivity].
  exfalso.
  assert (L2 : forall u, (String.length (PyText.lstrip u) <= String.length u)%nat).
  { intros u. induction u as [|x u IHu]; [simpl; lia|].
    cbn [PyText.lstrip]. destruct (PyText.is_space x); simpl in *; lia. }
  apply (f_equal String.length) in Hs. specialize (L2 core). simpl in Hs. lia.
Qed.

(** What is left of the field after the comma once it is stripped, for a
    field made of a space, the date and time, a space, a sign and the
    zone. *)
Lemma strip_date_field (core zone : string) (sign : ascii) :
  core <> EmptyString -> PyText.strip core = core ->
  PyText.is_space sign = false ->
  PyText.strip (String " " (core +:+ String " " (String sign zone)))
  = core +:+ String " " (String sign (PyText.rstrip zone)).
Proof.
  intros Hne Hs Hsign. unfold PyText.strip.
  change (PyText.lstrip (String " " (core +:+ String " " (String sign zone))))
    with (PyText.lstrip (core +:+ String " " (String sign zone))).
  rewrite (lstrip_app_fixed core _ Hne Hs).
  assert (R : PyText.rstrip (String " " (String sign zone))
              = String " " (String sign (PyText.rstrip zone))).
  { cbn [PyText.rstrip].
    destruct (PyText.rstrip zone); rewrite ?Hsign; reflexivity. }
  rewrite rstrip_app; rewrite R; [reflexivity | discriminate].
Qed.

Section ArchiverProperties.

Variable md5_hexdigest : list Byte.byte -> string.
Variable strptime : string -> option Date.

(** X8.  The name under which an attachment is stored is made of four
    parts joined by underscores, each with its runs of white space
    replaced by one underscore: the date stamp, the subject cut down to
    word characters, white space and hyphens and to 50 characters, the
    first eight characters of the hash, and the original file name, which
    is otherwise kept as it is.  The name holds no white space. *)
Theorem archive_filename_shape (date_obj : Date)
    (subject original_name : string) (file_data : list Byte.byte) :
  let safe_subject := Py.first_chars 50 (PyText.strip_non_word subject) in
  archive_filename md5_hexdigest date_obj subject original_name file_data
  = PyText.collapse_spaces (strftime_Ymd date_obj) +:+ "_"
    +:+ PyText.collapse_spaces safe_subject +:+ "_"
    +:+ PyText.collapse_spaces
          (Py.first_chars 8 (md5_hexdigest file_data)) +:+ "_"
    +:+ PyText.collapse_spaces original_name /\
  all_chars not_space
    (archive_filename md5_hexdigest date_obj subject original_name file_data)
  = true /\
  all_chars is_safe_subject_char safe_subject = true /\
  (String.length safe_subject <= 50)%nat.
Proof.
  intros safe_subject. split; [|split; [|split]].
  - unfold archive_filename. fold safe_subject.
    rewrite !collapse_spaces_underscore. reflexivity.
  - apply collapse_spaces_not_space.
  - apply all_chars_substring, strip_non_word_safe.
  - apply length_substring_le.
Qed.

(** X9.  The date header is read as intended when it has the usual
    form: a day name without comma, a comma and a space, the date and
    time, a space, and a zone that begins with a plus or minus sign.
    Then [strptime] receives the date and time alone, provided they hold
    no comma, no " +" and no " -", and neither begin nor end with white
    space. *)
Theorem parse_email_date_usual_form (day_name core zone : string)
    (sign : ascii) :
  Py.contains "," day_name = false ->
  Py.contains "," (core +:+ String " " (String sign zone)) = false ->
  core <> EmptyString -> PyText.strip core = core ->
  Py.contains " +" core = false -> Py.contains " -" core = false ->
  sign = "+"%char \/ sign = "-"%char ->
  parse_email_date strptime
    (day_name +:+ String "," (String " " (core +:+ String " "
                                            (String sign zone))))
  = strptime core.
Proof.
  intros Hd Hr Hne Hs Hp Hm Hsign.
  unfold parse_email_date, PyText.second_field.
  rewrite (after_comma_app day_name _ Hd).
  rewrite (before_absent ","
             (String " " (core +:+ String " " (String sign zone)))).
  2:{ cbn [Py.contains String.prefix].
      destruct (ascii_dec "," " ") as [E|_]; [discriminate E|].
      exact Hr. }
  assert (Hsp : PyText.is_space sign = false)
    by (destruct Hsign; subst sign; reflexivity).
  rewrite (strip_date_field core zone sign Hne Hs Hsp).
  assert (Hcut : PyText.before " -"
                   (PyText.before " +"
                      (core +:+ String " "
                                  (String sign (PyText.rstrip zone))))
                 = core).
  { destruct Hsign; subst sign.
    - rewrite (before_app2 " " "+" core _ Hp) by (intros t; discriminate).
      change (String " " (String "+" (PyText.rstrip zone)))
        with (" +" +:+ PyText.rstrip zone).
      rewrite before_at_separator, append_nil_r.
      now apply before_absent.
    - rewrite (before_app2 " " "+" core _ Hp) by (intros t; discriminate).
      change (PyText.before " +"
                (String " " (String "-" (PyText.rstrip zone))))
        with (String " " (String "-"
                (PyText.before " +" (PyText.rstrip zone)))).
      rewrite (before_app2 " " "-" core _ Hm) by (intros t; discriminate).
      change (String " " (String "-"
                (PyText.before " +" (PyText.rstrip zone))))
        with (" -" +:+ PyText.before " +" (PyText.rstrip zone)).
      rewrite before_at_separator. apply append_nil_r. }
  rewrite Hcut, Hs. reflexivity.
Qed.

(** X10.  A date header without any comma is never handed to
    [strptime], whatever it holds (the day name and its comma are
    optional in a mail date): no date is parsed and the archive date is
    the clock. *)
Theorem date_without_comma_is_the_clock (email_date : string) (now : Date) :
  Py.contains "," email_date = false ->
  parse_email_date strptime email_date = None /\
  archive_date strptime now email_date = now.
Proof.
  intros H.
  assert (E : parse_email_date strptime email_date = None).
  { unfold parse_email_date, PyText.second_field.
    now rewrite (after_comma_none email_date H). }
  split; [exact E|]. unfold archive_date. now rewrite E.
Qed.

End ArchiverProperties.

Lemma parse_email_date_usual_form_witness :
  parse_email_date example_strptime "Fri, 15 Mar 2024 10:30:00 +0000"
  = example_strptime "15 Mar 2024 10:30:00".
Proof.
  exact (parse_email_date_usual_form example_strptime
           "Fri" "15 Mar 2024 10:30:00" "0000" "+"%char
           eq_refl eq_refl
           (fun E : "15 Mar 2024 10:30:00" = EmptyString =>
              eq_ind "15 Mar 2024 10:30:00"
                (fun s => match s with EmptyString => False | _ => True end)
                I EmptyString E)
           eq_refl eq_refl eq_refl (or_introl eq_refl)).
Defined.

Lemma date_without_comma_is_the_clock_witness :
  parse_email_date example_strptime "15 Mar 2024 10:30:00 +0000" = None /\
  archive_date example_strptime {| year := 2024; month := 4; day := 1 |}
    "15 Mar 2024 10:30:00 +0000"
  = {| year := 2024; month := 4; day := 1 |}.
Proof.
  apply (date_without_comma_is_the_clock example_strptime
           "15 Mar 2024 10:30:00 +0000"
           {| year := 2024; month := 4; day := 1 |}).
  reflexivity.
Defined.

(* ===================================================================== *)
(** ** Further properties of the scan *)
(* ===================================================================== *)

Section ScanProperties.

Variable md5_hexdigest : list Byte.byte -> string.
Variable strptime : string -> option Date.
Variable decode : string -> option string.
Variable b64decode : string -> option (list Byte.byte).
Variable fs : FileSystem.

(** An attachment loop that is left by an exception met an attachment
    it downloads and whose download raises. *)
Lemma download_all_aborted (self : GmailMechanicScanner)
    (clock : nat -> Date) (msg_id : string) (atts : list Attachment)
    (email_date subject : string) (w : World) (k : nat) :
  fst (fst (download_all md5_hexdigest strptime b64decode fs self w clock k
              msg_id atts email_date subject)) = Aborted ->
  exists a w' now,
    In a atts /\ is_downloadable a = true /\
    fst (download_attachment md5_hexdigest strptime b64decode fs self w' now
           msg_id a email_date subject) = DownloadRaised.
Proof.
  revert w k. induction atts as [|a atts IH]; intros w k; [discriminate|].
  cbn [download_all].
  destruct (is_downloadable a) eqn:Hd.
  2:{ intros H. destruct (IH _ _ H) as (x & w' & now & Hin & Hx).
      exists x, w', now. split; [now right | exact Hx]. }
  destruct (download_attachment md5_hexdigest strptime b64decode fs self w
              (clock k) msg_id a email_date subject)
    as [[|[q|]] w1] eqn:E.
  - intros _. exists a, w, (clock k). split; [now left|].
    split; [exact Hd|]. now rewrite E.
  - destruct (download_all md5_hexdigest strptime b64decode fs self w1 clock
                (S k) msg_id atts email_date subject) as [[e paths] w2]
      eqn:E2.
    assert (He : e = Aborted ->
              exists x w' now,
                In x (a :: atts) /\ is_downloadable x = true /\
                fst (download_attachment md5_hexdigest strptime b64decode
                       fs self w' now msg_id x email_date subject)
                = DownloadRaised).
    { intros ->. destruct (IH w1 (S k)) as (x & w' & now & Hin & Hx).
      { now rewrite E2. }
      exists x, w', now. split; [now right | exact Hx]. }
    destruct (String.eqb q EmptyString); cbn [fst]; exact He.
  - intros H. destruct (IH _ _ H) as (x & w' & now & Hin & Hx).
    exists x, w', now. split; [now right | exact Hx].
Qed.

Section Loop.

Variable self : GmailMechanicScanner.
Variable clock : string -> nat -> Date.

Let step := scan_message md5_hexdigest strptime decode b64decode fs self
              clock.
Let loop := scan_loop md5_hexdigest strptime decode b64decode fs self clock.

(** An iteration that is left by an exception is that of a message not
    processed before, which raises. *)
Lemma scan_message_aborted (msg_id : string) (st : LoopState) :
  fst (step msg_id st) = Aborted ->
  msg_id ∉ ls_processed st /\
  raises md5_hexdigest strptime decode b64decode fs self msg_id.
Proof.
  unfold step, scan_message, raises.
  destruct (bool_decide (msg_id ∈ ls_processed st)) eqn:Hin;
    [discriminate|].
  apply bool_decide_eq_false in Hin.
  destruct (get_email_details decode self msg_id) as [| |email] eqn:Hd;
    [auto|discriminate|].
  cbv zeta.
  destruct (is_mechanic_invoice (classification_of self email)) eqn:Hacc;
    [|discriminate].
  destruct (download_all md5_hexdigest strptime b64decode fs self
              (ls_world st) (clock msg_id) 0 msg_id
              (email_attachments email) (email_date email)
              (email_subject email)) as [[e paths] w'] eqn:E.
  destruct e; [discriminate|]. intros _. split; [exact Hin|].
  right. exists email. split; [reflexivity|]. split; [exact Hacc|].
  apply (download_all_aborted self (clock msg_id) msg_id
           (email_attachments email) (email_date email)
           (email_subject email) (ls_world st) 0).
  now rewrite E.
Qed.

Lemma scan_message_processed_mono (msg_id : string) (st : LoopState) :
  ls_processed st ⊆ ls_processed (snd (step msg_id st)).
Proof.
  pose proof (scan_message_sets md5_hexdigest strptime decode b64decode fs
                self clock msg_id st) as S.
  cbv zeta in S. fold step in S.
  destruct (bool_decide (msg_id ∈ ls_processed st)).
  - destruct S as (_ & -> & _). set_solver.
  - destruct (get_email_details decode self msg_id).
    + destruct S as (_ & -> & _). set_solver.
    + destruct S as (_ & -> & _). set_solver.
    + destruct S as (_ & [[_ ->]|[_ ->]]); set_solver.
Qed.

Lemma scan_loop_aborted (messages : list string) (st : LoopState) :
  fst (loop messages st) = Aborted ->
  exists x, x ∈ messages /\ x ∉ ls_processed st /\
            raises md5_hexdigest strptime decode b64decode fs self x.
Proof.
  revert st. induction messages as [|m ms IH]; intros st; [discriminate|].
  unfold loop. cbn [scan_loop]. fold step. fold loop.
  pose proof (scan_message_aborted m st) as A.
  pose proof (scan_message_processed_mono m st) as M.
  destruct (step m st) as [[|] st'] eqn:E; cbn [fst snd] in *.
  - intros H. destruct (IH st' H) as (x & Hx & Hn & Hr).
    exists x. split; [now right|]. split; [set_solver | exact Hr].
  - intros _. destruct (A eq_refl) as [Hn Hr].
    exists m. split; [now left|]. auto.
Qed.

End Loop.

(** X11.  The counters of a scan that returns add up.  Every listed
    message is counted either as already processed or as scanned; every
    analysed message is counted once, as an invoice or in one of the
    three rejection counters; the scanned messages that were not
    analysed are those for which [get_email_details] returned nothing;
    the invoice counter is the number of invoice records and the
    attachment counter the number of paths they hold; and every record
    belongs to an analysed message whose decision was an acceptance,
    with the confidence of that decision. *)
Theorem scan_counters (self : GmailMechanicScanner) (w : World)
    (clock : string -> nat -> Date) (stamp : string) (ms : list string)
    (res : Results) :
  messages_list (service self) = Some ms ->
  let r := scan md5_hexdigest strptime decode b64decode fs self w clock
             stamp in
  outcome r = Returned res ->
  (skipped_already_processed res + total_scanned res
   = List.length ms)%nat /\
  (invoices_found res + skipped_rate_confirmations res
   + skipped_no_identifier res + skipped_not_mechanic res
   = List.length (analyzed r))%nat /\
  (List.length (analyzed r) <= total_scanned res)%nat /\
  invoices_found res = List.length (invoices res) /\
  attachments_downloaded res = count_downloaded (invoices res) /\
  forall record, In record (invoices res) ->
    inv_id record ∈ analyzed r /\
    exists email,
      get_email_details decode self (inv_id record) = Fetched email /\
      let d := classify (classifier self) (email_subject email)
                 (email_body email) (email_sender email)
                 (List.map att_filename (email_attachments email)) in
      is_mechanic_invoice d = true /\
      inv_confidence record = confidence d /\
      inv_subject record = email_subject email.
Proof.
  intros Hl r Hret.
  destruct ms as [|m ms].
  - unfold r, scan in Hret |- *. rewrite Hl in *. cbn in Hret |- *.
    injection Hret as <-. cbn.
    repeat split; try lia; try contradiction.
  - pose proof (scan_unfold md5_hexdigest strptime decode b64decode fs self
                  w clock stamp m ms Hl) as U.
    cbv zeta in U. fold r in U.
    destruct U as (_ & Ua & _ & _ & _ & Uo).
    pose proof (scan_loop_steps md5_hexdigest strptime decode b64decode fs
                  self clock (m :: ms)
                  {| ls_processed := processed_ids self; ls_world := w;
                     ls_results := empty_results; ls_analyzed := [] |} 0)
      as H.
    cbv zeta in H. destruct H as (_ & H & _).
    destruct (fst (scan_loop md5_hexdigest strptime decode b64decode fs self
                     clock (m :: ms) _)) eqn:Ee.
    + destruct Uo as (Uo & _). rewrite Uo in Hret. apply Returned_inj in Hret. rewrite <- Hret.
      rewrite Ua. apply (H eq_refl). unfold counters_ok. cbn.
      repeat split; try lia; try contradiction.
    + destruct Uo as (Uo & _). rewrite Uo in Hret. discriminate.
Qed.

(** What a scan does to files, folders and written paths, however it
    ends. *)
Lemma scan_adds_only (self : GmailMechanicScanner) (w : World)
    (clock : string -> nat -> Date) (stamp : string) :
  let r := scan md5_hexdigest strptime decode b64decode fs self w clock
             stamp in
  (forall p x, files w !! p = Some x ->
               files (world_after r) !! p = Some x) /\
  dirs w ⊆ dirs (world_after r) /\
  (exists new, written (world_after r) = new ++ written w /\
               (forall p, p ∈ new -> files w !! p = None) /\
               ((forall a b, fs_join fs a b <> EmptyString) ->
                forall res, outcome r = Returned res ->
                (List.length new <= attachments_downloaded res)%nat)).
Proof.
  intros r.
  destruct (messages_list (service self)) as [[|m ms]|] eqn:Hl.
  - unfold r, scan. rewrite Hl. cbn. split; [auto|]. split; [set_solver|].
    exists []. split; [reflexivity|]. split; [|cbn; lia].
    intros p Hp. inversion Hp.
  - pose proof (scan_unfold md5_hexdigest strptime decode b64decode fs self
                  w clock stamp m ms Hl) as U.
    cbv zeta in U. fold r in U.
    destruct U as (_ & _ & Uf & Ud & Uw & Uo).
    pose proof (scan_loop_steps md5_hexdigest strptime decode b64decode fs
                  self clock (m :: ms)
                  {| ls_processed := processed_ids self; ls_world := w;
                     ls_results := empty_results; ls_analyzed := [] |} 0)
      as H.
    cbv zeta in H. cbn [ls_world ls_results] in H.
    destruct H as ((F & D & _ & _ & new & Wn & Nn) & _ & Hlen & _).
    rewrite Uf, Ud, Uw.
    split; [exact F|]. split; [exact D|].
    exists new. split; [exact Wn|]. split; [exact Nn|].
    intros Hj res Hret. specialize (Hlen Hj).
    rewrite Wn, length_app in Hlen.
    change (attachments_downloaded empty_results) with 0%nat in Hlen.
    destruct (fst (scan_loop md5_hexdigest strptime decode b64decode fs self
                     clock (m :: ms) _)).
    + destruct Uo as (Uo & _). rewrite Uo in Hret. apply Returned_inj in Hret. rewrite <- Hret.
      lia.
    + destruct Uo as (Uo & _). rewrite Uo in Hret. discriminate.
  - unfold r, scan. rewrite Hl. cbn. split; [auto|]. split; [set_solver|].
    exists []. split; [reflexivity|]. split; [|discriminate].
    intros p Hp. inversion Hp.
Qed.

(** X12.  A scan only adds to the archive, however it ends: every file
    that existed keeps its content and every folder stays, and each path
    it writes was not a file before.  When it returns, and the file
    system joins no two texts into the empty text, it has written at
    most as many files as it counts attachments downloaded. *)
Theorem scan_only_adds_files (self : GmailMechanicScanner) (w : World)
    (clock : string -> nat -> Date) (stamp : string) :
  let r := scan md5_hexdigest strptime decode b64decode fs self w clock
             stamp in
  (forall p x, files w !! p = Some x ->
               files (world_after r) !! p = Some x) /\
  dirs w ⊆ dirs (world_after r) /\
  (exists new, written (world_after r) = new ++ written w /\
               (forall p, p ∈ new -> files w !! p = None) /\
               ((forall a b, fs_join fs a b <> EmptyString) ->
                forall res, outcome r = Returned res ->
                (List.length new <= attachments_downloaded res)%nat)).
Proof. exact (scan_adds_only self w clock stamp). Qed.

(** X13.  How a scan ends.  When the listing call fails the error is
    raised again, and when the listing is empty the empty results are
    returned; in both cases the world and the scanner are as they were.
    A scan that the listing or the loop ends by an exception leaves the
    ledger file and the summaries as they were, and the cause is a
    failed listing or a listed message, not processed before, whose
    details or whose download raise.  A scan of a listing that is not
    empty, when it returns, has written the ledger file with the
    scanner's set of processed ids and has appended exactly one summary,
    holding the results it returns. *)
Theorem scan_endings (self : GmailMechanicScanner) (w : World)
    (clock : string -> nat -> Date) (stamp : string) :
  let r := scan md5_hexdigest strptime decode b64decode fs self w clock
             stamp in
  (messages_list (service self) = None ->
   outcome r = Raised /\ world_after r = w /\ scanner_after r = self) /\
  (messages_list (service self) = Some [] ->
   outcome r = Returned empty_results /\ world_after r = w /\
   scanner_after r = self) /\
  (outcome r = Raised ->
   ledger_file (world_after r) = ledger_file w /\
   summaries (world_after r) = summaries w /\
   (messages_list (service self) = None \/
    exists ms x, messages_list (service self) = Some ms /\ x ∈ ms /\
                 (x ∉ processed_ids self) /\
                 raises md5_hexdigest strptime decode b64decode fs self x)) /\
  (forall m ms res, messages_list (service self) = Some (m :: ms) ->
   outcome r = Returned res ->
   ledger_file (world_after r) = Some (processed_ids (scanner_after r)) /\
   summaries (world_after r) = summaries w ++ [(stamp, res)]).
Proof.
  intros r.
  destruct (messages_list (service self)) as [[|m ms]|] eqn:Hl.
  - unfold r, scan. rewrite Hl. cbn.
    split; [discriminate|]. split; [auto|]. split; discriminate.
  - pose proof (scan_unfold md5_hexdigest strptime decode b64decode fs self
                  w clock stamp m ms Hl) as U.
    cbv zeta in U. fold r in U.
    destruct U as (Up & _ & _ & _ & _ & Uo).
    pose proof (scan_loop_steps md5_hexdigest strptime decode b64decode fs
                  self clock (m :: ms)
                  {| ls_processed := processed_ids self; ls_world := w;
                     ls_results := empty_results; ls_analyzed := [] |} 0)
      as H.
    cbv zeta in H. cbn [ls_world] in H.
    destruct H as ((_ & _ & Wl & Ws & _) & _).
    pose proof (scan_loop_aborted self clock (m :: ms)
                  {| ls_processed := processed_ids self; ls_world := w;
                     ls_results := empty_results; ls_analyzed := [] |})
      as A.
    cbn [ls_processed] in A.
    split; [discriminate|]. split; [discriminate|].
    destruct (fst (scan_loop md5_hexdigest strptime decode b64decode fs self
                     clock (m :: ms) _)).
    + destruct Uo as (Uo & Ul & Us). split.
      * rewrite Uo. discriminate.
      * intros m' ms' res _ Hret. rewrite Uo in Hret.
        apply Returned_inj in Hret. rewrite <- Hret.
        rewrite Up, Ul, Us, Ws. auto.
    + destruct Uo as (Uo & Uw). split.
      * intros _. rewrite Uw. split; [exact Wl|]. split; [exact Ws|].
        right. destruct (A eq_refl) as (x & Hx & Hn & Hr).
        exists (m :: ms), x. auto.
      * intros m' ms' res _ Hret. rewrite Uo in Hret. discriminate.
  - unfold r, scan. rewrite Hl. cbn.
    split; [auto|]. split; [discriminate|]. split; [auto|]. discriminate.
Qed.

(** X14.  Scanning again right away finds nothing to do.  Build a
    scanner, and let its scan return with the details of every listed
    message fetched.  A scanner can then be built over the world that
    scan left, and its scan of the same listing returns, analyses no
    message, counts every listed message as already processed, finds no
    invoice, and leaves files, folders, written paths and the ledger as
    they are. *)
Theorem rescan_skips_everything (svc : Service) (dir : string)
    (w0 w : World) (self : GmailMechanicScanner)
    (clock clock2 : string -> nat -> Date) (stamp stamp2 : string)
    (ms : list string) (res : Results) :
  GmailMechanicScanner_init fs svc dir w0 = Some (self, w) ->
  messages_list svc = Some ms ->
  (forall x, x ∈ ms ->
             exists email, get_email_details decode self x = Fetched email) ->
  let r := scan md5_hexdigest strptime decode b64decode fs self w clock
             stamp in
  outcome r = Returned res ->
  exists self2 res2,
    GmailMechanicScanner_init fs svc dir (world_after r)
    = Some (self2, world_after r) /\
    let r2 := scan md5_hexdigest strptime decode b64decode fs self2
                (world_after r) clock2 stamp2 in
    outcome r2 = Returned res2 /\
    analyzed r2 = [] /\
    total_scanned res2 = 0%nat /\
    skipped_already_processed res2 = List.length ms /\
    invoices res2 = [] /\
    files (world_after r2) = files (world_after r) /\
    dirs (world_after r2) = dirs (world_after r) /\
    written (world_after r2) = written (world_after r) /\
    load_processed_ids (world_after r2) = load_processed_ids (world_after r).
Proof.
  intros Hinit Hl Hall r Hret.
  assert (Hself : service self = svc /\ dir ∈ dirs w /\
                  processed_ids self = load_processed_ids w).
  { unfold GmailMechanicScanner_init in Hinit.
    destruct (mkdir fs w0 dir) as [w1|] eqn:Hmk; [|discriminate].
    injection Hinit as <- <-.
    destruct (mkdir_some fs w0 w1 dir Hmk) as (Hd & _). auto. }
  destruct Hself as (Hsvc & Hdir0 & Hown).
  pose proof (scan_ledger md5_hexdigest strptime decode b64decode fs self w
                clock stamp) as H.
  cbv zeta in H. fold r in H. rewrite Hsvc in H.
  destruct H as (_ & _ & _ & _ & _ & Hres).
  destruct (Hres res Hret) as (Hp & Hfile & Hseen).
  assert (Hload : load_processed_ids (world_after r)
                  = processed_ids (scanner_after r)).
  { unfold load_processed_ids at 1.
    destruct Hfile as [-> | [-> Hnil]]; [reflexivity|].
    fold (load_processed_ids w). rewrite Hp, Hnil, <- Hown.
    simpl. set_solver. }
  assert (Hdir : dir ∈ dirs (world_after r)).
  { pose proof (scan_adds_only self w clock stamp) as D.
    cbv zeta in D. fold r in D. destruct D as (_ & D & _). now apply D. }
  set (self2 := {| service := svc; classifier := InvoiceClassifier_init;
                   processed_ids := load_processed_ids (world_after r);
                   download_dir := dir |}).
  assert (Hinit2 : GmailMechanicScanner_init fs svc dir (world_after r)
                   = Some (self2, world_after r)).
  { unfold GmailMechanicScanner_init.
    now rewrite (mkdir_existing fs (world_after r) dir Hdir). }
  assert (Hin : forall x, x ∈ ms -> x ∈ processed_ids self2).
  { intros x Hx. cbn [self2 processed_ids]. rewrite Hload.
    destruct (Hall x Hx) as [email He].
    exact (Hseen x ms email Hl Hx He). }
  destruct ms as [|m ms'].
  - exists self2, empty_results. split; [exact Hinit2|].
    unfold scan. cbn [self2 service]. rewrite Hl. cbn.
    repeat split; reflexivity.
  - pose proof (scan_unfold md5_hexdigest strptime decode b64decode fs
                  self2 (world_after r) clock2 stamp2 m ms' Hl) as U.
    pose proof (scan_loop_all_processed md5_hexdigest strptime decode
                  b64decode fs self2 clock2 (m :: ms')
                  {| ls_processed := processed_ids self2;
                     ls_world := world_after r;
                     ls_results := empty_results; ls_analyzed := [] |} Hin)
      as A.
    cbv zeta in U, A.
    cbn [ls_processed ls_world ls_analyzed ls_results] in A.
    destruct A as (A0 & A1 & A2 & A3 & A4 & A5 & A6).
    rewrite A0 in U. destruct U as (_ & Ua & Uf & Ud & Uw & Uo & Ul & _).
    exists self2, (ls_results
                     (snd (scan_loop md5_hexdigest strptime decode
                             b64decode fs self2 clock2 (m :: ms')
                             {| ls_processed := processed_ids self2;
                                ls_world := world_after r;
                                ls_results := empty_results;
                                ls_analyzed := [] |}))).
    split; [exact Hinit2|]. cbv zeta.
    split; [exact Uo|]. split; [now rewrite Ua, A3|].
    split; [now rewrite A4|]. split; [now rewrite A6|].
    split; [now rewrite A5|]. split; [now rewrite Uf, A2|].
    split; [now rewrite Ud, A2|]. split; [now rewrite Uw, A2|].
    unfold load_processed_ids at 1. now rewrite Ul, A1.
Qed.

(** X24.  Every path an invoice record holds exists in the archive when
    the scan returns, and none is the empty text. *)
Theorem recorded_paths_exist (self : GmailMechanicScanner) (w : World)
    (clock : string -> nat -> Date) (stamp : string) (res : Results) :
  let r := scan md5_hexdigest strptime decode b64decode fs self w clock
             stamp in
  outcome r = Returned res ->
  paths_stored (world_after r) (invoices res).
Proof.
  intros r Hret.
  destruct (messages_list (service self)) as [[|m ms]|] eqn:Hl.
  - unfold r, scan in Hret. rewrite Hl in Hret. cbn in Hret.
    injection Hret as <-. intros record [].
  - pose proof (scan_unfold md5_hexdigest strptime decode b64decode fs self
                  w clock stamp m ms Hl) as U.
    cbv zeta in U. fold r in U.
    destruct U as (_ & _ & Uf & Ud & _ & Uo).
    pose proof (scan_loop_steps md5_hexdigest strptime decode b64decode fs
                  self clock (m :: ms)
                  {| ls_processed := processed_ids self; ls_world := w;
                     ls_results := empty_results; ls_analyzed := [] |} 0)
      as H.
    cbv zeta in H. cbn [ls_world ls_results] in H.
    destruct H as (_ & _ & _ & P).
    assert (H0 : paths_stored w (invoices empty_results))
      by (intros record []).
    specialize (P H0).
    destruct (fst (scan_loop md5_hexdigest strptime decode b64decode fs self
                     clock (m :: ms) _)).
    + destruct Uo as (Uo & _). rewrite Uo in Hret. apply Returned_inj in Hret. rewrite <- Hret.
      intros record Hr p Hp. destruct (P record Hr p Hp) as [Hne Hex].
      split; [exact Hne|]. unfold path_exists in *. now rewrite Uf, Ud.
    + destruct Uo as (Uo & _). rewrite Uo in Hret. discriminate.
  - unfold r, scan in Hret. rewrite Hl in Hret. discriminate.
Qed.

(** X25.  When [download_attachment] raises.  With an attachment id and
    a fetch that succeeds, it raises exactly when the response holds no
    data, or the data cannot be decoded, or the month folder cannot be
    made, or nothing exists at the path and the file cannot be opened
    for writing.  Without an attachment id, or when the fetch fails with
    an [HttpError], it returns no path and raises nothing. *)
Theorem download_attachment_raises_when (self : GmailMechanicScanner)
    (w : World) (now : Date) (msg_id : string) (attachment : Attachment)
    (email_date subject : string) :
  let r := download_attachment md5_hexdigest strptime b64decode fs self w
             now msg_id attachment email_date subject in
  let date_obj := archive_date strptime now email_date in
  let folder := archive_folder fs (download_dir self) date_obj in
  (fst r = DownloadRaised <->
   exists aid att_data,
     att_attachmentId attachment = Some aid /\ aid <> EmptyString /\
     attachments_get (service self) msg_id aid = Some att_data /\
     (body_data att_data = None \/
      exists data, body_data att_data = Some data /\
        (b64decode data = None \/
         exists file_data, b64decode data = Some file_data /\
           (mkdir fs w folder = None \/
            exists w1, mkdir fs w folder = Some w1 /\
              let path := archive_path md5_hexdigest fs (download_dir self)
                            date_obj subject (att_filename attachment)
                            file_data in
              path_exists w1 path = false /\
              fs_can_open fs w1 path = false)))) /\
  ((att_attachmentId attachment = None \/
    att_attachmentId attachment = Some EmptyString \/
    exists aid, att_attachmentId attachment = Some aid /\
                attachments_get (service self) msg_id aid = None) ->
   r = (DownloadReturned None, w)).
Proof.
  intros r date_obj folder. split.
  - destruct (att_attachmentId attachment) as [aid|] eqn:Hid.
    2:{ assert (R : r = (DownloadReturned None, w))
          by (unfold r, download_attachment; now rewrite Hid).
        rewrite R. cbn [fst]. split; [discriminate|].
        intros (a & b & E & _). discriminate. }
    destruct (String.eqb aid EmptyString) eqn:Ee.
    { assert (R : r = (DownloadReturned None, w))
        by (unfold r, download_attachment; now rewrite Hid, Ee).
      apply String.eqb_eq in Ee. rewrite R. cbn [fst].
      split; [discriminate|].
      intros (a & b & E & Hn & _). injection E as <-. contradiction. }
    destruct (attachments_get (service self) msg_id aid) as [att_data|]
      eqn:Hget.
    2:{ assert (R : r = (DownloadReturned None, w))
          by (unfold r, download_attachment; now rewrite Hid, Ee, Hget).
        rewrite R. cbn [fst]. split; [discriminate|].
        intros (a & b & E & _ & G & _). injection E as <-.
        rewrite Hget in G. discriminate. }
    assert (Hne : aid <> EmptyString) by now apply String.eqb_neq.
    destruct (body_data att_data) as [data|] eqn:Hdata.
    2:{ assert (R : r = (DownloadRaised, w))
          by (unfold r, download_attachment;
              now rewrite Hid, Ee, Hget, Hdata).
        rewrite R. cbn [fst]. split; [|reflexivity].
        intros _. exists aid, att_data. auto. }
    destruct (b64decode data) as [file_data|] eqn:Hdec.
    2:{ assert (R : r = (DownloadRaised, w))
          by (unfold r, download_attachment;
              now rewrite Hid, Ee, Hget, Hdata, Hdec).
        rewrite R. cbn [fst]. split; [|reflexivity].
        intros _. exists aid, att_data.
        split; [reflexivity|]. split; [exact Hne|].
        split; [exact Hget|]. right. exists data. auto. }
    pose proof (download_attachment_fetched md5_hexdigest strptime b64decode
                  fs self w now msg_id attachment email_date subject aid
                  att_data data file_data Hid Hne Hget Hdata Hdec) as R.
    cbv zeta in R. fold r date_obj folder in R. rewrite R. clear R.
    destruct (mkdir fs w folder) as [w1|] eqn:Hmk.
    2:{ cbn [fst]. split; [|reflexivity].
        intros _. exists aid, att_data.
        split; [reflexivity|]. split; [exact Hne|].
        split; [exact Hget|]. right. exists data.
        split; [exact Hdata|]. right. exists file_data. auto. }
    destruct (path_exists w1
                (archive_path md5_hexdigest fs (download_dir self) date_obj
                   subject (att_filename attachment) file_data)) eqn:Hex.
    { cbn [fst]. split; [discriminate|].
      intros (a & b & E & _ & G
              & [B|(d' & B & [C|(f' & C & [M|(w' & M & X & _)])])]);
        injection E as <-; rewrite Hget in G; injection G as <-;
        congruence. }
    unfold write_file.
    destruct (fs_can_open fs w1
                (archive_path md5_hexdigest fs (download_dir self) date_obj
                   subject (att_filename attachment) file_data)) eqn:Hop.
    { cbn [fst]. split; [discriminate|].
      intros (a & b & E & _ & G
              & [B|(d' & B & [C|(f' & C & [M|(w' & M & _ & X)])])]);
        injection E as <-; rewrite Hget in G; injection G as <-;
        congruence. }
    cbn [fst]. split; [|reflexivity].
    intros _. exists aid, att_data.
    split; [reflexivity|]. split; [exact Hne|].
    split; [exact Hget|]. right. exists data.
    split; [exact Hdata|]. right. exists file_data.
    split; [exact Hdec|]. right. exists w1. auto.
  - unfold r, download_attachment.
    intros [->|[->|(aid & -> & G)]]; [reflexivity|reflexivity|].
    destruct (String.eqb aid EmptyString); [reflexivity|].
    now rewrite G.
Qed.

End ScanProperties.

Lemma scan_counters_witness :
  let r := scan example_md5 example_strptime example_body_decode
             example_b64decode example_fs (example_scanner example_service)
             example_world example_clock "20240401_120000" in
  exists res,
    outcome r = Returned res /\
    (skipped_already_processed res + total_scanned res
     = List.length ["m1"; "m2"; "m3"])%nat /\
    (invoices_found res + skipped_rate_confirmations res
     + skipped_no_identifier res + skipped_not_mechanic res
     = List.length (analyzed r))%nat.
Proof.
  assert (H : exists res,
            outcome (scan example_md5 example_strptime example_body_decode
                       example_b64decode example_fs
                       (example_scanner example_service) example_world
                       example_clock "20240401_120000") = Returned res)
    by (eexists; vm_compute; reflexivity).
  destruct H as [res H].
  pose proof (scan_counters example_md5 example_strptime example_body_decode
                example_b64decode example_fs
                (example_scanner example_service) example_world
                example_clock "20240401_120000" ["m1"; "m2"; "m3"] res
                eq_refl H) as T.
  cbv zeta in T. exists res.
  exact (conj H (conj (proj1 T) (proj1 (proj2 T)))).
Defined.

Lemma rescan_skips_everything_witness :
  let r := scan example_md5 example_strptime example_body_decode
             example_b64decode example_fs (example_scanner example_mailbox)
             example_world example_clock "20240401_120000" in
  exists self2 res2,
    GmailMechanicScanner_init example_fs example_mailbox "invoices"
      (world_after r) = Some (self2, world_after r) /\
    let r2 := scan example_md5 example_strptime example_body_decode
                example_b64decode example_fs self2 (world_after r)
                example_clock "20240402_120000" in
    outcome r2 = Returned res2 /\
    analyzed r2 = [] /\
    total_scanned res2 = 0%nat /\
    skipped_already_processed res2 = List.length ["m1"; "m3"].
Proof.
  assert (H1 : GmailMechanicScanner_init example_fs example_mailbox
                 "invoices" empty_world
               = Some (example_scanner example_mailbox, example_world))
    by reflexivity.
  assert (H2 : forall x, x ∈ ["m1"; "m3"] ->
            exists email,
              get_email_details example_body_decode
                (example_scanner example_mailbox) x = Fetched email).
  { intros x Hx.
    apply elem_of_cons in Hx as [->|Hx]; [eexists; vm_compute; reflexivity|].
    apply elem_of_cons in Hx as [->|Hx]; [eexists; vm_compute; reflexivity|].
    inversion Hx. }
  assert (H3 : exists res,
            outcome (scan example_md5 example_strptime example_body_decode
                       example_b64decode example_fs
                       (example_scanner example_mailbox) example_world
                       example_clock "20240401_120000") = Returned res)
    by (eexists; vm_compute; reflexivity).
  destruct H3 as [res H3].
  pose proof (rescan_skips_everything example_md5 example_strptime
                example_body_decode example_b64decode example_fs
                example_mailbox "invoices" empty_world example_world
                (example_scanner example_mailbox)
                example_clock example_clock
                "20240401_120000" "20240402_120000"
                ["m1"; "m3"] res H1 eq_refl H2 H3) as T.
  cbv zeta in T. destruct T as (self2 & res2 & T0 & T1 & T2 & T3 & T4 & _).
  exists self2, res2. cbv zeta. auto.
Defined.

Lemma recorded_paths_exist_witness :
  let r := scan example_md5 example_strptime example_body_decode
             example_b64decode example_fs (example_scanner example_service)
             example_world example_clock "20240401_120000" in
  exists res,
    outcome r = Returned res /\
    paths_stored (world_after r) (invoices res).
Proof.
  assert (H : exists res,
            outcome (scan example_md5 example_strptime example_body_decode
                       example_b64decode example_fs
                       (example_scanner example_service) example_world
                       example_clock "20240401_120000") = Returned res)
    by (eexists; vm_compute; reflexivity).
  destruct H as [res H]. exists res. split; [exact H|].
  exact (recorded_paths_exist example_md5 example_strptime
           example_body_decode example_b64decode example_fs
           (example_scanner example_service) example_world example_clock
           "20240401_120000" res H).
Defined.

(* ===================================================================== *)
(** ** Properties of the message reader *)
(* ===================================================================== *)

(** Induction over a payload, with the property for every sub-part. *)
Lemma Part_forall_ind (P : Part -> Prop) :
  (forall m f b h, P (mkPart m f b h None)) ->
  (forall m f b h ps, Forall P ps -> P (mkPart m f b h (Some ps))) ->
  forall p, P p.
Proof.
  intros Hleaf Hnode. fix IH 1. intros [m f b h [ps|]].
  - apply Hnode. induction ps as [|x ps IHps]; constructor.
    + apply IH.
    + exact IHps.
  - apply Hleaf.
Qed.

(** *** Headers *)

Lemma header_loop_spec (headers : list Header) (st : HeaderFields) :
  List.fold_left header_step headers st
  = {| hf_subject := if existsb (header_is "subject") headers
                     then last_header "subject" headers else hf_subject st;
       hf_sender := if existsb (header_is "from") headers
                    then last_header "from" headers else hf_sender st;
       hf_date := if existsb (header_is "date") headers
                  then last_header "date" headers else hf_date st |}.
Proof.
  revert st. induction headers as [|h rest IH]; intros st.
  - destruct st; reflexivity.
  - cbn [List.fold_left existsb last_header]. rewrite IH.
    unfold header_step. cbv zeta.
    set (n := Py.lower (get_or_empty (header_name h))).
    change (header_is "subject" h) with (String.eqb n "subject").
    change (header_is "from" h) with (String.eqb n "from").
    change (header_is "date" h) with (String.eqb n "date").
    destruct (String.eqb n "subject") eqn:E1.
    { apply String.eqb_eq in E1. rewrite E1.
      change (String.eqb "subject" "from") with false.
      change (String.eqb "subject" "date") with false.
      cbn [orb hf_subject hf_sender hf_date].
      destruct (existsb (header_is "subject") rest),
               (existsb (header_is "from") rest),
               (existsb (header_is "date") rest); reflexivity. }
    destruct (String.eqb n "from") eqn:E2.
    { apply String.eqb_eq in E2. rewrite E2.
      change (String.eqb "from" "date") with false.
      cbn [orb hf_subject hf_sender hf_date].
      destruct (existsb (header_is "subject") rest),
               (existsb (header_is "from") rest),
               (existsb (header_is "date") rest); reflexivity. }
    destruct (String.eqb n "date") eqn:E3.
    { cbn [orb hf_subject hf_sender hf_date].
      destruct (existsb (header_is "subject") rest),
               (existsb (header_is "from") rest),
               (existsb (header_is "date") rest); reflexivity. }
    cbn [orb hf_subject hf_sender hf_date].
    destruct (existsb (header_is "subject") rest),
             (existsb (header_is "from") rest),
             (existsb (header_is "date") rest); reflexivity.
Qed.

Lemma last_header_absent (name : string) (headers : list Header) :
  existsb (header_is name) headers = false ->
  last_header name headers = EmptyString.
Proof.
  induction headers as [|h rest IH]; [reflexivity|].
  cbn [existsb last_header]. intros H.
  apply orb_false_iff in H as [H1 H2]. now rewrite H1, H2.
Qed.

Lemma extract_headers_spec (headers : list Header) :
  extract_headers headers
  = {| hf_subject := last_header "subject" headers;
       hf_sender := last_header "from" headers;
       hf_date := last_header "date" headers |}.
Proof.
  unfold extract_headers. rewrite header_loop_spec. cbn [hf_subject hf_sender hf_date].
  f_equal.
  - destruct (existsb (header_is "subject") headers) eqn:E; [reflexivity|].
    symmetry. now apply last_header_absent.
  - destruct (existsb (header_is "from") headers) eqn:E; [reflexivity|].
    symmetry. now apply last_header_absent.
  - destruct (existsb (header_is "date") headers) eqn:E; [reflexivity|].
    symmetry. now apply last_header_absent.
Qed.

(** *** Attachments *)

Lemma extract_attachments_unfold (part : Part)
    (attachments : list Attachment) :
  extract_attachments part attachments
  = match part_parts part with
    | None => attachments ++ attachment_here part
    | Some ps =>
        extract_attachments_each ps (attachments ++ attachment_here part)
    end.
Proof.
  destruct part as [m f b h [ps|]]; unfold attachment_here;
    cbn [extract_attachments part_parts part_filename];
    destruct f as [f|]; try destruct (String.eqb f EmptyString);
    rewrite ?app_nil_r; reflexivity.
Qed.

Lemma preorder_unfold (part : Part) :
  preorder part
  = part :: match part_parts part with
            | None => []
            | Some ps => preorder_each ps
            end.
Proof.
  destruct part as [m f b h [ps|]]; reflexivity.
Qed.

Lemma extract_attachments_each_spec (ps : list Part) :
  Forall (fun p => forall attachments,
            extract_attachments p attachments
            = attachments ++ List.flat_map attachment_here (preorder p)) ps ->
  forall attachments,
    extract_attachments_each ps attachments
    = attachments ++ List.flat_map attachment_here (preorder_each ps).
Proof.
  induction 1 as [|x ps Hx _ IHps]; intros attachments.
  - cbn. now rewrite app_nil_r.
  - cbn [extract_attachments_each]. rewrite IHps, Hx.
    unfold preorder_each. cbn [List.flat_map].
    now rewrite flat_map_app, <- app_assoc.
Qed.

Lemma extract_attachments_spec (part : Part) :
  forall attachments,
    extract_attachments part attachments
    = attachments ++ List.flat_map attachment_here (preorder part).
Proof.
  induction part as [m f b h|m f b h ps IH] using Part_forall_ind;
    intros attachments; rewrite extract_attachments_unfold, preorder_unfold;
    cbn [part_parts List.flat_map].
  - now rewrite app_nil_r.
  - rewrite (extract_attachments_each_spec ps IH). now rewrite <- app_assoc.
Qed.

Lemma attachment_here_named (part : Part) (a : Attachment) :
  In a (attachment_here part) ->
  part_filename part = Some (att_filename a) /\
  att_filename a <> EmptyString /\
  a = attachment_of (att_filename a) part.
Proof.
  unfold attachment_here. destruct (part_filename part) as [f|]; [|intros []].
  destruct (String.eqb f EmptyString) eqn:E; [intros []|].
  intros [<-|[]]. cbn [attachment_of att_filename].
  apply String.eqb_neq in E. auto.
Qed.

(** *** The tag pattern *)

Lemma after_gt_length (s rest : string) :
  after_gt s = Some rest -> (String.length rest < String.length s)%nat.
Proof.
  revert rest. induction s as [|c s IH]; intros rest; [discriminate|].
  cbn [after_gt String.length]. destruct (Ascii.eqb c ">").
  - intros [= <-]. lia.
  - intros H. apply IH in H. lia.
Qed.

Lemma match_tag_length (s rest : string) :
  match_tag s = Some rest -> (String.length rest + 3 <= String.length s)%nat.
Proof.
  destruct s as [|c [|c' t]]; try discriminate.
  cbn [match_tag String.length].
  destruct (Ascii.eqb c "<" && negb (Ascii.eqb c' ">")); [|discriminate].
  intros H. apply after_gt_length in H. lia.
Qed.

Lemma strip_tags_fuel_enough (n m : nat) :
  forall s, (String.length s <= n)%nat -> (String.length s <= m)%nat ->
            strip_tags_fuel n s = strip_tags_fuel m s.
Proof.
  revert m. induction n as [|n IH]; intros m s Hn Hm.
  - destruct s; [|simpl in Hn; lia]. destruct m; reflexivity.
  - destruct m as [|m]; [destruct s; [reflexivity|simpl in Hm; lia]|].
    destruct s as [|c t]; [reflexivity|].
    cbn [strip_tags_fuel]. simpl in Hn, Hm.
    destruct (match_tag (String c t)) as [rest|] eqn:E.
    + apply match_tag_length in E. simpl in E.
      f_equal. apply IH; lia.
    + f_equal. apply IH; lia.
Qed.

Lemma strip_tags_cons (c : ascii) (t : string) :
  strip_tags (String c t)
  = match match_tag (String c t) with
    | Some rest => String " " (strip_tags rest)
    | None => String c (strip_tags t)
    end.
Proof.
  unfold strip_tags at 1. cbn [String.length strip_tags_fuel].
  destruct (match_tag (String c t)) as [rest|] eqn:E.
  - apply match_tag_length in E. simpl in E.
    f_equal. apply strip_tags_fuel_enough; lia.
  - reflexivity.
Qed.

(** Induction on the length of a text. *)
Lemma string_length_ind (P : string -> Prop) :
  (forall s, (forall t, (String.length t < String.length s)%nat -> P t) ->
             P s) ->
  forall s, P s.
Proof.
  intros H s.
  assert (A : forall n t, (String.length t < n)%nat -> P t).
  { induction n as [|n IH]; intros t Ht; [lia|].
    apply H. intros u Hu. apply IH. lia. }
  apply (A (S (String.length s))). lia.
Qed.

Lemma after_gt_none_iff (s : string) :
  after_gt s = None <-> all_chars (fun c => negb (Ascii.eqb c ">")) s = true.
Proof.
  induction s as [|c s IH]; [cbn; tauto|].
  cbn [after_gt all_chars]. destruct (Ascii.eqb c ">"); cbn.
  - split; discriminate.
  - exact IH.
Qed.

Lemma strip_tags_no_gt (s : string) :
  all_chars (fun c => negb (Ascii.eqb c ">")) s = true ->
  strip_tags s = s.
Proof.
  induction s as [|c s IH]; [reflexivity|].
  cbn [all_chars]. intros H. apply andb_true_iff in H as [Hc Hs].
  rewrite strip_tags_cons.
  assert (E : match_tag (String c s) = None).
  { destruct s as [|c' t]; [reflexivity|]. cbn [match_tag].
    destruct (Ascii.eqb c "<" && negb (Ascii.eqb c' ">")); [|reflexivity].
    cbn [all_chars] in Hs. apply andb_true_iff in Hs as [_ Ht].
    now apply after_gt_none_iff. }
  rewrite E. now rewrite IH.
Qed.

Lemma strip_tags_length (s : string) :
  (String.length (strip_tags s) <= String.length s)%nat.
Proof.
  induction s as [s IH] using string_length_ind.
  destruct s as [|c t]; [simpl; lia|].
  rewrite strip_tags_cons.
  destruct (match_tag (String c t)) as [rest|] eqn:E.
  - apply match_tag_length in E. simpl in E.
    assert (L := IH rest ltac:(simpl; lia)). simpl. lia.
  - assert (L := IH t ltac:(simpl; lia)). simpl. lia.
Qed.

Lemma strip_tags_head_gt (t : string) :
  strip_tags (String ">" t) = String ">" (strip_tags t).
Proof.
  rewrite strip_tags_cons.
  assert (E : match_tag (String ">" t) = None)
    by (destruct t; reflexivity).
  now rewrite E.
Qed.

Lemma match_tag_lt_none (t : string) :
  match_tag (String "<" t) = None ->
  t = EmptyString \/ (exists t', t = String ">" t') \/
  all_chars (fun c => negb (Ascii.eqb c ">")) t = true.
Proof.
  destruct t as [|c' t]; [auto|]. cbn [match_tag].
  change (Ascii.eqb "<" "<") with true. cbn [andb].
  destruct (Ascii.eqb c' ">") eqn:E; cbn [negb].
  - apply Ascii.eqb_eq in E. subst c'. eauto.
  - intros H. right. right. cbn [all_chars]. rewrite E. cbn.
    now apply after_gt_none_iff.
Qed.

Lemma strip_tags_no_tag_left (s : string) :
  has_tag (strip_tags s) = false.
Proof.
  induction s as [s IH] using string_length_ind.
  destruct s as [|c t]; [reflexivity|].
  rewrite strip_tags_cons.
  destruct (match_tag (String c t)) as [rest|] eqn:E.
  - apply match_tag_length in E. simpl in E.
    assert (L := IH rest ltac:(simpl; lia)).
    cbn [has_tag].
    assert (M : match_tag (String " " (strip_tags rest)) = None)
      by (destruct (strip_tags rest); reflexivity).
    now rewrite M.
  - assert (L := IH t ltac:(simpl; lia)).
    cbn [has_tag].
    assert (M : match_tag (String c (strip_tags t)) = None).
    { destruct (Ascii.eqb c "<") eqn:Ec.
      - apply Ascii.eqb_eq in Ec. subst c.
        destruct (match_tag_lt_none t E) as [->|[[t' ->]|Hn]].
        + reflexivity.
        + rewrite strip_tags_head_gt. reflexivity.
        + rewrite (strip_tags_no_gt t Hn). exact E.
      - destruct (strip_tags t) as [|c' u]; [reflexivity|].
        cbn [match_tag]. now rewrite Ec. }
    now rewrite M.
Qed.

Lemma strip_tags_fixed (s : string) :
  has_tag s = false -> strip_tags s = s.
Proof.
  induction s as [|c t IH]; [reflexivity|].
  cbn [has_tag]. rewrite strip_tags_cons.
  destruct (match_tag (String c t)); [discriminate|].
  intros H. now rewrite IH.
Qed.

(** *** The body *)

Section ReaderFacts.

Variable decode : string -> option string.

Lemma get_body_unfold (payload : Part) :
  get_body decode payload
  = match
      match data_of (part_body payload) with
      | Some d => decode d
      | None => Some EmptyString
      end
    with
    | None => None
    | Some body =>
        match part_parts payload with
        | None => Some body
        | Some ps => get_body_each decode ps body
        end
    end.
Proof.
  destruct payload as [m f b h [ps|]]; reflexivity.
Qed.

Lemma all_data_unfold (part : Part) :
  all_data part
  = match data_of (part_body part) with
    | Some d => [d]
    | None => []
    end ++
    match part_parts part with
    | None => []
    | Some ps => all_data_each ps
    end.
Proof.
  destruct part as [m f b h [ps|]]; reflexivity.
Qed.

Lemma prune_unfold (m f : option string) (b : option PartBody)
    (h : list Header) (ps : list Part) :
  prune (mkPart m f b h (Some ps)) = mkPart m f b h (Some (prune_each ps)).
Proof. reflexivity. Qed.

Lemma prune_fields (p : Part) :
  part_mimeType (prune p) = part_mimeType p /\
  part_body (prune p) = part_body p /\
  (part_parts p = None -> part_parts (prune p) = None) /\
  (forall ps, part_parts p = Some ps ->
              part_parts (prune p) = Some (prune_each ps)).
Proof.
  destruct p as [m f b h [ps|]].
  - rewrite prune_unfold. cbn. repeat split; [discriminate|].
    now intros ps' [= <-].
  - cbn. repeat split. discriminate.
Qed.

Lemma get_body_each_prune (ps : list Part) :
  Forall (fun p => get_body decode (prune p) = get_body decode p) ps ->
  forall body,
    get_body_each decode (prune_each ps) body = get_body_each decode ps body.
Proof.
  induction 1 as [|x ps Hx _ IHps]; intros body; [reflexivity|].
  cbn [prune_each get_body_each].
  destruct (mime_is x "text/plain") eqn:Ep.
  { cbn [orb get_body_each].
    change (mime_is (mkPart (part_mimeType x) (part_filename x)
                       (part_body x) (part_headers x) None) "text/plain")
      with (mime_is x "text/plain").
    rewrite Ep. cbn [part_body].
    destruct (data_of (part_body x)) as [d|]; [|apply IHps].
    destruct (decode d); [apply IHps|reflexivity]. }
  destruct (mime_is x "text/html") eqn:Eh.
  { cbn [orb get_body_each].
    change (mime_is (mkPart (part_mimeType x) (part_filename x)
                       (part_body x) (part_headers x) None) "text/plain")
      with (mime_is x "text/plain").
    change (mime_is (mkPart (part_mimeType x) (part_filename x)
                       (part_body x) (part_headers x) None) "text/html")
      with (mime_is x "text/html").
    rewrite Ep, Eh. cbn [part_body].
    destruct (data_of (part_body x)) as [d|]; [|apply IHps].
    destruct (decode d); [apply IHps|reflexivity]. }
  cbn [orb].
  destruct (part_parts x) as [sub|] eqn:Es; [|apply IHps].
  cbn [get_body_each].
  destruct (prune_fields x) as (Fm & _ & _ & Fp).
  unfold mime_is in *. rewrite Fm, Ep, Eh, (Fp sub Es), Hx.
  destruct (get_body decode x); [apply IHps|reflexivity].
Qed.

Lemma get_body_prune (payload : Part) :
  get_body decode (prune payload) = get_body decode payload.
Proof.
  induction payload as [m f b h|m f b h ps IH] using Part_forall_ind;
    [reflexivity|].
  rewrite prune_unfold, !get_body_unfold. cbn [part_body part_parts].
  destruct (match data_of b with
            | Some d => decode d
            | None => Some EmptyString
            end) as [body|]; [|reflexivity].
  now apply get_body_each_prune.
Qed.

Lemma get_body_each_succeeds (ps : list Part) :
  Forall (fun p => (forall d, In d (all_data p) -> decode d <> None) ->
                   get_body decode p <> None) ps ->
  (forall d, In d (all_data_each ps) -> decode d <> None) ->
  forall body, get_body_each decode ps body <> None.
Proof.
  induction 1 as [|x ps Hx _ IHps]; intros Hd body; [discriminate|].
  unfold all_data_each in Hd. cbn [List.flat_map] in Hd.
  assert (Hx' : forall d, In d (all_data x) -> decode d <> None)
    by (intros d Hin; apply Hd, in_or_app; now left).
  assert (Hps : forall d, In d (all_data_each ps) -> decode d <> None)
    by (intros d Hin; apply Hd, in_or_app; now right).
  assert (Hown : forall d, data_of (part_body x) = Some d ->
                           decode d <> None).
  { intros d E. apply Hx'. rewrite all_data_unfold, E. now left. }
  specialize (IHps Hps). specialize (Hx Hx').
  cbn [get_body_each].
  destruct (mime_is x "text/plain").
  { destruct (data_of (part_body x)) as [d|]; [|apply IHps].
    specialize (Hown d eq_refl).
    destruct (decode d); [apply IHps|contradiction]. }
  destruct (mime_is x "text/html").
  { destruct (data_of (part_body x)) as [d|]; [|apply IHps].
    specialize (Hown d eq_refl).
    destruct (decode d); [apply IHps|contradiction]. }
  destruct (part_parts x); [|apply IHps].
  destruct (get_body decode x); [apply IHps|contradiction].
Qed.

Lemma get_body_succeeds_aux (payload : Part) :
  (forall d, In d (all_data payload) -> decode d <> None) ->
  get_body decode payload <> None.
Proof.
  induction payload as [m f b h|m f b h ps IH] using Part_forall_ind;
    intros Hd; rewrite get_body_unfold; cbn [part_body part_parts];
    rewrite all_data_unfold in Hd; cbn [part_body part_parts] in Hd.
  - destruct (data_of b) as [d|]; [|discriminate].
    specialize (Hd d (or_introl eq_refl)).
    destruct (decode d); [discriminate|contradiction].
  - assert (Hps : forall d, In d (all_data_each ps) -> decode d <> None)
      by (intros d Hin; apply Hd, in_or_app; now right).
    destruct (data_of b) as [d|].
    + specialize (Hd d (or_introl eq_refl)).
      destruct (decode d); [|contradiction].
      now apply get_body_each_succeeds.
    + now apply get_body_each_succeeds.
Qed.

Lemma get_body_each_fails (ps : list Part) :
  Forall (fun p => get_body decode p = None ->
                   exists d, In d (all_data p) /\ decode d = None) ps ->
  forall body, get_body_each decode ps body = None ->
               exists d, In d (all_data_each ps) /\ decode d = None.
Proof.
  induction 1 as [|x ps Hx _ IHps]; intros body; [discriminate|].
  unfold all_data_each. cbn [List.flat_map get_body_each].
  fold (all_data_each ps).
  assert (Hrest : forall body', get_body_each decode ps body' = None ->
            exists d, In d (all_data x ++ all_data_each ps) /\
                      decode d = None).
  { intros body' E. destruct (IHps body' E) as (d & Hin & Hd).
    exists d. split; [apply in_or_app; now right|exact Hd]. }
  assert (Hown : forall d, data_of (part_body x) = Some d ->
                           decode d = None ->
            exists d, In d (all_data x ++ all_data_each ps) /\
                      decode d = None).
  { intros d E Hd. exists d. split; [|exact Hd].
    apply in_or_app. left. rewrite all_data_unfold, E. now left. }
  destruct (mime_is x "text/plain").
  { destruct (data_of (part_body x)) as [d|]; [|apply Hrest].
    destruct (decode d) eqn:Ed; [apply Hrest|].
    intros _. now apply (Hown d). }
  destruct (mime_is x "text/html").
  { destruct (data_of (part_body x)) as [d|]; [|apply Hrest].
    destruct (decode d) eqn:Ed; [apply Hrest|].
    intros _. now apply (Hown d). }
  destruct (part_parts x); [|apply Hrest].
  destruct (get_body decode x) eqn:Eg; [apply Hrest|].
  intros _. destruct (Hx eq_refl) as (d & Hin & Hd).
  exists d. split; [apply in_or_app; now left|exact Hd].
Qed.

Lemma get_body_fails_aux (payload : Part) :
  get_body decode payload = None ->
  exists d, In d (all_data payload) /\ decode d = None.
Proof.
  induction payload as [m f b h|m f b h ps IH] using Part_forall_ind;
    rewrite get_body_unfold, all_data_unfold; cbn [part_body part_parts].
  - destruct (data_of b) as [d|]; [|discriminate].
    destruct (decode d) eqn:Ed; [discriminate|].
    intros _. exists d. split; [now left|exact Ed].
  - destruct (data_of b) as [d|].
    + destruct (decode d) eqn:Ed.
      * intros E. destruct (get_body_each_fails ps IH _ E) as (d' & Hin & Hd).
        exists d'. split; [right; exact Hin|exact Hd].
      * intros _. exists d. split; [now left|exact Ed].
    + intros E. destruct (get_body_each_fails ps IH _ E) as (d' & Hin & Hd).
      exists d'. split; [exact Hin|exact Hd].
Qed.

End ReaderFacts.

(** X15.  Of the headers of a message, the last one named "subject",
    "from" or "date" gives the subject, the sender or the date; names
    are compared without regard to case, a header without value gives
    the empty text, and so does a name that no header bears. *)
Theorem extract_headers_last_wins (headers : list Header) :
  extract_headers headers
  = {| hf_subject := last_header "subject" headers;
       hf_sender := last_header "from" headers;
       hf_date := last_header "date" headers |}.
Proof. exact (extract_headers_spec headers). Qed.

(** X16.  The attachments of a message are its parts with a file name
    that is not empty, each before its sub-parts and in the order of the
    payload, whatever the type of a part and wherever it is nested: the
    walk goes under every part.  Each attachment carries the file name of
    its part. *)
Theorem attachments_are_named_parts (payload : Part) :
  get_attachments_info payload
  = List.flat_map attachment_here (preorder payload) /\
  forall a, In a (get_attachments_info payload) ->
    att_filename a <> EmptyString /\
    exists part, In part (preorder payload) /\
                 part_filename part = Some (att_filename a) /\
                 a = attachment_of (att_filename a) part.
Proof.
  assert (E : get_attachments_info payload
              = List.flat_map attachment_here (preorder payload))
    by (unfold get_attachments_info; now rewrite extract_attachments_spec).
  split; [exact E|]. rewrite E. intros a Ha.
  apply in_flat_map in Ha as (part & Hpart & Ha).
  destruct (attachment_here_named part a Ha) as (Hf & Hne & Hof).
  split; [exact Hne|]. exists part. auto.
Qed.

(** X17.  Stripping the tags of a text leaves no tag: in the result no
    "<" is followed by a character other than ">" and, further on, by a
    ">".  The result is never longer than the text, a text without tag
    is left as it is, and stripping twice is stripping once. *)
Theorem strip_tags_removes_every_tag (html : string) :
  has_tag (strip_tags html) = false /\
  (String.length (strip_tags html) <= String.length html)%nat /\
  (has_tag html = false -> strip_tags html = html) /\
  strip_tags (strip_tags html) = strip_tags html.
Proof.
  split; [apply strip_tags_no_tag_left|].
  split; [apply strip_tags_length|].
  split; [apply strip_tags_fixed|].
  apply strip_tags_fixed, strip_tags_no_tag_left.
Qed.

Section ReaderProperties.

Variable decode : string -> option string.

(** X18.  The body of a message does not depend on what [_get_body]
    passes over: among the parts of the payload and of every part it
    enters, a part that is neither plain text nor HTML and holds no
    sub-parts (an attached file) is not read, and the sub-parts of a
    plain-text or HTML part are not visited.  Removing all of them gives
    the same body, or the same failure to decode. *)
Theorem get_body_passes_over (payload : Part) :
  get_body decode (prune payload) = get_body decode payload.
Proof. exact (get_body_prune decode payload). Qed.

(** X19.  [_get_body] returns a text as soon as every data string it
    reads can be decoded, whatever the data of the parts it passes
    over. *)
Theorem get_body_returns (payload : Part) :
  (forall d, In d (all_data (prune payload)) -> decode d <> None) ->
  exists text, get_body decode payload = Some text.
Proof.
  intros Hd. pose proof (get_body_succeeds_aux decode _ Hd) as H.
  rewrite get_body_prune in H.
  destruct (get_body decode payload) as [text|]; [eauto|contradiction].
Qed.

(** X20.  [_get_body] fails for no other reason than a data string of
    the payload that cannot be decoded. *)
Theorem get_body_fails_on_data (payload : Part) :
  get_body decode payload = None ->
  exists d, In d (all_data payload) /\ decode d = None.
Proof. apply get_body_fails_aux. Qed.

(** X21.  HTML is stripped of its tags only inside a list of parts.  A
    message whose payload is itself the HTML part keeps every tag in its
    body, while the same HTML as a part of a multipart payload loses
    them; so the two bodies differ as soon as the HTML holds a tag. *)
Theorem html_is_stripped_only_inside_parts (d html : string)
    (b : PartBody) (m f f' : option string) (h h' : list Header) :
  body_data b = Some d -> d <> EmptyString -> decode d = Some html ->
  has_tag html = true ->
  let html_part := mkPart (Some "text/html") f' (Some b) h' None in
  get_body decode html_part = Some html /\
  get_body decode (mkPart m f None h (Some [html_part]))
  = Some (strip_tags html) /\
  strip_tags html <> html.
Proof.
  intros Hb Hne Hd Ht html_part.
  assert (E : data_of (Some b) = Some d).
  { unfold data_of. rewrite Hb.
    destruct (String.eqb d EmptyString) eqn:Ed; [|reflexivity].
    apply String.eqb_eq in Ed. contradiction. }
  split; [|split].
  - unfold html_part. rewrite get_body_unfold. cbn [part_body part_parts].
    now rewrite E, Hd.
  - rewrite get_body_unfold. cbn [part_body part_parts data_of].
    cbn [get_body_each]. unfold html_part.
    change (mime_is (mkPart (Some "text/html") f' (Some b) h' None)
              "text/plain") with false.
    change (mime_is (mkPart (Some "text/html") f' (Some b) h' None)
              "text/html") with true.
    cbn [part_body]. now rewrite E, Hd.
  - intros Heq. pose proof (strip_tags_no_tag_left html) as N.
    rewrite Heq, Ht in N. discriminate.
Qed.

(** X22.  [get_email_details] puts the pieces together.  When the
    message can be fetched and every data string [_get_body] reads can
    be decoded, the details are returned: the id asked for, the last
    subject, sender and date headers of the payload, the body, and the
    named parts of the payload as attachments. *)
Theorem get_email_details_reads (messages_get : string -> option Message)
    (msg_id : string) (message : Message) :
  messages_get msg_id = Some message ->
  (forall d, In d (all_data (prune (payload_of message))) ->
             decode d <> None) ->
  exists body,
    get_body decode (payload_of message) = Some body /\
    get_email_details_of decode messages_get msg_id
    = Fetched
        {| email_id := msg_id;
           email_subject :=
             last_header "subject" (part_headers (payload_of message));
           email_sender :=
             last_header "from" (part_headers (payload_of message));
           email_date :=
             last_header "date" (part_headers (payload_of message));
           email_body := body;
           email_attachments :=
             List.flat_map attachment_here
               (preorder (payload_of message)) |}.
Proof.
  intros Hm Hd.
  pose proof (get_body_succeeds_aux decode _ Hd) as H.
  rewrite get_body_prune in H.
  destruct (get_body decode (payload_of message)) as [body|] eqn:Eb;
    [|contradiction].
  exists body. split; [reflexivity|].
  unfold get_email_details_of. rewrite Hm, Eb, extract_headers_spec.
  cbn [hf_subject hf_sender hf_date].
  unfold get_attachments_info. now rewrite extract_attachments_spec.
Qed.

End ReaderProperties.

Lemma html_is_stripped_only_inside_parts_witness :
  let b := {| body_data := Some "<p>html</p>"; body_attachmentId := None;
              body_size := Some 11%nat |} in
  let html_part := mkPart (Some "text/html") None (Some b) [] None in
  get_body example_decode html_part = Some "<p>html</p>" /\
  get_body example_decode
    (mkPart (Some "multipart/alternative") None None [] (Some [html_part]))
  = Some (strip_tags "<p>html</p>") /\
  strip_tags "<p>html</p>" <> "<p>html</p>".
Proof.
  assert (Hne : "<p>html</p>" <> EmptyString) by discriminate.
  exact (html_is_stripped_only_inside_parts example_decode
           "<p>html</p>" "<p>html</p>"
           {| body_data := Some "<p>html</p>"; body_attachmentId := None;
              body_size := Some 11%nat |}
           (Some "multipart/alternative") None None [] []
           eq_refl Hne eq_refl eq_refl).
Defined.

Lemma get_body_returns_witness :
  exists text,
    get_body example_decode (payload_of example_message) = Some text.
Proof.
  apply (get_body_returns example_decode (payload_of example_message)).
  intros d _. discriminate.
Defined.

Lemma get_body_fails_on_data_witness :
  let payload :=
    mkPart (Some "text/plain") None
      (Some {| body_data := Some "!"; body_attachmentId := None;
               body_size := Some 1%nat |}) [] None in
  exists d, In d (all_data payload) /\ strict_decode d = None.
Proof.
  apply (get_body_fails_on_data strict_decode
           (mkPart (Some "text/plain") None
              (Some {| body_data := Some "!"; body_attachmentId := None;
                       body_size := Some 1%nat |}) [] None)).
  reflexivity.
Defined.

Lemma get_email_details_reads_witness :
  exists body,
    get_body example_decode (payload_of example_message) = Some body /\
    get_email_details_of example_decode (fun _ => Some example_message) "m1"
    = Fetched
        {| email_id := "m1";
           email_subject :=
             last_header "subject"
               (part_headers (payload_of example_message));
           email_sender :=
             last_header "from" (part_headers (payload_of example_message));
           email_date :=
             last_header "date" (part_headers (payload_of example_message));
           email_body := body;
           email_attachments :=
             List.flat_map attachment_here
               (preorder (payload_of example_message)) |}.
Proof.
  apply (get_email_details_reads example_decode
           (fun _ => Some example_message) "m1" example_message).
  - reflexivity.
  - intros d _. discriminate.
Defined.

(* ===================================================================== *)
(** ** The rejection counters and the rationale of a decision *)
(* ===================================================================== *)

Lemma contains_first_char (c : ascii) (p s : string) (P : ascii -> bool) :
  P c = false -> all_chars P s = true ->
  Py.contains (String c p) s = false.
Proof.
  intros Hc. induction s as [|x s IH]; [reflexivity|].
  cbn [all_chars Py.contains String.prefix]. intros H.
  apply andb_true_iff in H as [Hx Hs].
  destruct (ascii_dec c x) as [->|_]; [congruence|].
  now apply IH.
Qed.

Lemma all_chars_concat (P : ascii -> bool) (sep : string)
    (l : list string) :
  all_chars P sep = true -> Forall (fun s => all_chars P s = true) l ->
  all_chars P (String.concat sep l) = true.
Proof.
  intros Hsep. induction 1 as [|x l Hx Hl IH]; [reflexivity|].
  cbn [String.concat]. destruct l as [|y l]; [exact Hx|].
  rewrite !all_chars_app, Hx, Hsep. exact IH.
Qed.

Lemma all_chars_repr_list (l : list string) :
  Forall (fun s => all_chars no_E_N s = true) l ->
  all_chars no_E_N (Py.repr_list l) = true.
Proof.
  intros H. unfold Py.repr_list, Py.join.
  assert (C : all_chars no_E_N (String.concat ", " (List.map Py.repr_str l))
              = true).
  { apply all_chars_concat; [reflexivity|].
    induction H as [|x l Hx _ IH]; constructor; [|exact IH].
    unfold Py.repr_str. rewrite !all_chars_app, Hx. reflexivity. }
  rewrite !all_chars_app, C. reflexivity.
Qed.

Lemma all_chars_string_of_uint (d : Decimal.uint) :
  all_chars no_E_N (NilEmpty.string_of_uint d) = true.
Proof. induction d; cbn; auto. Qed.

Lemma all_chars_str_of_nat (n : nat) :
  all_chars no_E_N (Py.str_of_nat n) = true.
Proof.
  unfold Py.str_of_nat, NilZero.string_of_uint.
  destruct (Nat.to_uint n); try reflexivity;
    apply (all_chars_string_of_uint (_ _)).
Qed.

Lemma all_chars_format_percent0 (x : float) :
  all_chars no_E_N (Py.format_percent0 x) = true.
Proof.
  unfold Py.format_percent0.
  destruct (Prim2SF (x * 100)) as [[]|[]| |[] m e]; try reflexivity;
    rewrite !all_chars_app, all_chars_str_of_nat; reflexivity.
Qed.

Lemma count_rejection_counters (r : Results) (reason : string) :
  rejection_counters (count_rejection r reason)
  = if Py.contains "EXCLUDED" reason then
      (S (skipped_rate_confirmations r), skipped_no_identifier r,
       skipped_not_mechanic r)
    else if Py.contains "No truck identifier" reason then
      (skipped_rate_confirmations r, S (skipped_no_identifier r),
       skipped_not_mechanic r)
    else
      (skipped_rate_confirmations r, skipped_no_identifier r,
       S (skipped_not_mechanic r)).
Proof.
  unfold count_rejection.
  destruct (Py.contains "EXCLUDED" reason); [reflexivity|].
  destruct (Py.contains "No truck identifier" reason); reflexivity.
Qed.

(** X23.  The three rejection counters follow the stage at which
    [classify] stopped, although [scan] only looks for two phrases in the
    rationale.  With search terms that hold neither "E" nor "N" (the
    classifier lowers them), a rejected message is counted under rate
    confirmations exactly when [should_exclude] held, for whichever of
    its three reasons; under no identifier exactly when it was not
    excluded and no search term was found; and under not mechanic in the
    two cases left, no keyword or a score below the threshold. *)
Theorem rejection_counter_follows_stage (self : InvoiceClassifier)
    (r : Results) (subject body sender : string)
    (attachment_names : list string) :
  Forall (fun t => all_chars no_E_N t = true) (search_terms self) ->
  let d := classify self subject body sender attachment_names in
  let full_text := full_text_of subject body attachment_names in
  is_mechanic_invoice d = false ->
  rejection_counters (count_rejection r (reason d))
  = if fst (should_exclude self full_text sender) then
      (S (skipped_rate_confirmations r), skipped_no_identifier r,
       skipped_not_mechanic r)
    else if fst (contains_truck_identifier self full_text) then
      (skipped_rate_confirmations r, skipped_no_identifier r,
       S (skipped_not_mechanic r))
    else
      (skipped_rate_confirmations r, S (skipped_no_identifier r),
       skipped_not_mechanic r).
Proof.
  intros Hterms d full_text _. rewrite count_rejection_counters.
  unfold d, classify. fold full_text.
  destruct (should_exclude self full_text sender) as [excluded why].
  cbn [fst]. destruct excluded.
  { cbn [reason].
    assert (E : Py.contains "EXCLUDED" ("EXCLUDED: " +:+ why) = true).
    { apply contains_spec. exists EmptyString, (": " +:+ why). reflexivity. }
    now rewrite E. }
  unfold classify_from_identifiers.
  assert (Hids : Forall (fun s => all_chars no_E_N s = true)
                   (snd (contains_truck_identifier self full_text))).
  { unfold contains_truck_identifier. cbn [snd].
    apply List.Forall_forall. intros t Ht.
    apply List.filter_In in Ht as [Ht _].
    rewrite List.Forall_forall in Hterms. now apply Hterms. }
  destruct (contains_truck_identifier self full_text) as [has ids].
  cbn [fst snd] in *. destruct has; cbn [negb].
  2:{ cbn [reason]. reflexivity. }
  assert (Free : forall reason', all_chars no_E_N reason' = true ->
            Py.contains "EXCLUDED" reason' = false /\
            Py.contains "No truck identifier" reason' = false).
  { intros reason' H. split; apply (contains_first_char _ _ _ no_E_N);
      auto. }
  destruct (is_mechanic_related self full_text) as [is_mechanic kws].
  destruct is_mechanic; cbn [negb].
  - destruct (PrimFloat.leb 0.3
                (confidence_score subject full_text kws attachment_names));
      cbn [reason].
    + destruct (Free ("Mechanic invoice detected (confidence: "
                      +:+ Py.format_percent0
                            (confidence_score subject full_text kws
                               attachment_names) +:+ ")")) as [F1 F2].
      { rewrite !all_chars_app, all_chars_format_percent0. reflexivity. }
      now rewrite F1, F2.
    + destruct (Free ("Low confidence ("
                      +:+ Py.format_percent0
                            (confidence_score subject full_text kws
                               attachment_names)
                      +:+ ") - not enough signals")) as [F1 F2].
      { rewrite !all_chars_app, all_chars_format_percent0. reflexivity. }
      now rewrite F1, F2.
  - cbn [reason].
    destruct (Free ("Found truck ID (" +:+ Py.repr_list ids
                    +:+ ") but no mechanic keywords")) as [F1 F2].
    { rewrite !all_chars_app, (all_chars_repr_list ids Hids). reflexivity. }
    now rewrite F1, F2.
Qed.

Lemma rejection_counter_follows_stage_witness :
  rejection_counters
    (count_rejection empty_results
       (reason (classify InvoiceClassifier_init "Weekly Newsletter"
                  "tire specials" "news@example.com" [])))
  = (0%nat, 1%nat, 0%nat).
Proof.
  assert (H1 : Forall (fun t => all_chars no_E_N t = true)
                 (search_terms InvoiceClassifier_init))
    by (vm_compute; repeat constructor).
  assert (H2 : is_mechanic_invoice
                 (classify InvoiceClassifier_init "Weekly Newsletter"
                    "tire specials" "news@example.com" []) = false)
    by (vm_compute; reflexivity).
  pose proof (rejection_counter_follows_stage InvoiceClassifier_init
                empty_results "Weekly Newsletter" "tire specials"
                "news@example.com" [] H1 H2) as T.
  cbv zeta in T. rewrite T. vm_compute. reflexivity.
Defined.
